(** * coda-fb: the EVIO-6 frame builder of the E2SAR receiver

    A shallow embedding of [e2sar_reassembler_framebuilder.cpp]: the
    [TimeSlice] and [AggregatedFrame] structures, the per-thread frame
    buffer, the EVIO-6 record encoder [buildEVIO6Frame], the two output
    sinks, the body of the builder thread, the stop protocol and the
    [FrameBuilder] facade.

    Conventions.
    - Unsigned C++ integers are [Z] with the wrap-around written out
      ([u32], [u64]); [size_t] quantities are sizes of containers that
      exist in memory and are kept as unbounded [Z].
    - Bytes are [Init.Byte.byte]; a [std::vector<uint8_t>] is a [list byte].
    - The host is little-endian (x86-64), which is what the encoder's
      "byte swap to BIG endian" step assumes: a [uint32_t] stored through a
      [uint32_t*] lands in memory as [le_split 4].
    - [std::unordered_map<uint64_t, AggregatedFrame>] is a [gmap Z _].
    - [steady_clock::now()] readings and the outcome of calls into the ET
      library and the file system are inputs of the functions that make
      them. *)

From Stdlib Require Import ZArith Lia String List.
From stdpp Require Import gmap list.
From coqutil Require Import Byte Z.bitblast Word.LittleEndianList.
Import ListNotations.
Local Open Scope Z_scope.

(** ** Machine integers and the wire encoding *)

Definition u16 (z : Z) : Z := z mod 2 ^ 16.
Definition u32 (z : Z) : Z := z mod 2 ^ 32.
Definition u64 (z : Z) : Z := z mod 2 ^ 64.

(** Conversion to [int] (32-bit two's complement). *)
Definition to_int (z : Z) : Z := (z + 2 ^ 31) mod 2 ^ 32 - 2 ^ 31.

Definition is_u16 (z : Z) : Prop := 0 <= z < 2 ^ 16.
Definition is_u32 (z : Z) : Prop := 0 <= z < 2 ^ 32.
Definition is_u64 (z : Z) : Prop := 0 <= z < 2 ^ 64.

(** The swap of step 7, on a [uint32_t]. *)
Definition bswap32 (val : Z) : Z :=
  Z.lor (Z.lor (Z.lor
    (u32 (Z.shiftl (Z.land val 0x000000FF) 24))
    (u32 (Z.shiftl (Z.land val 0x0000FF00) 8)))
    (Z.shiftr (Z.land val 0x00FF0000) 8))
    (Z.shiftr (Z.land val 0xFF000000) 24).

(** [reinterpret_cast<const uint32_t*>(p)[i]] on the host. *)
Definition host_word (p : list byte) (i : nat) : Z :=
  le_combine (take 4 (drop (4 * i) p)).

(** Storing a [uint32_t] array through a [uint32_t*] on the host. *)
Definition host_store_words (ws : list Z) : list byte :=
  flat_map (le_split 4) ws.

(** Reader side: the [i]-th big-endian 32-bit word of a buffer. *)
Definition read_be_u32 (B : list byte) (i : nat) : Z :=
  match drop (4 * i) B with
  | b0 :: b1 :: b2 :: b3 :: _ =>
      Z.lor (Z.lor (Z.lor
        (Z.shiftl (byte.unsigned b0) 24)
        (Z.shiftl (byte.unsigned b1) 16))
        (Z.shiftl (byte.unsigned b2) 8))
        (byte.unsigned b3)
  | _ => 0
  end.

(** ** Data model *)

Module TimeSlice.
Record t := mk {
  timestamp : Z;        (* uint64_t *)
  frameNumber : Z;      (* uint32_t *)
  dataId : Z;           (* uint16_t *)
  streamStatus : Z;     (* uint16_t *)
  payload : list byte
}.

(** [TimeSlice(ts, frame, id, data, len)] *)
Definition make (ts frame id : Z) (data : list byte) : t :=
  {| timestamp := ts; frameNumber := frame; dataId := id;
     streamStatus := 0; payload := data |}.

Definition well_typed (s : t) : Prop :=
  is_u64 (timestamp s) /\ is_u32 (frameNumber s) /\
  is_u16 (dataId s) /\ is_u16 (streamStatus s).
End TimeSlice.

Module AggregatedFrame.
Record t := mk {
  timestamp : Z;                  (* uint64_t *)
  frameNumber : Z;                (* uint32_t *)
  slices : list TimeSlice.t;
  arrivalTime : Z                 (* steady_clock::time_point, in ms *)
}.

(** [AggregatedFrame()], constructed when the clock reads [now]. *)
Definition make (now : Z) : t :=
  {| timestamp := 0; frameNumber := 0; slices := []; arrivalTime := now |}.

Definition addSlice (f : t) (slice : TimeSlice.t) : t :=
  {| timestamp := timestamp f; frameNumber := frameNumber f;
     slices := slices f ++ [slice]; arrivalTime := arrivalTime f |}.

Definition getSliceCount (f : t) : Z := Z.of_nat (length (slices f)).

Definition isTimedOut (f : t) (now timeoutMs : Z) : bool :=
  timeoutMs <? now - arrivalTime f.
End AggregatedFrame.

(** ** The record encoder *)

Module Encoder.

(** [checkTimestampConsistency] *)
Definition checkTimestampConsistency (timestampSlop : Z)
    (frame : AggregatedFrame.t) : bool :=
  match AggregatedFrame.slices frame with
  | [] => false
  | s0 :: _ =>
      let '(tsMin, tsMax) :=
        fold_left (fun '(mn, mx) slice =>
                     (Z.min mn (TimeSlice.timestamp slice),
                      Z.max mx (TimeSlice.timestamp slice)))
                  (AggregatedFrame.slices frame)
                  (TimeSlice.timestamp s0, TimeSlice.timestamp s0) in
      u64 timestampSlop <? u64 (tsMax - tsMin)
  end.

(** [calculateAverageTimestamp] *)
Definition calculateAverageTimestamp (frame : AggregatedFrame.t) : Z :=
  match AggregatedFrame.slices frame with
  | [] => 0
  | _ =>
      let total :=
        fold_left (fun total slice => u64 (total + TimeSlice.timestamp slice))
                  (AggregatedFrame.slices frame) 0 in
      total / Z.of_nat (length (AggregatedFrame.slices frame))
  end.

(** Outcome of the checks made on one slice in the loop of step 1. *)
Inductive slice_check := PayloadTooSmall | BadMagic | SliceOk.

Definition checkSlice (slice : TimeSlice.t) : slice_check :=
  if Z.of_nat (length (TimeSlice.payload slice)) <? 32 then PayloadTooSmall
  else
    let magic := host_word (TimeSlice.payload slice) 7 in
    if negb (magic =? 0xc0da0100) && negb (magic =? 0x0001dac0)
    then BadMagic
    else SliceOk.

(** The loop of step 1 over [frame.slices]: the state is
    [(hasError, rocBanks)]. *)
Definition stripStep (st : bool * list (list byte)) (slice : TimeSlice.t)
    : bool * list (list byte) :=
  let '(hasError, rocBanks) := st in
  match checkSlice slice with
  | PayloadTooSmall => (true, rocBanks)
  | BadMagic => (true, rocBanks)
  | SliceOk => (hasError, rocBanks ++ [drop 32 (TimeSlice.payload slice)])
  end.

Definition stripLoop (hasError : bool) (slices : list TimeSlice.t)
    : bool * list (list byte) :=
  fold_left stripStep slices (hasError, []).

(** The 14-word record header of step 2, before back-patching. *)
Definition bitInfo : Z :=
  Z.lor (Z.lor (Z.lor 6 (Z.shiftl 1 9)) (Z.shiftl 1 14)) (Z.shiftl 1 31).

Definition recordHeader : list Z :=
  [0; 0; 14; 1; 0; bitInfo; 0; 0xc0da0100; 0; 0; 0; 0; 0; 0].

Definition aisEntry (slice : TimeSlice.t) : Z :=
  u32 (Z.lor (Z.shiftl (TimeSlice.dataId slice) 16)
             (TimeSlice.streamStatus slice)).

(** Step 5: the padded size of the ROC banks, in bytes. *)
Definition totalPayloadBytes (rocBanks : list (list byte)) : Z :=
  fold_left (fun total rocBank =>
               let size := Z.of_nat (length rocBank) in
               let total := total + size in
               if negb (size mod 4 =? 0) then total + (4 - size mod 4)
               else total)
            rocBanks 0.

(** [while (output.size() % 4 != 0) output.push_back(0)]: at most three
    rounds are ever needed. *)
Fixpoint padLoop (fuel : nat) (output : list byte) : list byte :=
  match fuel with
  | O => output
  | S fuel =>
      if Z.of_nat (length output) mod 4 =? 0 then output
      else padLoop fuel (output ++ [Byte.x00])
  end.

(** Step 8. *)
Definition appendRocBanks (output : list byte) (rocBanks : list (list byte))
    : list byte :=
  fold_left (fun output rocBank => padLoop 3 (output ++ rocBank))
            rocBanks output.

(** Steps 2 to 6: the metadata words, in host order. *)
Definition buildEventWords (frame : AggregatedFrame.t) (tsAvg : Z)
    (sliceCount streamStatus : Z) (rocBanks : list (list byte)) : list Z :=
  let eventWords := recordHeader in
  (* step 3 *)
  let aggregatedBankLengthIndex := length eventWords in
  let eventWords := eventWords ++ [0] in
  let aggBankHeader :=
    u32 (Z.lor (Z.lor (Z.shiftl 0xFF60 16) (Z.shiftl 0x10 8)) streamStatus) in
  let eventWords := eventWords ++ [aggBankHeader] in
  (* step 4 *)
  let streamInfoLengthIndex := length eventWords in
  let eventWords := eventWords ++ [0] in
  let streamInfoHeader :=
    u32 (Z.lor (Z.lor (Z.shiftl 0xFF31 16) (Z.shiftl 0x20 8)) streamStatus) in
  let eventWords := eventWords ++ [streamInfoHeader] in
  let tssHeader := Z.lor (Z.lor (Z.shiftl 0x32 24) (Z.shiftl 0x01 16)) 3 in
  let eventWords := eventWords ++ [tssHeader] in
  let eventWords := eventWords ++ [u32 (AggregatedFrame.frameNumber frame)] in
  let eventWords := eventWords ++ [u32 (Z.land tsAvg 0xFFFFFFFF)] in
  let eventWords :=
    eventWords ++ [u32 (Z.land (Z.shiftr tsAvg 32) 0xFFFFFFFF)] in
  let aisHeader :=
    u32 (Z.lor (Z.lor (Z.shiftl 0x42 24) (Z.shiftl 0x01 16)) sliceCount) in
  let eventWords := eventWords ++ [aisHeader] in
  let eventWords :=
    fold_left (fun ew slice => ew ++ [aisEntry slice])
              (AggregatedFrame.slices frame) eventWords in
  let streamInfoLength :=
    Z.of_nat (length eventWords) - Z.of_nat streamInfoLengthIndex - 1 in
  let eventWords := <[streamInfoLengthIndex := u32 streamInfoLength]> eventWords in
  (* step 5 *)
  let totalPayloadWords := totalPayloadBytes rocBanks / 4 in
  (* step 6 *)
  let aggregatedBankLength :=
    (Z.of_nat (length eventWords) - Z.of_nat aggregatedBankLengthIndex - 1)
    + totalPayloadWords in
  let eventWords :=
    <[aggregatedBankLengthIndex := u32 aggregatedBankLength]> eventWords in
  let recordLength := 14 + aggregatedBankLength + 1 in
  let eventWords := <[0%nat := u32 recordLength]> eventWords in
  let uncompressedDataLength := recordLength - 14 in
  <[8%nat := u32 uncompressedDataLength]> eventWords.

(** [buildEVIO6Frame(frame, output)]: returns whether [timestampErrors]
    is incremented, the function's result and the final [output]. *)
Definition buildEVIO6Frame (timestampSlop : Z) (frame : AggregatedFrame.t)
    (output : list byte) : bool * bool * list byte :=
  let sliceCount := to_int (Z.of_nat (length (AggregatedFrame.slices frame))) in
  let hasError := checkTimestampConsistency timestampSlop frame in
  let tsError := hasError in
  let tsAvg := calculateAverageTimestamp frame in
  let streamStatus :=
    Z.lor (Z.shiftl (if hasError then 1 else 0) 7) (Z.land sliceCount 0x7F) in
  let '(hasError, rocBanks) :=
    stripLoop hasError (AggregatedFrame.slices frame) in
  match rocBanks with
  | [] => (tsError, false, output)
  | _ =>
      let eventWords :=
        buildEventWords frame tsAvg sliceCount streamStatus rocBanks in
      (* step 7 *)
      let output := host_store_words (map bswap32 eventWords) in
      (* step 8 *)
      let output := appendRocBanks output rocBanks in
      (tsError, negb hasError, output)
  end.

End Encoder.

(** ** One builder thread *)

Module BuilderThread.

(** State of the [std::thread] member. *)
Inductive thread_state := NotStarted | Joinable | Detached.

Definition joinable (th : thread_state) : bool :=
  match th with Joinable => true | _ => false end.

Record Config := mkConfig {
  threadIndex : Z;
  threadCount : Z;
  useET : bool;
  useFileOutput : bool;
  outputDir : string;
  outputPrefix : string;
  maxFileSize : Z;
  timestampSlop : Z;
  frameTimeoutMs : Z;
  etEventSize : Z;
  expectedStreamCount : Z
}.

Record Stats := mkStats {
  framesBuilt : Z;
  slicesProcessed : Z;
  buildErrors : Z;
  timestampErrors : Z;
  filesCreated : Z;
  bytesWritten : Z
}.

(** The output stream and the files of this thread. A file is named
    [{outputDir}/{outputPrefix}_thread{threadIndex}_file{NNNN}.evio], so
    within one thread it is identified by its number. *)
Record FileOut := mkFileOut {
  outputFile : option Z;
  currentFileSize : Z;
  currentFileNumber : Z;
  files : gmap Z (list byte)
}.

Record t := mk {
  config : Config;
  fileOut : FileOut;
  stats : Stats;
  frameBuffer : gmap Z AggregatedFrame.t;
  thread : thread_state;
  running : bool;
  (** Events handed to the ET system by [et_events_put], oldest first. *)
  etEvents : list (list byte)
}.

Definition with_fileOut (bt : t) (fo : FileOut) : t :=
  mk (config bt) fo (stats bt) (frameBuffer bt) (thread bt) (running bt)
     (etEvents bt).
Definition with_stats (bt : t) (st : Stats) : t :=
  mk (config bt) (fileOut bt) st (frameBuffer bt) (thread bt) (running bt)
     (etEvents bt).
Definition with_frameBuffer (bt : t) (fb : gmap Z AggregatedFrame.t) : t :=
  mk (config bt) (fileOut bt) (stats bt) fb (thread bt) (running bt)
     (etEvents bt).
Definition with_thread (bt : t) (th : thread_state) : t :=
  mk (config bt) (fileOut bt) (stats bt) (frameBuffer bt) th (running bt)
     (etEvents bt).
Definition with_running (bt : t) (r : bool) : t :=
  mk (config bt) (fileOut bt) (stats bt) (frameBuffer bt) (thread bt) r
     (etEvents bt).
Definition with_etEvents (bt : t) (ev : list (list byte)) : t :=
  mk (config bt) (fileOut bt) (stats bt) (frameBuffer bt) (thread bt)
     (running bt) ev.

Definition incFramesBuilt (bt : t) : t :=
  let s := stats bt in
  with_stats bt (mkStats (u64 (framesBuilt s + 1)) (slicesProcessed s)
    (buildErrors s) (timestampErrors s) (filesCreated s) (bytesWritten s)).
Definition incSlicesProcessed (bt : t) : t :=
  let s := stats bt in
  with_stats bt (mkStats (framesBuilt s) (u64 (slicesProcessed s + 1))
    (buildErrors s) (timestampErrors s) (filesCreated s) (bytesWritten s)).
Definition incBuildErrors (bt : t) : t :=
  let s := stats bt in
  with_stats bt (mkStats (framesBuilt s) (slicesProcessed s)
    (u64 (buildErrors s + 1)) (timestampErrors s) (filesCreated s)
    (bytesWritten s)).
Definition incTimestampErrors (bt : t) : t :=
  let s := stats bt in
  with_stats bt (mkStats (framesBuilt s) (slicesProcessed s)
    (buildErrors s) (u64 (timestampErrors s + 1)) (filesCreated s)
    (bytesWritten s)).
Definition incFilesCreated (bt : t) : t :=
  let s := stats bt in
  with_stats bt (mkStats (framesBuilt s) (slicesProcessed s)
    (buildErrors s) (timestampErrors s) (u64 (filesCreated s + 1))
    (bytesWritten s)).
Definition addBytesWritten (bt : t) (n : Z) : t :=
  let s := stats bt in
  with_stats bt (mkStats (framesBuilt s) (slicesProcessed s)
    (buildErrors s) (timestampErrors s) (filesCreated s)
    (u64 (bytesWritten s + n))).

(** The constructor. *)
Definition make (index count tsSlop timeout evtSize : Z)
    (enableET enableFile : bool) (fileDir filePrefix : string)
    (numExpectedStreams : Z) : t :=
  {| config := {| threadIndex := index; threadCount := count;
                  useET := enableET; useFileOutput := enableFile;
                  outputDir := fileDir; outputPrefix := filePrefix;
                  maxFileSize := 2 * 1024 * 1024 * 1024;
                  timestampSlop := tsSlop; frameTimeoutMs := timeout;
                  etEventSize := evtSize;
                  expectedStreamCount := numExpectedStreams |};
     fileOut := {| outputFile := None; currentFileSize := 0;
                   currentFileNumber := 0; files := ∅ |};
     stats := mkStats 0 0 0 0 0 0;
     frameBuffer := ∅;
     thread := NotStarted;
     running := false;
     etEvents := [] |}.

(** *** File sink *)

(** Outcome of the stream operations of one [openNextFile] call. *)
Record OpenEnv := mkOpenEnv { open_ok : bool; header_ok : bool }.

Definition fileHeader : list Z :=
  [0x4556494F; 0; 0x0000000E; 0; 0; 0x00000006; 0; 0xC0DA0100;
   0; 0; 0; 0; 0; 0].

(** Appending to the file the stream is open on. *)
Definition appendToOpenFile (fo : FileOut) (bytes : list byte) : FileOut :=
  match outputFile fo with
  | Some n =>
      mkFileOut (outputFile fo) (currentFileSize fo) (currentFileNumber fo)
        (<[n := default [] (files fo !! n) ++ bytes]> (files fo))
  | None => fo
  end.

Definition writeFileHeader (ok : bool) (bt : t) : t * bool :=
  (* htonl on each word, then 56 bytes written from the array *)
  let bytes := host_store_words (map bswap32 fileHeader) in
  if ok then
    let fo := appendToOpenFile (fileOut bt) bytes in
    (with_fileOut bt
       (mkFileOut (outputFile fo) (u64 (currentFileSize fo + 56))
                  (currentFileNumber fo) (files fo)), true)
  else (bt, false).

Definition closeStream (bt : t) : t :=
  let fo := fileOut bt in
  with_fileOut bt
    (mkFileOut None (currentFileSize fo) (currentFileNumber fo) (files fo)).

Definition openNextFile (env : OpenEnv) (bt : t) : t * bool :=
  let bt := closeStream bt in
  let fo := fileOut bt in
  if open_ok env then
    (* binary | out | trunc *)
    let bt := with_fileOut bt
      (mkFileOut (Some (currentFileNumber fo)) 0 (currentFileNumber fo)
                 (<[currentFileNumber fo := []]> (files fo))) in
    let bt := incFilesCreated bt in
    let '(bt, ok) := writeFileHeader (header_ok env) bt in
    if ok then (bt, true) else (closeStream bt, false)
  else (bt, false).

(** Outcome of the stream operations of one [writeToFile] call. *)
Record FileEnv := mkFileEnv {
  first_open : OpenEnv;
  write_ok : bool;
  rollover_open : OpenEnv
}.

Definition bumpFileNumber (bt : t) : t :=
  let fo := fileOut bt in
  with_fileOut bt
    (mkFileOut (outputFile fo) (currentFileSize fo)
               (to_int (currentFileNumber fo + 1)) (files fo)).

Definition writeToFile (env : FileEnv) (frameData : list byte) (bt : t)
    : t * bool :=
  let '(bt, opened) :=
    match outputFile (fileOut bt) with
    | Some _ => (bt, true)
    | None => openNextFile (first_open env) bt
    end in
  if negb opened then (incBuildErrors bt, false)
  else if negb (write_ok env) then (incBuildErrors bt, false)
  else
    let size := Z.of_nat (length frameData) in
    let fo := appendToOpenFile (fileOut bt) frameData in
    let bt := with_fileOut bt
      (mkFileOut (outputFile fo) (u64 (currentFileSize fo + size))
                 (currentFileNumber fo) (files fo)) in
    let bt := addBytesWritten bt size in
    if maxFileSize (config bt) <=? currentFileSize (fileOut bt) then
      let bt := bumpFileNumber bt in
      let '(bt, ok) := openNextFile (rollover_open env) bt in
      if ok then (bt, true) else (bt, false)
    else (bt, true).

(** *** ET sink *)

(** Outcome of the ET calls of one [sendToET] call. *)
Record ETEnv := mkETEnv {
  events_new_ok : bool;     (* et_events_new returned ET_OK *)
  eventLength : Z;          (* et_event_getlength *)
  events_put_ok : bool      (* et_events_put returned ET_OK *)
}.

Definition sendToET (env : ETEnv) (frameData : list byte) (bt : t)
    : t * bool :=
  if negb (events_new_ok env) then (incBuildErrors bt, false)
  else if eventLength env <? Z.of_nat (length frameData) then
    (* et_events_dump *)
    (incBuildErrors bt, false)
  else if negb (events_put_ok env) then (incBuildErrors bt, false)
  else
    let bt := with_etEvents bt (etEvents bt ++ [frameData]) in
    let bt := incFramesBuilt bt in
    (addBytesWritten bt (Z.of_nat (length frameData)), true).

(** *** Frame buffer *)

(** [addTimeSlice(slice)], entered when the clock reads [now]. *)
Definition addTimeSlice (now : Z) (slice : TimeSlice.t) (bt : t) : t :=
  let key := TimeSlice.timestamp slice in
  (* frameBuffer[slice.timestamp] *)
  let frame := default (AggregatedFrame.make now) (frameBuffer bt !! key) in
  let frame :=
    if AggregatedFrame.timestamp frame =? 0 then
      {| AggregatedFrame.timestamp := TimeSlice.timestamp slice;
         AggregatedFrame.frameNumber := TimeSlice.frameNumber slice;
         AggregatedFrame.slices := AggregatedFrame.slices frame;
         AggregatedFrame.arrivalTime := now |}
    else frame in
  let frame := AggregatedFrame.addSlice frame slice in
  incSlicesProcessed (with_frameBuffer bt (<[key := frame]> (frameBuffer bt))).

(** *** The builder loop *)

Definition shouldBuild (bt : t) (frame : AggregatedFrame.t) (now : Z) : bool :=
  negb (bool_decide (AggregatedFrame.slices frame = []))
  && ((u64 (expectedStreamCount (config bt))
         <=? Z.of_nat (length (AggregatedFrame.slices frame)))
      || AggregatedFrame.isTimedOut frame now (frameTimeoutMs (config bt))).

(** What the thread observes while it handles one frame outside the
    lock: the successive values read from the atomic [running], and the
    outcome of the calls it makes. *)
Record BuildEnv := mkBuildEnv {
  running_after_unlock : bool;
  running_after_build : bool;
  running_before_et : bool;
  et_env : ETEnv;
  running_after_et : bool;
  running_before_file : bool;
  file_env : FileEnv
}.

(** The body of [if (shouldBuild)] in [threadFunc], from [lock.unlock()]
    to the matching [lock.lock()], for the copy [frameCopy] that was
    erased from the buffer. *)
Definition buildAndPublish (env : BuildEnv) (frameCopy : AggregatedFrame.t)
    (bt : t) : t :=
  if negb (running_after_unlock env) then bt
  else
    let '(tsError, ok, builtFrame) :=
      Encoder.buildEVIO6Frame (timestampSlop (config bt)) frameCopy [] in
    let bt := if tsError then incTimestampErrors bt else bt in
    if ok then
      let success := true in
      if negb (running_after_build env) then bt
      else
        let '(bt, success, stopped) :=
          if useET (config bt) && running_before_et env then
            let '(bt, sent) := sendToET (et_env env) builtFrame bt in
            (bt, sent && success, negb (running_after_et env))
          else (bt, success, false) in
        if stopped then bt
        else
          let '(bt, success) :=
            if useFileOutput (config bt) && running_before_file env then
              let '(bt, written) := writeToFile (file_env env) builtFrame bt in
              (bt, written && success)
            else (bt, success) in
          if success then incFramesBuilt bt else bt
    else bt.

(** One round of the inner loop on the entry with key [ts]. *)
Definition buildEntry (env : BuildEnv) (now ts : Z) (bt : t) : t :=
  match frameBuffer bt !! ts with
  | Some frame =>
      if shouldBuild bt frame now then
        let frameCopy := frame in
        buildAndPublish env frameCopy
          (with_frameBuffer bt (delete ts (frameBuffer bt)))
      else bt
  | None => bt
  end.

Definition start (bt : t) : t := with_thread (with_running bt true) Joinable.

(** *** Stopping *)

Section Timing.
(** [oversleep k] is the time by which the [k]-th call of
    [sleep_for] overshoots the requested duration. *)
Variable oversleep : nat -> Z.

Record ClockState := mkClockState { clock : Z; sleeps : nat }.

Definition sleep_for (ms : Z) (tm : ClockState) : ClockState :=
  {| clock := clock tm + ms + oversleep (sleeps tm);
     sleeps := S (sleeps tm) |}.

(** [signalStop]: five rounds of [notify_all] and a 50 ms sleep. *)
Definition signalStop (bt : t) (tm : ClockState) : t * ClockState :=
  let bt := with_running bt false in
  (bt, Nat.iter 5 (sleep_for 50) tm).

Definition max_wait_ms : Z := 1000.

(** The [while (true)] loop of [waitForStop]; [None] when the fuel
    runs out before the loop returns. *)
Fixpoint waitLoop (fuel : nat) (start : Z) (tm : ClockState) : option ClockState :=
  match fuel with
  | O => None
  | S fuel =>
      let tm := sleep_for 100 tm in
      let elapsed := clock tm - start in
      if max_wait_ms <? elapsed then Some tm
      else waitLoop fuel start tm
  end.

Definition waitForStop (fuel : nat) (bt : t) (tm : ClockState)
    : option (t * ClockState) :=
  if negb (joinable (thread bt)) then Some (bt, tm)
  else
    let start := clock tm in
    match waitLoop fuel start tm with
    | Some tm => Some (with_thread bt Detached, tm)
    | None => None
    end.
End Timing.

End BuilderThread.

(** ** The facade *)

Module FrameBuilder.

Record Stats := mkStats {
  framesBuilt : Z;
  slicesAggregated : Z;
  buildErrors : Z;
  timestampErrors : Z;
  filesCreated : Z;
  bytesWritten : Z
}.

Record t := mk {
  etSystem : bool;                 (* the handle is non-null *)
  etAttachments : list Z;
  etSystemFile : string;
  etHostName : string;
  etPort : Z;
  etEventSize : Z;
  enableET : bool;
  enableFileOutput : bool;
  fileOutputDir : string;
  fileOutputPrefix : string;
  builderThreadCount : Z;
  builderThreads : list BuilderThread.t;
  running : bool;
  stats : Stats;
  timestampSlop : Z;
  frameTimeoutMs : Z;
  expectedStreams : Z
}.

Definition with_threads (fb : t) (bts : list BuilderThread.t) : t :=
  mk (etSystem fb) (etAttachments fb) (etSystemFile fb) (etHostName fb)
     (etPort fb) (etEventSize fb) (enableET fb) (enableFileOutput fb)
     (fileOutputDir fb) (fileOutputPrefix fb) (builderThreadCount fb) bts
     (running fb) (stats fb) (timestampSlop fb) (frameTimeoutMs fb)
     (expectedStreams fb).
Definition with_running (fb : t) (r : bool) : t :=
  mk (etSystem fb) (etAttachments fb) (etSystemFile fb) (etHostName fb)
     (etPort fb) (etEventSize fb) (enableET fb) (enableFileOutput fb)
     (fileOutputDir fb) (fileOutputPrefix fb) (builderThreadCount fb)
     (builderThreads fb) r (stats fb) (timestampSlop fb) (frameTimeoutMs fb)
     (expectedStreams fb).
Definition with_stats (fb : t) (st : Stats) : t :=
  mk (etSystem fb) (etAttachments fb) (etSystemFile fb) (etHostName fb)
     (etPort fb) (etEventSize fb) (enableET fb) (enableFileOutput fb)
     (fileOutputDir fb) (fileOutputPrefix fb) (builderThreadCount fb)
     (builderThreads fb) (running fb) st (timestampSlop fb)
     (frameTimeoutMs fb) (expectedStreams fb).
Definition with_et (fb : t) (sys : bool) (atts : list Z) : t :=
  mk sys atts (etSystemFile fb) (etHostName fb)
     (etPort fb) (etEventSize fb) (enableET fb) (enableFileOutput fb)
     (fileOutputDir fb) (fileOutputPrefix fb) (builderThreadCount fb)
     (builderThreads fb) (running fb) (stats fb) (timestampSlop fb)
     (frameTimeoutMs fb) (expectedStreams fb).

Definition empty (s : string) : bool := bool_decide (s = EmptyString).

Inductive construction :=
| Constructed (fb : t)
| Throw_invalid_argument (what : string).

(** [FrameBuilder::FrameBuilder] *)
Definition make (etFile etHost : string) (etPort : Z)
    (fileDir filePrefix : string)
    (numBuilderThreads eventSize tsSlop timeout numExpectedStreams : Z)
    : construction :=
  let fb :=
    {| etSystem := false; etAttachments := [];
       etSystemFile := etFile; etHostName := etHost; etPort := etPort;
       etEventSize := eventSize;
       enableET := negb (empty etFile);
       enableFileOutput := negb (empty fileDir);
       fileOutputDir := fileDir; fileOutputPrefix := filePrefix;
       builderThreadCount := numBuilderThreads;
       builderThreads := [];
       running := false;
       stats := mkStats 0 0 0 0 0 0;
       timestampSlop := tsSlop; frameTimeoutMs := timeout;
       expectedStreams := numExpectedStreams |} in
  if negb (enableET fb) && negb (enableFileOutput fb)
  then Throw_invalid_argument "No output enabled"
  else Constructed fb.

Definition failed (c : construction) : Prop :=
  match c with Constructed _ => False | Throw_invalid_argument _ => True end.

(** The check on [--fb-threads] made by [main] in [e2sar_receiver.cpp]
    before the constructor is called; [true] when [main] returns -1. *)
Definition main_rejects_fbThreads (fbThreads : Z) : bool :=
  (fbThreads <? 1) || (32 <? fbThreads).

(** What [start] meets outside the program. *)
Record StartEnv := mkStartEnv {
  et_config_init_ok : bool;
  et_open_ok : bool;
  et_station_attach : nat -> option Z;   (* per thread: the attachment *)
  output_dir_ready : bool                (* exists, or could be created *)
}.

(** The attach loop of [initializeET] on [etAttachments]: the vector it
    leaves and whether every attach succeeded. When an attach fails the
    attachments pushed so far are detached, but they stay in the
    vector. *)
Fixpoint attachAll (env : StartEnv) (i n : nat) (atts : list Z)
    : list Z * bool :=
  match n with
  | O => (atts, true)
  | S n =>
      match et_station_attach env i with
      | Some att => attachAll env (S i) n (atts ++ [att])
      | None => (atts, false)
      end
  end.

Definition initializeET (env : StartEnv) (fb : t) : t * bool :=
  if negb (enableET fb) then (fb, true)
  else if negb (et_config_init_ok env) then (fb, false)
  else if negb (et_open_ok env) then (fb, false)
  else
    (* after a failed attach [et_close] is called, the handle is not reset *)
    let '(atts, ok) :=
      attachAll env 0 (Z.to_nat (builderThreadCount fb)) (etAttachments fb) in
    (with_et fb true atts, ok).

(** The thread-creation loop of [start]. *)
Definition spawn (fb : t) (i : nat) : BuilderThread.t :=
  BuilderThread.start
    (BuilderThread.make (Z.of_nat i) (builderThreadCount fb)
       (timestampSlop fb) (frameTimeoutMs fb) (etEventSize fb)
       (enableET fb) (enableFileOutput fb)
       (fileOutputDir fb) (fileOutputPrefix fb) (expectedStreams fb)).

Definition start (env : StartEnv) (fb : t) : t * bool :=
  let '(fb, ok) := if enableET fb then initializeET env fb else (fb, true) in
  if negb ok then (fb, false)
  else if enableFileOutput fb && negb (output_dir_ready env) then (fb, false)
  else
    let fb :=
      with_threads fb
        (builderThreads fb
           ++ map (spawn fb) (seq 0 (Z.to_nat (builderThreadCount fb)))) in
    (with_running fb true, true).

(** [addTimeSlice]; [None] where the C++ has no defined behaviour
    (remainder by zero, index outside [builderThreads]). *)
Definition addTimeSlice (now timestamp frameNumber dataId : Z)
    (data : list byte) (fb : t) : option t :=
  let count := u64 (builderThreadCount fb) in
  if count =? 0 then None
  else
    let threadIndex := to_int (timestamp mod count) in
    let slice := TimeSlice.make timestamp frameNumber dataId data in
    if threadIndex <? 0 then None
    else
      match builderThreads fb !! Z.to_nat threadIndex with
      | Some bt =>
          let fb :=
            with_threads fb
              (<[Z.to_nat threadIndex := BuilderThread.addTimeSlice now slice bt]>
                 (builderThreads fb)) in
          let s := stats fb in
          Some (with_stats fb
                  (mkStats (framesBuilt s) (u64 (slicesAggregated s + 1))
                     (buildErrors s) (timestampErrors s) (filesCreated s)
                     (bytesWritten s)))
      | None => None
      end.

(** *** Runs of a started frame builder

    A run is a sequence of events: a producer calls [addTimeSlice]
    (the arguments are converted to the parameter types), or builder
    thread [i] handles the buffer entry with key [ts]. *)
Inductive event :=
| Submit (now timestamp frameNumber dataId : Z) (data : list byte)
| Build (i : nat) (env : BuilderThread.BuildEnv) (now ts : Z).

Definition step (fb : t) (e : event) : option t :=
  match e with
  | Submit now timestamp frameNumber dataId data =>
      addTimeSlice now (u64 timestamp) (u32 frameNumber) (u16 dataId) data fb
  | Build i env now ts =>
      match builderThreads fb !! i with
      | Some bt =>
          Some (with_threads fb
                  (<[i := BuilderThread.buildEntry env now ts bt]>
                     (builderThreads fb)))
      | None => None
      end
  end.

Fixpoint run (evs : list event) (fb : t) : option t :=
  match evs with
  | [] => Some fb
  | e :: evs =>
      match step fb e with
      | Some fb => run evs fb
      | None => None
      end
  end.

Section Timing.
Variable oversleep : nat -> Z.

(** The two loops of [stop] over [builderThreads]. *)
Fixpoint signalAll (bts : list BuilderThread.t) (tm : BuilderThread.ClockState)
    : list BuilderThread.t * BuilderThread.ClockState :=
  match bts with
  | [] => ([], tm)
  | bt :: bts =>
      let '(bt, tm) := BuilderThread.signalStop oversleep bt tm in
      let '(bts, tm) := signalAll bts tm in
      (bt :: bts, tm)
  end.

Fixpoint waitAll (fuel : nat) (bts : list BuilderThread.t)
    (tm : BuilderThread.ClockState)
    : option (list BuilderThread.t * BuilderThread.ClockState) :=
  match bts with
  | [] => Some ([], tm)
  | bt :: bts =>
      match BuilderThread.waitForStop oversleep fuel bt tm with
      | Some (bt, tm) =>
          match waitAll fuel bts tm with
          | Some (bts, tm) => Some (bt :: bts, tm)
          | None => None
          end
      | None => None
      end
  end.

Definition collectStats (fb : t) : t :=
  let s0 := stats fb in
  let add (s : Stats) (bt : BuilderThread.t) : Stats :=
    let b := BuilderThread.stats bt in
    mkStats (u64 (framesBuilt s + BuilderThread.framesBuilt b))
            (slicesAggregated s)
            (u64 (buildErrors s + BuilderThread.buildErrors b))
            (u64 (timestampErrors s + BuilderThread.timestampErrors b))
            (u64 (filesCreated s + BuilderThread.filesCreated b))
            (u64 (bytesWritten s + BuilderThread.bytesWritten b)) in
  with_stats fb
    (fold_left add (builderThreads fb)
       (mkStats 0 (slicesAggregated s0) 0 0 0 0)).

(** [stop]; [fuel] bounds each wait loop. *)
Definition stop (fuel : nat) (fb : t) (tm : BuilderThread.ClockState)
    : option (t * BuilderThread.ClockState) :=
  let fb := with_running fb false in
  let '(bts, tm) := signalAll (builderThreads fb) tm in
  match waitAll fuel bts tm with
  | Some (bts, tm) =>
      let fb := with_threads fb bts in
      let fb := collectStats fb in
      let fb :=
        if enableET fb && etSystem fb then with_et fb false [] else fb in
      Some (fb, tm)
  | None => None
  end.
End Timing.

End FrameBuilder.

(** ** Concrete frames

    Inputs on which the functions above are evaluated below. *)

(** An 8-word CODA block header whose word 8 is the magic number. *)
Definition codaPrefix : list byte :=
  repeat Byte.x00 28 ++ [Byte.xc0; Byte.xda; Byte.x01; Byte.x00].

Definition frameOf (ts frame : Z) (ss : list TimeSlice.t) : AggregatedFrame.t :=
  {| AggregatedFrame.timestamp := ts; AggregatedFrame.frameNumber := frame;
     AggregatedFrame.slices := ss; AggregatedFrame.arrivalTime := 0 |}.

(** One stream, a 16-byte ROC bank. *)
Definition frameSingle : AggregatedFrame.t :=
  frameOf 0x10 7
    [TimeSlice.make 0x10 7 0x2A (codaPrefix ++ repeat Byte.xaa 16)].

(** A good slice and one whose payload is shorter than a CODA header. *)
Definition sliceGood : TimeSlice.t :=
  TimeSlice.make 0x1000 7 1 (codaPrefix ++ repeat Byte.xaa 4).

Definition sliceShort : TimeSlice.t :=
  TimeSlice.make 0x1000 7 2 (repeat Byte.xbb 4).

Definition frameDropped : AggregatedFrame.t :=
  frameOf 0x1000 7 [sliceGood; sliceShort].

(** Two good slices whose timestamps differ by more than the slop. *)
Definition frameSlop : AggregatedFrame.t :=
  frameOf 100 7
    [TimeSlice.make 100 7 1 (codaPrefix ++ repeat Byte.xaa 4);
     TimeSlice.make 200 7 2 (codaPrefix ++ repeat Byte.xaa 4)].

(** Two streams, one timestamp, a 4-byte ROC bank each. *)
Definition frameTwo : AggregatedFrame.t :=
  frameOf 0x1000 7
    [TimeSlice.make 0x1000 7 1 (codaPrefix ++ repeat Byte.xaa 4);
     TimeSlice.make 0x1000 7 2 (codaPrefix ++ repeat Byte.xbb 4)].

(** A good slice with timestamp 100 and a short one with timestamp 200. *)
Definition frameMixed : AggregatedFrame.t :=
  frameOf 100 7
    [TimeSlice.make 100 7 1 (codaPrefix ++ repeat Byte.xaa 4);
     TimeSlice.make 200 7 2 (repeat Byte.xbb 4)].

(** 128 good slices with one timestamp. *)
Definition frame128 : AggregatedFrame.t :=
  frameOf 0x1000 7 (repeat sliceGood 128).

(** Two good slices with timestamp 2^63. *)
Definition frameHighTs : AggregatedFrame.t :=
  frameOf (2 ^ 63) 7
    [TimeSlice.make (2 ^ 63) 7 1 (codaPrefix ++ repeat Byte.xaa 4);
     TimeSlice.make (2 ^ 63) 7 2 (codaPrefix ++ repeat Byte.xaa 4)].

(** A started builder thread with both sinks enabled, slop 100, a
    timeout of 1000 ms and two expected streams. *)
Definition btStarted : BuilderThread.t :=
  BuilderThread.start
    (BuilderThread.make 0 1 100 1000 (2 * 1024 * 1024) true true
       "/data"%string "frames"%string 2).

(** A frame builder constructed for file output with two threads and one
    expected stream, and the state in which [start] leaves it. *)
Definition fbConstructed : FrameBuilder.construction :=
  FrameBuilder.make EmptyString EmptyString 0 "/data"%string "frames"%string
    2 (2 * 1024 * 1024) 100 1000 1.

Definition startEnvOk : FrameBuilder.StartEnv :=
  FrameBuilder.mkStartEnv true true (fun i => Some (Z.of_nat i)) true.

Definition fbMade : FrameBuilder.t :=
  match fbConstructed with
  | FrameBuilder.Constructed fb => fb
  | FrameBuilder.Throw_invalid_argument _ =>
      FrameBuilder.mk false [] EmptyString EmptyString 0 0 false false EmptyString
        EmptyString 0 [] false (FrameBuilder.mkStats 0 0 0 0 0 0) 0 0 0
  end.

Definition fbStarted : FrameBuilder.t :=
  (FrameBuilder.start startEnvOk fbMade).1.

(** Every call into the ET library and the file system succeeds, and the
    thread is never told to stop. *)
Definition buildEnvOk : BuilderThread.BuildEnv :=
  BuilderThread.mkBuildEnv true true true
    (BuilderThread.mkETEnv true (2 * 1024 * 1024) true) true true
    (BuilderThread.mkFileEnv (BuilderThread.mkOpenEnv true true) true
       (BuilderThread.mkOpenEnv true true)).

(** One slice is submitted and the thread it is routed to builds it. *)
Definition runSingle : list FrameBuilder.event :=
  [FrameBuilder.Submit 0 0x10 7 0x2A (codaPrefix ++ repeat Byte.xaa 16);
   FrameBuilder.Build 0 buildEnvOk 5 0x10].

Definition fbAfterRunSingle : FrameBuilder.t :=
  default fbStarted (FrameBuilder.run runSingle fbStarted).

(** Sleeps that last exactly as long as requested. *)
Definition exactSleep : nat -> Z := fun _ => 0.

(** ** Notions used to state the properties *)

Import Encoder.

(** A slice survives the checks of step 1. *)
Definition sliceValid (slice : TimeSlice.t) : bool :=
  match checkSlice slice with SliceOk => true | _ => false end.

(** The slices retained by step 1, and their stripped ROC banks. *)
Definition keptSlices (frame : AggregatedFrame.t) : list TimeSlice.t :=
  List.filter sliceValid (AggregatedFrame.slices frame).

Definition keptBanks (frame : AggregatedFrame.t) : list (list byte) :=
  map (fun slice => drop 32 (TimeSlice.payload slice)) (keptSlices frame).

(** A ROC bank followed by its zero padding. *)
Definition padBank (rocBank : list byte) : list byte :=
  rocBank
  ++ repeat Byte.x00 (Z.to_nat ((4 - Z.of_nat (length rocBank) mod 4) mod 4)).

(** The stream-status value computed by [buildEVIO6Frame]. *)
Definition statusOf (timestampSlop : Z) (frame : AggregatedFrame.t) : Z :=
  Z.lor
    (Z.shiftl (if checkTimestampConsistency timestampSlop frame then 1 else 0) 7)
    (Z.land (to_int (Z.of_nat (length (AggregatedFrame.slices frame)))) 0x7F).

(** The metadata words [buildEVIO6Frame] assembles for a frame. *)
Definition eventWordsOf (timestampSlop : Z) (frame : AggregatedFrame.t)
    : list Z :=
  buildEventWords frame (calculateAverageTimestamp frame)
    (to_int (Z.of_nat (length (AggregatedFrame.slices frame))))
    (statusOf timestampSlop frame) (keptBanks frame).

(** The value back-patched into the aggregated-bank length field. *)
Definition aggregatedBankLength (frame : AggregatedFrame.t)
    (rocBanks : list (list byte)) : Z :=
  8 + Z.of_nat (length (AggregatedFrame.slices frame))
  + totalPayloadBytes rocBanks / 4.

(** The record buffer left in [output] by [buildEVIO6Frame]. *)
Definition recordOf (timestampSlop : Z) (frame : AggregatedFrame.t)
    : list byte :=
  (Encoder.buildEVIO6Frame timestampSlop frame []).2.

(** Reader side: the stream-status byte [SS] of a record, taken from the
    aggregated-bank header (word 15). *)
Definition SS (B : list byte) : Z := Z.land (read_be_u32 B 15) 0xFF.

(** Reader side: the timestamp of the time-slice segment (words 20, 21). *)
Definition embeddedTimestamp (B : list byte) : Z :=
  Z.lor (read_be_u32 B 20) (Z.shiftl (read_be_u32 B 21) 32).

(** Reader side: the AIS length field (low 16 bits of word 22) and the
    entries that follow it. *)
Definition aisCount (B : list byte) : Z := Z.land (read_be_u32 B 22) 0xFFFF.

Definition aisEntries (B : list byte) : list Z :=
  map (read_be_u32 B) (seq 23 (Z.to_nat (aisCount B))).

Definition sumTimestamps (slices : list TimeSlice.t) : Z :=
  fold_right (fun slice acc => TimeSlice.timestamp slice + acc) 0 slices.

(** What is recorded of a frame in the buffer. *)
Definition frameInfo (f : AggregatedFrame.t) : Z * Z * nat :=
  (AggregatedFrame.frameNumber f, AggregatedFrame.arrivalTime f,
   length (AggregatedFrame.slices f)).

(** A slice as [FrameBuilder::addTimeSlice] constructs it. *)
Definition sliceFromPipeline (s : TimeSlice.t) : Prop :=
  TimeSlice.streamStatus s = 0 /\ is_u16 (TimeSlice.dataId s).

(** The slices a run hands to the builder threads, oldest first: what
    [FrameBuilder::addTimeSlice] constructs from the arguments of each
    call. *)
Definition submittedSlices (evs : list FrameBuilder.event)
    : list TimeSlice.t :=
  omap (fun e =>
          match e with
          | FrameBuilder.Submit _ timestamp frameNumber dataId data =>
              Some (TimeSlice.make (u64 timestamp) (u32 frameNumber)
                                   (u16 dataId) data)
          | FrameBuilder.Build _ _ _ _ => None
          end) evs.

(** A record built, with slop [slop], from a frame made of slices of
    [S]. *)
Definition builtFrom (slop : Z) (S : list TimeSlice.t) (B : list byte)
    : Prop :=
  exists frame,
    Forall (fun s => s ∈ S) (AggregatedFrame.slices frame)
    /\ keptBanks frame <> []
    /\ B = recordOf slop frame.

(** The AIS entries of [B] are the data ids of [slices], shifted. *)
Definition aisIsDataIds (B : list byte) (slices : list TimeSlice.t) : Prop :=
  forall i s, slices !! i = Some s ->
    read_be_u32 B (23 + i) = Z.shiftl (TimeSlice.dataId s) 16.

(** [B] is the record built, with slop [slop], from a frame made of
    slices of [S], and entry [i] of its AIS is the data id of slice [i]
    of that frame shifted by 16; and every entry the AIS of [B]
    announces has its low 16 bits zero and is the shifted data id of a
    slice of [S]. *)
Definition aisOfSubmitted (slop : Z) (S : list TimeSlice.t) (B : list byte)
    : Prop :=
  (exists frame,
     Forall (fun s => s ∈ S) (AggregatedFrame.slices frame)
     /\ keptBanks frame <> []
     /\ B = recordOf slop frame
     /\ aisIsDataIds B (AggregatedFrame.slices frame))
  /\ Forall (fun e => Z.land e 0xFFFF = 0
                        /\ exists s, s ∈ S
                             /\ e = Z.shiftl (TimeSlice.dataId s) 16)
            (aisEntries B).

(** The 56 bytes [writeFileHeader] writes. *)
Definition fileHeaderBytes : list byte :=
  host_store_words (map bswap32 BuilderThread.fileHeader).

(** A file holds records satisfying [P], after the file header if the
    header could be written. *)
Definition fileOf (P : list byte -> Prop) (content : list byte) : Prop :=
  exists recs,
    Forall P recs
    /\ (content = concat recs \/ content = fileHeaderBytes ++ concat recs).

(** The invariant of a builder thread with slop [slop] that is fed
    slices of [S]: its buffer holds slices of [S], and what it has put
    to the ET system and written to its files are records built from
    such slices. *)
Definition threadInv (slop : Z) (S : list TimeSlice.t) (bt : BuilderThread.t)
    : Prop :=
  BuilderThread.timestampSlop (BuilderThread.config bt) = slop
  /\ map_Forall (fun _ f => Forall (fun s => s ∈ S) (AggregatedFrame.slices f))
                (BuilderThread.frameBuffer bt)
  /\ Forall (builtFrom slop S) (BuilderThread.etEvents bt)
  /\ map_Forall (fun _ c => fileOf (builtFrom slop S) c)
                (BuilderThread.files (BuilderThread.fileOut bt)).

(** The invariant of a frame builder. *)
Definition builderInv (slop : Z) (S : list TimeSlice.t) (fb : FrameBuilder.t)
    : Prop :=
  FrameBuilder.timestampSlop fb = slop
  /\ Forall (threadInv slop S) (FrameBuilder.builderThreads fb).

(** ** The receiver

    The payload validation of [e2sar_receiver.cpp] and one round of its
    receive loop, as compiled with the frame builder enabled. *)

Module Receiver.

(** [swap32] *)
Definition swap32 (val : Z) : Z :=
  Z.lor (Z.lor (Z.lor
    (u32 (Z.shiftl (Z.land val 0x000000FF) 24))
    (u32 (Z.shiftl (Z.land val 0x0000FF00) 8)))
    (Z.shiftr (Z.land val 0x00FF0000) 8))
    (Z.shiftr (Z.land val 0xFF000000) 24).

Record EVIOMetadata := mkMeta {
  timestamp : Z;        (* uint64_t *)
  frameNumber : Z;      (* uint32_t *)
  dataId : Z;           (* uint16_t *)
  valid : bool;
  wrongEndian : bool
}.

(** [parseEVIOPayload(payload, payloadSize)], the payload being a list
    of [payloadSize] bytes. *)
Definition parseEVIOPayload (payload : list byte) : EVIOMetadata :=
  let meta := mkMeta 0 0 0 false false in
  if Z.of_nat (length payload) <? 64 then meta
  else
    let words := host_word payload in
    let magic := words 7%nat in
    let check :=
      if magic =? 0xc0da0100 then Some (false, meta)
      else if magic =? 0x0001dac0 then
        Some (true, mkMeta (timestamp meta) (frameNumber meta) (dataId meta)
                           (valid meta) true)
      else None in
    match check with
    | None => meta
    | Some (needsSwap, meta) =>
        let readWord (index : nat) :=
          if needsSwap then swap32 (words index) else words index in
        let word10 := readWord 9%nat in
        let next8 := Z.land (Z.shiftr word10 8) 0xFF in
        let ss := Z.land word10 0xFF in
        if negb (next8 =? 0x10) then meta
        else
          let ts_low := readWord 14%nat in
          let ts_high := readWord 15%nat in
          mkMeta (Z.lor (u64 (Z.shiftl ts_high 32)) ts_low)
                 (readWord 13%nat) ss true (wrongEndian meta)
    end.

(** What [recvEvent] hands to the loop. *)
Inductive recv_result :=
| RecvError
| RecvTimeout
| RecvEvent (eventBuf : list byte) (eventNum dataId : Z).

(** The frame builder and the counters of the receive loop. *)
Record t := mk {
  frameBuilder : FrameBuilder.t;
  dataFramesReceived : Z;
  dataFramesBytesTotal : Z;
  receivedWithError : Z;
  payloadValidationErrors : Z;
  wrongEndiannessCount : Z
}.

(** One round of the loop of [receiveAndWriteFrames]; [None] where the
    call of [addTimeSlice] has no defined behaviour. *)
Definition receiveRound (now : Z) (res : recv_result) (r : t) : option t :=
  match res with
  | RecvError =>
      Some (mk (frameBuilder r) (dataFramesReceived r) (dataFramesBytesTotal r)
               (u64 (receivedWithError r + 1)) (payloadValidationErrors r)
               (wrongEndiannessCount r))
  | RecvTimeout => Some r
  | RecvEvent eventBuf eventNum dataId' =>
      let received := u64 (dataFramesReceived r + 1) in
      let bytes := u64 (dataFramesBytesTotal r + Z.of_nat (length eventBuf)) in
      let meta := parseEVIOPayload eventBuf in
      if negb (valid meta) then
        Some (mk (frameBuilder r) received bytes (receivedWithError r)
                 (u64 (payloadValidationErrors r + 1)) (wrongEndiannessCount r))
      else
        let wrong :=
          if wrongEndian meta then u64 (wrongEndiannessCount r + 1)
          else wrongEndiannessCount r in
        match FrameBuilder.addTimeSlice now (timestamp meta) (frameNumber meta)
                (dataId meta) eventBuf (frameBuilder r) with
        | Some fb =>
            Some (mk fb received bytes (receivedWithError r)
                     (payloadValidationErrors r) wrong)
        | None => None
        end
  end.

(** A run of the receiver and the builder threads: the loop receives
    something, or builder thread [i] handles the entry with key [ts]. *)
Inductive event :=
| Receive (now : Z) (res : recv_result)
| Build (i : nat) (env : BuilderThread.BuildEnv) (now ts : Z).

Definition step (r : t) (e : event) : option t :=
  match e with
  | Receive now res => receiveRound now res r
  | Build i env now ts =>
      match FrameBuilder.step (frameBuilder r) (FrameBuilder.Build i env now ts) with
      | Some fb =>
          Some (mk fb (dataFramesReceived r) (dataFramesBytesTotal r)
                   (receivedWithError r) (payloadValidationErrors r)
                   (wrongEndiannessCount r))
      | None => None
      end
  end.

Fixpoint run (evs : list event) (r : t) : option t :=
  match evs with
  | [] => Some r
  | e :: evs =>
      match step r e with
      | Some r => run evs r
      | None => None
      end
  end.

(** The receiver around a frame builder, all counters at zero. *)
Definition around (fb : FrameBuilder.t) : t := mk fb 0 0 0 0 0.

End Receiver.

(** ** Statistics *)

(** [FrameBuilder::getStatistics]: [(built, slices, errors, bytes)]. *)
Definition getStatistics (fb : FrameBuilder.t) : Z * Z * Z * Z :=
  let '(built, slices, errors, bytes) :=
    fold_left
      (fun '(built, slices, errors, bytes) builder =>
         let s := BuilderThread.stats builder in
         (u64 (built + BuilderThread.framesBuilt s),
          u64 (slices + BuilderThread.slicesProcessed s),
          u64 (errors + BuilderThread.buildErrors s),
          u64 (bytes + BuilderThread.bytesWritten s)))
      (FrameBuilder.builderThreads fb) (0, 0, 0, 0) in
  (built, u64 (slices + FrameBuilder.slicesAggregated (FrameBuilder.stats fb)),
   errors, bytes).

(** ** Runs of one builder thread

    Producers add slices of any content and the thread handles entries. *)
Inductive threadEvent :=
| Add (now : Z) (slice : TimeSlice.t)
| Handle (env : BuilderThread.BuildEnv) (now ts : Z).

Definition threadStep (bt : BuilderThread.t) (e : threadEvent) : BuilderThread.t :=
  match e with
  | Add now slice => BuilderThread.addTimeSlice now slice bt
  | Handle env now ts => BuilderThread.buildEntry env now ts bt
  end.

Definition threadRun (evs : list threadEvent) (bt : BuilderThread.t)
    : BuilderThread.t :=
  fold_left threadStep evs bt.

(** ** More notions used to state the properties *)

(** Reversing the bytes of every whole 32-bit word of a buffer. *)
Fixpoint swapWords (p : list byte) : list byte :=
  match p with
  | b0 :: b1 :: b2 :: b3 :: rest => b3 :: b2 :: b1 :: b0 :: swapWords rest
  | _ => p
  end.

(** The slices of a list of timed submissions that carry timestamp [k]. *)
Definition slicesAt (k : Z) (adds : list (Z * TimeSlice.t)) : list (Z * TimeSlice.t) :=
  List.filter (fun a => TimeSlice.timestamp a.2 =? k) adds.

Definition addAll (adds : list (Z * TimeSlice.t)) (bt : BuilderThread.t)
    : BuilderThread.t :=
  fold_left (fun bt a => BuilderThread.addTimeSlice a.1 a.2 bt) adds bt.

(** Every entry of a frame buffer has slices, is stored under its own
    timestamp, and holds slices of that timestamp only. *)
Definition bufferInv (buf : gmap Z AggregatedFrame.t) : Prop :=
  map_Forall
    (fun k f =>
       AggregatedFrame.slices f <> []
       /\ AggregatedFrame.timestamp f = k
       /\ Forall (fun s => TimeSlice.timestamp s = k) (AggregatedFrame.slices f))
    buf.

(** A record the encoder built and reported without error: the frame
    has slices, all of them passed step 1, and the timestamp check did
    not flag it. *)
Definition builtWithoutError (B : list byte) : Prop :=
  exists slop frame,
    AggregatedFrame.slices frame <> []
    /\ forallb sliceValid (AggregatedFrame.slices frame) = true
    /\ checkTimestampConsistency slop frame = false
    /\ B = recordOf slop frame.

(** Both sinks of a thread hold records satisfying [P] only. *)
Definition sinksHold (P : list byte -> Prop) (bt : BuilderThread.t) : Prop :=
  Forall P (BuilderThread.etEvents bt)
  /\ map_Forall (fun _ c => fileOf P c)
                (BuilderThread.files (BuilderThread.fileOut bt)).

(** The file sink between two calls: the stream is open on the file
    with the current number, the size counter is the size of that file
    (modulo 2^64) and is below the size limit. *)
Definition fileCounterInv (bt : BuilderThread.t) : Prop :=
  match BuilderThread.outputFile (BuilderThread.fileOut bt) with
  | Some n =>
      n = BuilderThread.currentFileNumber (BuilderThread.fileOut bt)
      /\ exists content,
        BuilderThread.files (BuilderThread.fileOut bt) !! n = Some content
        /\ BuilderThread.currentFileSize (BuilderThread.fileOut bt)
           = u64 (Z.of_nat (length content))
        /\ BuilderThread.currentFileSize (BuilderThread.fileOut bt)
           < BuilderThread.maxFileSize (BuilderThread.config bt)
  | None => True
  end.

(** Whether the stream operations of a [writeToFile] call get as far as
    writing the record: the stream is open or can be opened with its
    header, and the write succeeds. *)
Definition recordWritten (env : BuilderThread.FileEnv) (bt : BuilderThread.t)
    : bool :=
  (match BuilderThread.outputFile (BuilderThread.fileOut bt) with
   | Some _ => true
   | None => BuilderThread.open_ok (BuilderThread.first_open env)
             && BuilderThread.header_ok (BuilderThread.first_open env)
   end)
  && BuilderThread.write_ok env.

(** Whether the ET calls of a [sendToET] call all succeed for a record
    of the given length. *)
Definition recordSent (env : BuilderThread.ETEnv) (B : list byte) : bool :=
  BuilderThread.events_new_ok env
  && (Z.of_nat (length B) <=? BuilderThread.eventLength env)
  && BuilderThread.events_put_ok env.

(** What the buffer of a thread holds under key [k] after the timed
    submissions [adds], in terms of the submissions with timestamp [k]:
    their slices in order, and the arrival time and frame number of the
    first of them, or of the last when [k] is 0. *)
Definition groupedAt (k : Z) (adds : list (Z * TimeSlice.t))
    (entry : option AggregatedFrame.t) : Prop :=
  let mine := slicesAt k adds in
  match entry with
  | None => mine = []
  | Some f =>
      AggregatedFrame.slices f = map snd mine
      /\ AggregatedFrame.timestamp f = k
      /\ (k <> 0 ->
          Some (AggregatedFrame.arrivalTime f, AggregatedFrame.frameNumber f)
          = (fun a => (a.1, TimeSlice.frameNumber a.2)) <$> head mine)
      /\ (k = 0 ->
          Some (AggregatedFrame.arrivalTime f, AggregatedFrame.frameNumber f)
          = (fun a => (a.1, TimeSlice.frameNumber a.2)) <$> list.last mine)
  end.

(** ** Notions for runs of the frame builder *)

(** The state [start] establishes: as many threads as configured, a
    number that [addTimeSlice] can divide by and index with. *)
Definition started (fb : FrameBuilder.t) : Prop :=
  0 < FrameBuilder.builderThreadCount fb < 2 ^ 31
  /\ length (FrameBuilder.builderThreads fb)
     = Z.to_nat (FrameBuilder.builderThreadCount fb).

(** Thread [i] buffers frames under timestamps that are [i] modulo the
    number of threads, and no others. *)
Definition shardInv (fb : FrameBuilder.t) : Prop :=
  forall i bt k f,
    FrameBuilder.builderThreads fb !! i = Some bt ->
    BuilderThread.frameBuffer bt !! k = Some f ->
    k mod FrameBuilder.builderThreadCount fb = Z.of_nat i.

(** The thread an event of a run is for exists. *)
Definition threadExists (fb : FrameBuilder.t) (e : FrameBuilder.event) : Prop :=
  match e with
  | FrameBuilder.Submit _ _ _ _ _ => True
  | FrameBuilder.Build i _ _ _ =>
      (i < Z.to_nat (FrameBuilder.builderThreadCount fb))%nat
  end.

(** The number of [addTimeSlice] calls of a run. *)
Definition submits (evs : list FrameBuilder.event) : Z :=
  Z.of_nat (length (List.filter
    (fun e => match e with
              | FrameBuilder.Submit _ _ _ _ _ => true
              | FrameBuilder.Build _ _ _ _ => false
              end) evs)).

(** The sum of one counter over the builder threads. *)
Definition totalOf (f : BuilderThread.Stats -> Z) (bts : list BuilderThread.t)
    : Z :=
  fold_right (fun bt acc => f (BuilderThread.stats bt) + acc) 0 bts.

(** A thread as [start] creates it. *)
Definition freshThread (bt : BuilderThread.t) : Prop :=
  BuilderThread.thread bt = BuilderThread.Joinable
  /\ BuilderThread.running bt = true
  /\ BuilderThread.frameBuffer bt = ∅
  /\ BuilderThread.etEvents bt = []
  /\ BuilderThread.stats bt = BuilderThread.mkStats 0 0 0 0 0 0
  /\ BuilderThread.outputFile (BuilderThread.fileOut bt) = None.

(** The calls [start] makes outside the program all succeed. *)
Definition startSucceeds (env : FrameBuilder.StartEnv) (fb : FrameBuilder.t)
    : Prop :=
  (FrameBuilder.enableET fb = true ->
   FrameBuilder.et_config_init_ok env = true
   /\ FrameBuilder.et_open_ok env = true
   /\ forall i, (i < Z.to_nat (FrameBuilder.builderThreadCount fb))%nat ->
                is_Some (FrameBuilder.et_station_attach env i))
  /\ (FrameBuilder.enableFileOutput fb = true ->
      FrameBuilder.output_dir_ready env = true).

(** ** Notions for runs of the receiver *)

(** Every frame of a buffer is one the encoder builds without error:
    the buffer is well grouped and every slice passes step 1. *)
Definition readyToBuild (buf : gmap Z AggregatedFrame.t) : Prop :=
  bufferInv buf
  /\ map_Forall
       (fun _ f => forallb sliceValid (AggregatedFrame.slices f) = true) buf.

Definition receiverInv (r : Receiver.t) : Prop :=
  Forall (fun bt => readyToBuild (BuilderThread.frameBuffer bt))
         (FrameBuilder.builderThreads (Receiver.frameBuilder r)).

(** The thread an event of a receiver run is for exists. *)
Definition builderExists (fb : FrameBuilder.t) (e : Receiver.event) : Prop :=
  match e with
  | Receiver.Receive _ _ => True
  | Receiver.Build i _ _ _ =>
      (i < Z.to_nat (FrameBuilder.builderThreadCount fb))%nat
  end.

(** Every frame received so far was either rejected by the payload
    validation or handed to the frame builder. *)
Definition framesAccounted (r : Receiver.t) : Prop :=
  u64 (Receiver.dataFramesReceived r)
  = u64 (Receiver.payloadValidationErrors r
         + FrameBuilder.slicesAggregated
             (FrameBuilder.stats (Receiver.frameBuilder r))).

(** * Properties *)

(** ** The wire encoding *)

Lemma u32_small z : is_u32 z -> u32 z = z.
Proof. intros H. unfold u32. apply Z.mod_small. exact H. Qed.

Lemma u32_is_u32 z : is_u32 (u32 z).
Proof. unfold is_u32, u32. apply Z.mod_pos_bound. lia. Qed.

Lemma u64_is_u64 z : is_u64 (u64 z).
Proof. unfold is_u64, u64. apply Z.mod_pos_bound. lia. Qed.

Lemma u16_is_u16 z : is_u16 (u16 z).
Proof. unfold is_u16, u16. apply Z.mod_pos_bound. lia. Qed.

Lemma le_split_4 z :
  le_split 4 z =
  [byte.of_Z z; byte.of_Z (Z.shiftr z 8);
   byte.of_Z (Z.shiftr (Z.shiftr z 8) 8);
   byte.of_Z (Z.shiftr (Z.shiftr (Z.shiftr z 8) 8) 8)].
Proof. reflexivity. Qed.

Lemma bswap32_ones v :
  bswap32 v =
  Z.lor (Z.lor (Z.lor
    ((Z.shiftl (Z.land v (Z.ones 8)) 24) mod 2 ^ 32)
    ((Z.shiftl (Z.land v (Z.shiftl (Z.ones 8) 8)) 8) mod 2 ^ 32))
    (Z.shiftr (Z.land v (Z.shiftl (Z.ones 8) 16)) 8))
    (Z.shiftr (Z.land v (Z.shiftl (Z.ones 8) 24)) 24).
Proof. reflexivity. Qed.

(** The four bytes of the swapped word, lowest address first. *)
Lemma bswap32_byte0 v : bswap32 v mod 2 ^ 8 = Z.shiftr v 24 mod 2 ^ 8.
Proof. rewrite bswap32_ones. Z.bitblast. Qed.

Lemma bswap32_byte1 v :
  Z.shiftr (bswap32 v) 8 mod 2 ^ 8 = Z.shiftr v 16 mod 2 ^ 8.
Proof. rewrite bswap32_ones. Z.bitblast. Qed.

Lemma bswap32_byte2 v :
  Z.shiftr (Z.shiftr (bswap32 v) 8) 8 mod 2 ^ 8 = Z.shiftr v 8 mod 2 ^ 8.
Proof. rewrite bswap32_ones. Z.bitblast. Qed.

Lemma bswap32_byte3 v :
  Z.shiftr (Z.shiftr (Z.shiftr (bswap32 v) 8) 8) 8 mod 2 ^ 8 = v mod 2 ^ 8.
Proof. rewrite bswap32_ones. Z.bitblast. Qed.

Lemma be_bytes_recombine v :
  Z.lor (Z.lor (Z.lor (Z.shiftl (Z.shiftr v 24 mod 2 ^ 8) 24)
                      (Z.shiftl (Z.shiftr v 16 mod 2 ^ 8) 16))
               (Z.shiftl (Z.shiftr v 8 mod 2 ^ 8) 8))
        (v mod 2 ^ 8) = v mod 2 ^ 32.
Proof. Z.bitblast. Qed.

(** On a little-endian host the swapped word reads back big-endian. *)
Lemma read_be_swapped v rest :
  read_be_u32 (le_split 4 (bswap32 v) ++ rest) 0 = u32 v.
Proof.
  unfold read_be_u32. rewrite le_split_4.
  cbn [skipn app Nat.mul Nat.add].
  rewrite !byte.unsigned_of_Z. unfold byte.wrap.
  rewrite bswap32_byte0, bswap32_byte1, bswap32_byte2, bswap32_byte3.
  apply be_bytes_recombine.
Qed.

Lemma read_be_skip_word v rest i :
  read_be_u32 (le_split 4 v ++ rest) (S i) = read_be_u32 rest i.
Proof.
  unfold read_be_u32. rewrite le_split_4.
  replace (4 * S i)%nat with (4 + 4 * i)%nat by lia.
  reflexivity.
Qed.

Lemma host_store_words_length ws :
  length (host_store_words ws) = (4 * length ws)%nat.
Proof.
  unfold host_store_words. induction ws as [|w ws IH]; [reflexivity|].
  cbn [flat_map]. rewrite length_app, IH, le_split_4. cbn [length]. lia.
Qed.

Lemma read_be_store ws rest i v :
  ws !! i = Some v ->
  read_be_u32 (host_store_words (map bswap32 ws) ++ rest) i = u32 v.
Proof.
  revert i. induction ws as [|w ws IH]; intros i Hi; [discriminate|].
  unfold host_store_words in *. cbn [map flat_map]. rewrite <- app_assoc.
  destruct i as [|i].
  - injection Hi as ->. apply read_be_swapped.
  - rewrite read_be_skip_word. apply IH. exact Hi.
Qed.

(** Words that lie entirely in a prefix do not depend on what follows. *)
Lemma read_be_app_l B rest i :
  (4 * i + 4 <= length B)%nat -> read_be_u32 (B ++ rest) i = read_be_u32 B i.
Proof.
  intros Hlen. unfold read_be_u32.
  rewrite drop_app_le by lia.
  pose proof (length_drop B (4 * i)) as Hd.
  destruct (drop (4 * i) B) as [|b0 [|b1 [|b2 [|b3 tl]]]];
    cbn [length] in Hd; try lia.
  reflexivity.
Qed.

(** ** The encoder, step by step *)

Lemma ais_fold ew slices :
  fold_left (fun ew slice => ew ++ [aisEntry slice]) slices ew
  = ew ++ map aisEntry slices.
Proof.
  revert ew. induction slices as [|s ss IH]; intros ew; cbn [fold_left map].
  - now rewrite app_nil_r.
  - rewrite IH, <- app_assoc. reflexivity.
Qed.

Lemma buildEventWords_eq frame tsAvg sliceCount streamStatus rocBanks :
  let n := Z.of_nat (length (AggregatedFrame.slices frame)) in
  let abl := aggregatedBankLength frame rocBanks in
  buildEventWords frame tsAvg sliceCount streamStatus rocBanks =
  [ u32 (14 + abl + 1); 0; 14; 1; 0; bitInfo; 0; 0xc0da0100;
    u32 (14 + abl + 1 - 14); 0; 0; 0; 0; 0;
    u32 abl;
    u32 (Z.lor (Z.lor (Z.shiftl 0xFF60 16) (Z.shiftl 0x10 8)) streamStatus);
    u32 (6 + n);
    u32 (Z.lor (Z.lor (Z.shiftl 0xFF31 16) (Z.shiftl 0x20 8)) streamStatus);
    Z.lor (Z.lor (Z.shiftl 0x32 24) (Z.shiftl 0x01 16)) 3;
    u32 (AggregatedFrame.frameNumber frame);
    u32 (Z.land tsAvg 0xFFFFFFFF);
    u32 (Z.land (Z.shiftr tsAvg 32) 0xFFFFFFFF);
    u32 (Z.lor (Z.lor (Z.shiftl 0x42 24) (Z.shiftl 0x01 16)) sliceCount) ]
  ++ map aisEntry (AggregatedFrame.slices frame).
Proof.
  intros n abl. unfold buildEventWords. rewrite ais_fold.
  unfold recordHeader. cbn [app]. rewrite !length_insert.
  cbn [length insert list_insert]. rewrite length_map.
  fold n. unfold abl, aggregatedBankLength. fold n.
  repeat (f_equal; try lia).
Qed.

Lemma padLoop_padBank (out rocBank : list byte) :
  Z.of_nat (length out) mod 4 = 0 ->
  padLoop 3 (out ++ rocBank) = out ++ padBank rocBank.
Proof.
  intros Hal. unfold padBank. rewrite app_assoc.
  set (r := Z.of_nat (length rocBank) mod 4).
  set (X := out ++ rocBank).
  assert (Hlen : forall k : nat,
    Z.of_nat (length (X ++ repeat Byte.x00 k)) mod 4 = (r + Z.of_nat k) mod 4).
  { intros k. subst X r.
    rewrite !length_app, repeat_length, !Nat2Z.inj_add.
    Z.div_mod_to_equations. lia. }
  assert (Hr : 0 <= r < 4) by (subst r; apply Z.mod_pos_bound; lia).
  pose proof (Hlen 0%nat) as H0. pose proof (Hlen 1%nat) as H1.
  pose proof (Hlen 2%nat) as H2.
  cbn [repeat] in H0, H1, H2. rewrite app_nil_r in H0.
  assert (Hcases : r = 0 \/ r = 1 \/ r = 2 \/ r = 3) by lia.
  cbn [padLoop]. rewrite <- !app_assoc. cbn [app].
  destruct Hcases as [Hc | [Hc | [Hc | Hc]]]; rewrite Hc in *;
    rewrite ?H0, ?H1, ?H2; cbn; rewrite <- ?app_assoc, ?app_nil_r;
    reflexivity.
Qed.

Lemma padBank_length rocBank :
  Z.of_nat (length (padBank rocBank))
  = let size := Z.of_nat (length rocBank) in
    if negb (size mod 4 =? 0) then size + (4 - size mod 4) else size.
Proof.
  unfold padBank. rewrite length_app, repeat_length, Nat2Z.inj_add.
  cbv zeta. set (size := Z.of_nat (length rocBank)).
  assert (0 <= size mod 4 < 4) by (apply Z.mod_pos_bound; lia).
  rewrite Z2Nat.id by (apply Z.mod_pos_bound; lia).
  destruct (Z.eqb_spec (size mod 4) 0) as [E|E]; cbn [negb].
  - rewrite E. change ((4 - 0) mod 4) with 0. lia.
  - rewrite (Z.mod_small (4 - size mod 4)) by lia. lia.
Qed.

Lemma padBank_aligned rocBank : Z.of_nat (length (padBank rocBank)) mod 4 = 0.
Proof.
  rewrite padBank_length. cbv zeta.
  set (size := Z.of_nat (length rocBank)).
  destruct (Z.eqb_spec (size mod 4) 0) as [E|E]; cbn [negb]; [exact E|].
  Z.div_mod_to_equations. lia.
Qed.

Lemma totalPayloadBytes_acc rocBanks a :
  fold_left (fun total rocBank =>
               let size := Z.of_nat (length rocBank) in
               let total := total + size in
               if negb (size mod 4 =? 0) then total + (4 - size mod 4)
               else total) rocBanks a
  = a + Z.of_nat (length (concat (map padBank rocBanks))).
Proof.
  revert a. induction rocBanks as [|b bs IH]; intros a.
  - cbn. lia.
  - cbn [fold_left map concat]. rewrite IH, length_app, Nat2Z.inj_add.
    rewrite padBank_length. cbv zeta.
    destruct (negb (Z.of_nat (length b) mod 4 =? 0)); lia.
Qed.

Lemma totalPayloadBytes_eq rocBanks :
  totalPayloadBytes rocBanks
  = Z.of_nat (length (concat (map padBank rocBanks))).
Proof. unfold totalPayloadBytes. now rewrite totalPayloadBytes_acc. Qed.

Lemma padded_banks_aligned rocBanks :
  Z.of_nat (length (concat (map padBank rocBanks))) mod 4 = 0.
Proof.
  induction rocBanks as [|b bs IH]; [reflexivity|].
  cbn [map concat]. rewrite length_app, Nat2Z.inj_add.
  pose proof (padBank_aligned b). Z.div_mod_to_equations. lia.
Qed.

Lemma appendRocBanks_eq output rocBanks :
  Z.of_nat (length output) mod 4 = 0 ->
  appendRocBanks output rocBanks = output ++ concat (map padBank rocBanks).
Proof.
  unfold appendRocBanks. revert output.
  induction rocBanks as [|b bs IH]; intros output Hal.
  - cbn. now rewrite app_nil_r.
  - cbn [fold_left map concat]. rewrite padLoop_padBank by exact Hal.
    rewrite IH.
    + now rewrite <- app_assoc.
    + rewrite length_app, Nat2Z.inj_add. pose proof (padBank_aligned b).
      Z.div_mod_to_equations. lia.
Qed.

(** The loop of step 1 keeps exactly the valid slices, in order, and
    raises the flag when it meets an invalid one. *)
Lemma stripLoop_acc slices hasError acc :
  fold_left stripStep slices (hasError, acc)
  = (hasError || existsb (fun s => negb (sliceValid s)) slices,
     acc ++ map (fun slice => drop 32 (TimeSlice.payload slice))
                (List.filter sliceValid slices)).
Proof.
  revert hasError acc. induction slices as [|s ss IH]; intros hasError acc.
  - cbn. now rewrite orb_false_r, app_nil_r.
  - cbn [fold_left existsb List.filter]. unfold stripStep at 2, sliceValid at 1 3.
    destruct (checkSlice s); rewrite IH; cbn [negb orb map].
    + now rewrite orb_true_r.
    + now rewrite orb_true_r.
    + now rewrite <- app_assoc.
Qed.

Lemma stripLoop_eq hasError frame :
  stripLoop hasError (AggregatedFrame.slices frame)
  = (hasError
     || existsb (fun s => negb (sliceValid s)) (AggregatedFrame.slices frame),
     keptBanks frame).
Proof. unfold stripLoop. now rewrite stripLoop_acc. Qed.

Lemma eventWordsOf_length slop frame :
  length (eventWordsOf slop frame)
  = (23 + length (AggregatedFrame.slices frame))%nat.
Proof.
  unfold eventWordsOf. rewrite buildEventWords_eq.
  rewrite length_app, length_map. reflexivity.
Qed.

(** What [buildEVIO6Frame] returns when no slice is retained ... *)
Lemma buildEVIO6Frame_no_banks slop frame output :
  keptBanks frame = [] ->
  buildEVIO6Frame slop frame output
  = (checkTimestampConsistency slop frame, false, output).
Proof.
  intros Hk. unfold buildEVIO6Frame. rewrite stripLoop_eq, Hk. reflexivity.
Qed.

(** ... and when at least one is. *)
Lemma buildEVIO6Frame_built slop frame output :
  keptBanks frame <> [] ->
  buildEVIO6Frame slop frame output
  = (checkTimestampConsistency slop frame,
     negb (checkTimestampConsistency slop frame
           || existsb (fun s => negb (sliceValid s))
                      (AggregatedFrame.slices frame)),
     host_store_words (map bswap32 (eventWordsOf slop frame))
     ++ concat (map padBank (keptBanks frame))).
Proof.
  intros Hk. unfold buildEVIO6Frame. rewrite stripLoop_eq.
  destruct (keptBanks frame) as [|b bs] eqn:E; [contradiction|].
  rewrite appendRocBanks_eq.
  - unfold eventWordsOf, statusOf. rewrite E. reflexivity.
  - rewrite host_store_words_length, length_map.
    rewrite Nat2Z.inj_mul. Z.div_mod_to_equations. lia.
Qed.

Lemma eventWordsOf_eq slop frame :
  let n := Z.of_nat (length (AggregatedFrame.slices frame)) in
  let abl := aggregatedBankLength frame (keptBanks frame) in
  let tsAvg := calculateAverageTimestamp frame in
  eventWordsOf slop frame =
  [ u32 (14 + abl + 1); 0; 14; 1; 0; bitInfo; 0; 0xc0da0100;
    u32 (14 + abl + 1 - 14); 0; 0; 0; 0; 0;
    u32 abl;
    u32 (Z.lor (Z.lor (Z.shiftl 0xFF60 16) (Z.shiftl 0x10 8))
               (statusOf slop frame));
    u32 (6 + n);
    u32 (Z.lor (Z.lor (Z.shiftl 0xFF31 16) (Z.shiftl 0x20 8))
               (statusOf slop frame));
    Z.lor (Z.lor (Z.shiftl 0x32 24) (Z.shiftl 0x01 16)) 3;
    u32 (AggregatedFrame.frameNumber frame);
    u32 (Z.land tsAvg 0xFFFFFFFF);
    u32 (Z.land (Z.shiftr tsAvg 32) 0xFFFFFFFF);
    u32 (Z.lor (Z.lor (Z.shiftl 0x42 24) (Z.shiftl 0x01 16))
               (to_int n)) ]
  ++ map aisEntry (AggregatedFrame.slices frame).
Proof. intros n abl tsAvg. unfold eventWordsOf. apply buildEventWords_eq. Qed.

Lemma recordOf_eq slop frame :
  keptBanks frame <> [] ->
  recordOf slop frame
  = host_store_words (map bswap32 (eventWordsOf slop frame))
    ++ concat (map padBank (keptBanks frame)).
Proof.
  intros Hk. unfold recordOf. now rewrite buildEVIO6Frame_built.
Qed.

(** Every metadata word is found big-endian in the record. *)
Lemma record_word slop frame i v :
  keptBanks frame <> [] ->
  eventWordsOf slop frame !! i = Some v ->
  read_be_u32 (recordOf slop frame) i = u32 v.
Proof.
  intros Hk Hi. rewrite recordOf_eq by exact Hk. now apply read_be_store.
Qed.

Lemma recordOf_length slop frame :
  keptBanks frame <> [] ->
  Z.of_nat (length (recordOf slop frame))
  = 4 * (23 + Z.of_nat (length (AggregatedFrame.slices frame))
         + totalPayloadBytes (keptBanks frame) / 4).
Proof.
  intros Hk. rewrite recordOf_eq by exact Hk.
  rewrite length_app, host_store_words_length, length_map, eventWordsOf_length.
  rewrite totalPayloadBytes_eq.
  pose proof (padded_banks_aligned (keptBanks frame)).
  rewrite Nat2Z.inj_add, Nat2Z.inj_mul, Nat2Z.inj_add.
  Z.div_mod_to_equations. lia.
Qed.

Lemma u32_u32 z : u32 (u32 z) = u32 z.
Proof. unfold u32. apply Z.mod_mod. lia. Qed.

(** Looking up one of the 23 fixed metadata words. *)
Ltac fixed_word slop frame Hk k :=
  rewrite (record_word slop frame k _ Hk
             ltac:(rewrite eventWordsOf_eq; reflexivity)).

Lemma record_header_words slop frame :
  keptBanks frame <> [] ->
  let B := recordOf slop frame in
  read_be_u32 B 1 = 0 /\ read_be_u32 B 2 = 14 /\ read_be_u32 B 3 = 1 /\
  read_be_u32 B 4 = 0 /\ read_be_u32 B 5 = bitInfo /\ read_be_u32 B 6 = 0 /\
  read_be_u32 B 7 = 0xc0da0100 /\ read_be_u32 B 9 = 0 /\
  read_be_u32 B 10 = 0 /\ read_be_u32 B 11 = 0 /\ read_be_u32 B 12 = 0 /\
  read_be_u32 B 13 = 0.
Proof.
  intros Hk B. subst B.
  fixed_word slop frame Hk 1%nat. fixed_word slop frame Hk 2%nat.
  fixed_word slop frame Hk 3%nat. fixed_word slop frame Hk 4%nat.
  fixed_word slop frame Hk 5%nat. fixed_word slop frame Hk 6%nat.
  fixed_word slop frame Hk 7%nat. fixed_word slop frame Hk 9%nat.
  fixed_word slop frame Hk 10%nat. fixed_word slop frame Hk 11%nat.
  fixed_word slop frame Hk 12%nat. fixed_word slop frame Hk 13%nat.
  repeat split; reflexivity.
Qed.

(** ** Record header *)

(** C6, as the code has it: in every record the encoder builds, header
    words 1, 6, 9, 10, 11, 12 and 13 are zero and word 3, the event index
    count, is 1. *)
Theorem C6_header_constant_words slop frame :
  keptBanks frame <> [] ->
  let B := recordOf slop frame in
  read_be_u32 B 1 = 0 /\ read_be_u32 B 3 = 1 /\ read_be_u32 B 6 = 0 /\
  read_be_u32 B 9 = 0 /\ read_be_u32 B 10 = 0 /\ read_be_u32 B 11 = 0 /\
  read_be_u32 B 12 = 0 /\ read_be_u32 B 13 = 0.
Proof.
  intros Hk B. pose proof (record_header_words slop frame Hk) as H.
  cbv zeta in H. subst B. tauto.
Qed.

Lemma C6_header_constant_words_witness :
  keptBanks frameSingle <> [] /\
  let B := recordOf 100 frameSingle in
  read_be_u32 B 1 = 0 /\ read_be_u32 B 3 = 1 /\ read_be_u32 B 6 = 0 /\
  read_be_u32 B 9 = 0 /\ read_be_u32 B 10 = 0 /\ read_be_u32 B 11 = 0 /\
  read_be_u32 B 12 = 0 /\ read_be_u32 B 13 = 0.
Proof.
  split.
  - vm_compute. discriminate.
  - apply (C6_header_constant_words 100 frameSingle). vm_compute. discriminate.
Defined.

(** C6 as stated fails: the single-stream frame is built and emitted
    with word 3 equal to 1. *)
Lemma C6_word3_is_not_zero :
  Encoder.buildEVIO6Frame 100 frameSingle [] = (false, true, recordOf 100 frameSingle)
  /\ read_be_u32 (recordOf 100 frameSingle) 3 <> 0.
Proof. split; vm_compute; [reflexivity | discriminate]. Qed.

(** ** Length fields *)

Lemma totalPayloadBytes_nonneg rocBanks : 0 <= totalPayloadBytes rocBanks / 4.
Proof.
  rewrite totalPayloadBytes_eq. apply Z.div_pos; lia.
Qed.

(** C5: in every record the encoder builds whose length fits the 32-bit
    length fields, word 0 is [14 + aggregatedBankLength + 1] with
    [aggregatedBankLength] the value of word 14; the buffer is a whole
    number of words and word 0 is its length in words (the banks are
    padded, so this holds whether or not they are word-aligned); word 8 is
    word 0 minus 14; and the stream-info length (word 16) counts the words
    from word 17 to the last AIS entry, the AIS ending at word index
    [23 + n] for [n] slices. *)
Theorem C5_length_fields slop frame :
  keptBanks frame <> [] ->
  let B := recordOf slop frame in
  let n := Z.of_nat (length (AggregatedFrame.slices frame)) in
  let abl := aggregatedBankLength frame (keptBanks frame) in
  14 + abl + 1 < 2 ^ 32 ->
  read_be_u32 B 14 = abl /\
  read_be_u32 B 0 = 14 + read_be_u32 B 14 + 1 /\
  Z.of_nat (length B) mod 4 = 0 /\
  read_be_u32 B 0 = Z.of_nat (length B) / 4 /\
  read_be_u32 B 8 = read_be_u32 B 0 - 14 /\
  length (eventWordsOf slop frame) = (23 + length (AggregatedFrame.slices frame))%nat /\
  read_be_u32 B 16 = (23 + n) - 16 - 1.
Proof.
  intros Hk B n abl Hfit.
  pose proof (totalPayloadBytes_nonneg (keptBanks frame)) as Hpos.
  assert (Habl : abl = 8 + n + totalPayloadBytes (keptBanks frame) / 4)
    by reflexivity.
  assert (Hlen := recordOf_length slop frame Hk). fold B n in Hlen.
  assert (Hn : 0 <= n) by (subst n; lia).
  subst B.
  fixed_word slop frame Hk 14%nat. fixed_word slop frame Hk 0%nat.
  fixed_word slop frame Hk 8%nat. fixed_word slop frame Hk 16%nat.
  fold n abl. rewrite !u32_u32.
  rewrite (u32_small abl) by (unfold is_u32; lia).
  rewrite (u32_small (14 + abl + 1)) by (unfold is_u32; lia).
  rewrite (u32_small (14 + abl + 1 - 14)) by (unfold is_u32; lia).
  rewrite (u32_small (6 + n)) by (unfold is_u32; lia).
  rewrite Hlen.
  repeat split; try lia.
  - rewrite Z.mul_comm. apply Z.mod_mul. lia.
  - rewrite Z.mul_comm, Z.div_mul by lia. lia.
  - apply eventWordsOf_length.
Qed.

(** Without the bound, word 0 is the length in words modulo 2^32. *)
Lemma record_length_word_wraps slop frame :
  keptBanks frame <> [] ->
  let B := recordOf slop frame in
  Z.of_nat (length B) mod 4 = 0
  /\ read_be_u32 B 0 = u32 (Z.of_nat (length B) / 4).
Proof.
  intros Hk B. assert (Hlen := recordOf_length slop frame Hk). fold B in Hlen.
  subst B. fixed_word slop frame Hk 0%nat. rewrite u32_u32, Hlen.
  split.
  - rewrite Z.mul_comm. apply Z.mod_mul. lia.
  - rewrite Z.mul_comm, Z.div_mul by lia. f_equal.
    unfold aggregatedBankLength. lia.
Qed.

Lemma C5_length_fields_witness :
  keptBanks frameSingle <> [] /\
  14 + aggregatedBankLength frameSingle (keptBanks frameSingle) + 1 < 2 ^ 32 /\
  let B := recordOf 100 frameSingle in
  read_be_u32 B 14 = 13 /\
  read_be_u32 B 0 = 14 + read_be_u32 B 14 + 1 /\
  Z.of_nat (length B) mod 4 = 0 /\
  read_be_u32 B 0 = Z.of_nat (length B) / 4 /\
  read_be_u32 B 8 = read_be_u32 B 0 - 14 /\
  length (eventWordsOf 100 frameSingle) = 24%nat /\
  read_be_u32 B 16 = (23 + 1) - 16 - 1.
Proof.
  split; [vm_compute; discriminate|].
  split; [vm_compute; reflexivity|].
  apply (C5_length_fields 100 frameSingle).
  - vm_compute. discriminate.
  - vm_compute. reflexivity.
Defined.

(** ** Bit fields *)

Lemma lor_bound a b k :
  0 <= k -> 0 <= a < 2 ^ k -> 0 <= b < 2 ^ k -> 0 <= Z.lor a b < 2 ^ k.
Proof.
  intros Hk Ha Hb. split; [apply Z.lor_nonneg; lia|].
  destruct (Z.eq_dec (Z.lor a b) 0) as [E|E]; [rewrite E; lia|].
  apply Z.log2_lt_pow2; [pose proof (proj2 (Z.lor_nonneg a b)); lia|].
  rewrite Z.log2_lor by lia.
  destruct (Z.eq_dec a 0) as [->|Ha0], (Z.eq_dec b 0) as [->|Hb0].
  - now rewrite Z.lor_0_l in E.
  - rewrite Z.max_r by (cbn; apply Z.log2_nonneg).
    apply Z.log2_lt_pow2; lia.
  - rewrite Z.max_l by (cbn; apply Z.log2_nonneg).
    apply Z.log2_lt_pow2; lia.
  - apply Z.max_lub_lt; apply Z.log2_lt_pow2; lia.
Qed.

(** The low [k] bits of a header word whose constant part leaves them
    free are the field that was or-ed in. *)
Lemma low_field K v k :
  0 <= k <= 32 -> Z.land K (Z.ones k) = 0 -> 0 <= v < 2 ^ k ->
  Z.land (u32 (Z.lor K v)) (Z.ones k) = v.
Proof.
  intros Hk HK Hv. unfold u32.
  rewrite Z.land_ones by lia.
  rewrite Z.mod_mod_divide.
  - rewrite <- Z.land_ones by lia.
    rewrite Z.land_lor_distr_l, HK, Z.lor_0_l, Z.land_ones by lia.
    apply Z.mod_small. exact Hv.
  - exists (2 ^ (32 - k)). rewrite <- Z.pow_add_r by lia. f_equal. lia.
Qed.

Lemma to_int_mod n k :
  0 <= k <= 32 -> to_int n mod 2 ^ k = n mod 2 ^ k.
Proof.
  intros Hk. unfold to_int.
  assert (Hdiv : (2 ^ k | 2 ^ 32)).
  { exists (2 ^ (32 - k)). rewrite <- Z.pow_add_r by lia. f_equal. lia. }
  assert (Hpos : 0 < 2 ^ k) by (apply Z.pow_pos_nonneg; lia).
  destruct Hdiv as [q Hq].
  assert (H31 : 2 ^ 31 + 2 ^ 31 = 2 ^ 32) by reflexivity.
  pose proof (Z.div_mod (n + 2 ^ 31) (2 ^ 32) ltac:(lia)) as Hdm.
  replace ((n + 2 ^ 31) mod 2 ^ 32 - 2 ^ 31)
    with (n + (- ((n + 2 ^ 31) / 2 ^ 32) * q) * 2 ^ k) by (rewrite Hq in Hdm at 1; lia).
  apply Z.mod_add. lia.
Qed.

Lemma to_int_small n : 0 <= n < 2 ^ 31 -> to_int n = n.
Proof.
  intros Hn. unfold to_int. rewrite Z.mod_small; lia.
Qed.

Lemma statusOf_fields slop frame :
  let st := statusOf slop frame in
  let n := Z.of_nat (length (AggregatedFrame.slices frame)) in
  0 <= st < 2 ^ 8 /\
  Z.land st 0x7F = n mod 128 /\
  Z.shiftr st 7 = (if checkTimestampConsistency slop frame then 1 else 0).
Proof.
  intros st n. subst st. unfold statusOf. fold n.
  change 0x7F with (Z.ones 7). rewrite (Z.land_ones (to_int n)) by lia.
  rewrite (to_int_mod n 7) by lia.
  assert (Hm : 0 <= n mod 2 ^ 7 < 2 ^ 7) by (apply Z.mod_pos_bound; lia).
  set (m := n mod 2 ^ 7) in *.
  assert (He : exists e,
    (if checkTimestampConsistency slop frame then 1 else 0) = e
    /\ (e = 0 \/ e = 1))
    by (destruct (checkTimestampConsistency slop frame); eauto).
  destruct He as (e & -> & He).
  split; [|split].
  - apply lor_bound; [lia| |lia].
    rewrite Z.shiftl_mul_pow2 by lia. destruct He as [-> | ->]; lia.
  - rewrite Z.land_lor_distr_l, (Z.land_ones m) by lia.
    rewrite (Z.mod_small m) by lia.
    destruct He as [-> | ->]; reflexivity.
  - rewrite Z.shiftr_lor, (Z.shiftr_div_pow2 m) by lia.
    rewrite (Z.div_small m) by lia. rewrite Z.lor_0_r.
    rewrite Z.shiftr_shiftl_l by lia. now rewrite Z.sub_diag, Z.shiftl_0_r.
Qed.

(** The status byte of a built record is the value computed before the
    slices are checked. *)
Lemma SS_statusOf slop frame :
  keptBanks frame <> [] -> SS (recordOf slop frame) = statusOf slop frame.
Proof.
  intros Hk. unfold SS. fixed_word slop frame Hk 15%nat.
  rewrite u32_u32. change 0xFF with (Z.ones 8).
  apply low_field; [lia|reflexivity|].
  apply (statusOf_fields slop frame).
Qed.

(** The error bit of the status byte is the outcome of the timestamp
    check alone. *)
Lemma SS_error_bit slop frame :
  keptBanks frame <> [] ->
  Z.shiftr (SS (recordOf slop frame)) 7
  = if checkTimestampConsistency slop frame then 1 else 0.
Proof.
  intros Hk. rewrite SS_statusOf by exact Hk. apply (statusOf_fields slop frame).
Qed.

(** ** Slices kept by step 1 *)

Lemma keptSlices_all frame :
  forallb sliceValid (AggregatedFrame.slices frame) = true ->
  keptSlices frame = AggregatedFrame.slices frame.
Proof.
  unfold keptSlices. induction (AggregatedFrame.slices frame) as [|s ss IH];
    [reflexivity|].
  cbn [forallb List.filter]. intros H. apply andb_prop in H as [Hs Hss].
  rewrite Hs, IH by exact Hss. reflexivity.
Qed.

Lemma keptBanks_all_nonempty frame :
  forallb sliceValid (AggregatedFrame.slices frame) = true ->
  AggregatedFrame.slices frame <> [] ->
  keptBanks frame <> [].
Proof.
  intros Hv Hne. unfold keptBanks. rewrite keptSlices_all by exact Hv.
  destruct (AggregatedFrame.slices frame); [contradiction|discriminate].
Qed.

Lemma no_invalid_slice frame :
  forallb sliceValid (AggregatedFrame.slices frame) = true ->
  existsb (fun s => negb (sliceValid s)) (AggregatedFrame.slices frame) = false.
Proof.
  induction (AggregatedFrame.slices frame) as [|s ss IH]; [reflexivity|].
  cbn [forallb existsb]. intros H. apply andb_prop in H as [Hs Hss].
  rewrite Hs, IH by exact Hss. reflexivity.
Qed.

(** ** Aggregation-info segment *)

Lemma ais_word slop frame i s :
  keptBanks frame <> [] ->
  AggregatedFrame.slices frame !! i = Some s ->
  read_be_u32 (recordOf slop frame) (23 + i) = aisEntry s.
Proof.
  intros Hk Hs.
  rewrite (record_word slop frame (23 + i) (aisEntry s) Hk).
  - unfold aisEntry. apply u32_u32.
  - rewrite eventWordsOf_eq. cbv zeta.
    rewrite lookup_app_r by (cbn [length]; lia).
    cbn [length]. replace (23 + i - 23)%nat with i by lia.
    rewrite list_lookup_fmap, Hs. reflexivity.
Qed.

Lemma aisEntry_well_typed s :
  TimeSlice.well_typed s ->
  aisEntry s
  = Z.lor (Z.shiftl (TimeSlice.dataId s) 16) (TimeSlice.streamStatus s).
Proof.
  intros (_ & _ & Hid & Hst). unfold aisEntry, is_u16 in *.
  apply u32_small. unfold is_u32. apply lor_bound; [lia| |lia].
  rewrite Z.shiftl_mul_pow2 by lia. lia.
Qed.

Lemma aisCount_eq slop frame :
  keptBanks frame <> [] ->
  aisCount (recordOf slop frame)
  = Z.of_nat (length (AggregatedFrame.slices frame)) mod 2 ^ 16.
Proof.
  intros Hk. unfold aisCount. fixed_word slop frame Hk 22%nat.
  rewrite u32_u32. change 0xFFFF with (Z.ones 16).
  set (n := Z.of_nat (length (AggregatedFrame.slices frame))).
  unfold u32. rewrite Z.land_ones, Z.mod_mod_divide by (try lia; now exists (2 ^ 16)).
  rewrite <- Z.land_ones, Z.land_lor_distr_l by lia.
  change (Z.land (Z.lor (Z.shiftl 66 24) (Z.shiftl 1 16)) (Z.ones 16)) with 0.
  rewrite Z.lor_0_l, Z.land_ones by lia. apply to_int_mod. lia.
Qed.

Lemma aisEntries_eq slop frame :
  keptBanks frame <> [] ->
  Z.of_nat (length (AggregatedFrame.slices frame)) < 2 ^ 16 ->
  aisEntries (recordOf slop frame)
  = map aisEntry (AggregatedFrame.slices frame).
Proof.
  intros Hk Hn. unfold aisEntries. rewrite aisCount_eq by exact Hk.
  rewrite Z.mod_small, Nat2Z.id by lia.
  apply list_eq. intros i. rewrite !list_lookup_fmap.
  destruct (AggregatedFrame.slices frame !! i) as [s|] eqn:Hs.
  - rewrite (lookup_seq_lt _ _ _ (lookup_lt_Some _ _ _ Hs)). cbn [fmap option_fmap option_map].
    f_equal. now apply ais_word.
  - rewrite lookup_seq_ge by (apply lookup_ge_None; exact Hs). reflexivity.
Qed.

(** C3, as the code has it: for every record built from a frame in which
    every slice survives the checks of step 1 (so that the [k] slices of
    the frame are the retained ones), with [k < 65536]: the low 7 bits of
    [SS] are [k mod 128], the AIS length field is [k], and the AIS holds
    one entry [(dataId << 16) | streamStatus] per slice, in the order of
    the slices. *)
Theorem C3_status_and_ais_counts slop frame :
  let slices := AggregatedFrame.slices frame in
  let k := Z.of_nat (length slices) in
  forallb sliceValid slices = true ->
  slices <> [] ->
  k < 2 ^ 16 ->
  Forall TimeSlice.well_typed slices ->
  let B := recordOf slop frame in
  keptSlices frame = slices /\
  Z.land (SS B) 0x7F = k mod 128 /\
  (k < 128 -> Z.land (SS B) 0x7F = k) /\
  aisCount B = k /\
  Z.of_nat (length (aisEntries B)) = k /\
  aisEntries B
  = map (fun s => Z.lor (Z.shiftl (TimeSlice.dataId s) 16)
                        (TimeSlice.streamStatus s)) slices.
Proof.
  intros slices k Hv Hne Hk16 Hwt B.
  pose proof (keptBanks_all_nonempty frame Hv Hne) as Hk.
  assert (Hss : Z.land (SS B) 0x7F = k mod 128).
  { subst B. rewrite SS_statusOf by exact Hk.
    apply (statusOf_fields slop frame). }
  assert (Hent : aisEntries B = map aisEntry slices)
    by (apply aisEntries_eq; assumption).
  split; [now apply keptSlices_all|].
  split; [exact Hss|].
  split; [intros H; rewrite Hss; apply Z.mod_small; lia|].
  split; [subst B; rewrite aisCount_eq by exact Hk; apply Z.mod_small; lia|].
  split; [rewrite Hent, length_map; reflexivity|].
  rewrite Hent. apply map_ext_Forall.
  eapply Forall_impl; [exact Hwt|]. intros s Hs. now apply aisEntry_well_typed.
Qed.

Lemma C3_status_and_ais_counts_witness :
  forallb sliceValid (AggregatedFrame.slices frameTwo) = true /\
  AggregatedFrame.slices frameTwo <> [] /\
  2 < 2 ^ 16 /\
  Forall TimeSlice.well_typed (AggregatedFrame.slices frameTwo) /\
  let B := recordOf 100 frameTwo in
  keptSlices frameTwo = AggregatedFrame.slices frameTwo /\
  Z.land (SS B) 0x7F = 2 mod 128 /\
  (2 < 128 -> Z.land (SS B) 0x7F = 2) /\
  aisCount B = 2 /\
  Z.of_nat (length (aisEntries B)) = 2 /\
  aisEntries B = [0x00010000; 0x00020000].
Proof.
  assert (Hwt : Forall TimeSlice.well_typed (AggregatedFrame.slices frameTwo)).
  { repeat (apply List.Forall_cons;
              [unfold TimeSlice.well_typed, is_u64, is_u32, is_u16; cbn; lia|]).
    apply List.Forall_nil. }
  split; [reflexivity|]. split; [discriminate|]. split; [lia|].
  split; [exact Hwt|].
  apply (C3_status_and_ais_counts 100 frameTwo);
    [reflexivity | discriminate | reflexivity | exact Hwt].
Defined.

(** C3 as stated fails in two ways. A frame of 128 good slices is built
    without error and its AIS holds 128 entries, but the low 7 bits of
    [SS] are 0. A frame with one good and one short slice retains one
    slice, but its record counts two in [SS] and in the AIS. *)
Lemma C3_counts_disagree :
  (Encoder.buildEVIO6Frame 100 frame128 [] = (false, true, recordOf 100 frame128)
   /\ aisCount (recordOf 100 frame128) = 128
   /\ Z.land (SS (recordOf 100 frame128)) 0x7F
      <> Z.of_nat (length (aisEntries (recordOf 100 frame128))))
  /\
  (length (keptSlices frameDropped) = 1%nat
   /\ Z.land (SS (recordOf 100 frameDropped)) 0x7F = 2
   /\ aisCount (recordOf 100 frameDropped)
      <> Z.of_nat (length (keptSlices frameDropped))).
Proof.
  split; (split; [vm_compute; reflexivity|]);
    (split; [vm_compute; reflexivity|]); vm_compute; discriminate.
Qed.

(** ** Status byte *)

(** C1 fails on the code: for the frame with one good and one short
    slice, step 1 raises the error flag and the function returns false,
    but the record's status byte is 0x02, with bit 7 clear. The status is
    computed from the timestamp check before the slices are examined. *)
Theorem C1_error_bit_misses_dropped_slice :
  checkSlice sliceShort = PayloadTooSmall /\
  stripLoop false (AggregatedFrame.slices frameDropped)
    = (true, [repeat Byte.xaa 4]) /\
  checkTimestampConsistency 100 frameDropped = false /\
  Encoder.buildEVIO6Frame 100 frameDropped []
    = (false, false, recordOf 100 frameDropped) /\
  recordOf 100 frameDropped <> [] /\
  SS (recordOf 100 frameDropped) = 0x02 /\
  Z.shiftr (SS (recordOf 100 frameDropped)) 7 = 0.
Proof.
  repeat split; try (vm_compute; reflexivity). vm_compute. discriminate.
Qed.

(** ** Timestamp *)

Lemma sum_fold slices a :
  fold_left (fun total slice => u64 (total + TimeSlice.timestamp slice))
            slices (u64 a)
  = u64 (a + sumTimestamps slices).
Proof.
  revert a. induction slices as [|s ss IH]; intros a; cbn [fold_left sumTimestamps fold_right].
  - now rewrite Z.add_0_r.
  - replace (u64 (u64 a + TimeSlice.timestamp s))
      with (u64 (a + TimeSlice.timestamp s))
      by (unfold u64; now rewrite Zplus_mod_idemp_l).
    rewrite IH. f_equal. unfold sumTimestamps. lia.
Qed.

Lemma calculateAverageTimestamp_eq frame :
  AggregatedFrame.slices frame <> [] ->
  calculateAverageTimestamp frame
  = u64 (sumTimestamps (AggregatedFrame.slices frame))
    / Z.of_nat (length (AggregatedFrame.slices frame)).
Proof.
  intros Hne. unfold calculateAverageTimestamp.
  destruct (AggregatedFrame.slices frame) as [|s ss] eqn:E; [contradiction|].
  change 0 with (u64 0) at 1. rewrite sum_fold. reflexivity.
Qed.

Lemma split_u64 a :
  Z.lor (Z.land a (Z.ones 32))
        (Z.shiftl (Z.land (Z.shiftr a 32) (Z.ones 32)) 32)
  = Z.land a (Z.ones 64).
Proof. Z.bitblast. Qed.

Lemma embeddedTimestamp_eq slop frame :
  keptBanks frame <> [] ->
  is_u64 (calculateAverageTimestamp frame) ->
  embeddedTimestamp (recordOf slop frame) = calculateAverageTimestamp frame.
Proof.
  intros Hk Ha. unfold embeddedTimestamp.
  fixed_word slop frame Hk 20%nat. fixed_word slop frame Hk 21%nat.
  set (a := calculateAverageTimestamp frame) in *.
  rewrite !u32_u32. change 0xFFFFFFFF with (Z.ones 32).
  rewrite !(u32_small (Z.land _ (Z.ones 32)))
    by (unfold is_u32; rewrite Z.land_ones by lia; apply Z.mod_pos_bound; lia).
  rewrite split_u64, Z.land_ones by lia. apply Z.mod_small. exact Ha.
Qed.

Lemma average_is_u64 frame :
  AggregatedFrame.slices frame <> [] ->
  is_u64 (calculateAverageTimestamp frame).
Proof.
  intros Hne. rewrite calculateAverageTimestamp_eq by exact Hne.
  pose proof (u64_is_u64 (sumTimestamps (AggregatedFrame.slices frame))) as Hs.
  set (n := Z.of_nat (length (AggregatedFrame.slices frame))).
  assert (Hn : 1 <= n)
    by (subst n; destruct (AggregatedFrame.slices frame); [contradiction|cbn [length]; lia]).
  unfold is_u64 in *. split.
  - apply Z.div_pos; lia.
  - apply Z.div_lt_upper_bound; nia.
Qed.

Lemma sumTimestamps_nonneg slices :
  Forall TimeSlice.well_typed slices -> 0 <= sumTimestamps slices.
Proof.
  induction 1 as [|s ss Hs _ IH]; cbn; [lia|].
  destruct Hs as (Hts & _). unfold is_u64 in Hts. unfold sumTimestamps in IH. lia.
Qed.

(** C4, as the code has it: for every frame in which every slice
    survives the checks of step 1 (the [k] slices of the frame are the
    kept ones), the timestamp embedded in the time-slice segment is
    [floor((Σ ts_i mod 2^64) / k)]: the sum is accumulated in a 64-bit
    unsigned integer. It is [floor(Σ ts_i / k)] when the sum is below
    2^64. *)
Theorem C4_embedded_timestamp slop frame :
  let slices := AggregatedFrame.slices frame in
  let k := Z.of_nat (length slices) in
  forallb sliceValid slices = true ->
  slices <> [] ->
  Forall TimeSlice.well_typed slices ->
  let B := recordOf slop frame in
  Z.of_nat (length (keptSlices frame)) = k /\
  embeddedTimestamp B = (sumTimestamps slices mod 2 ^ 64) / k /\
  (sumTimestamps slices < 2 ^ 64 ->
   embeddedTimestamp B = sumTimestamps slices / k).
Proof.
  intros slices k Hv Hne Hwt B.
  pose proof (keptBanks_all_nonempty frame Hv Hne) as Hk.
  assert (He : embeddedTimestamp B = u64 (sumTimestamps slices) / k).
  { subst B. rewrite embeddedTimestamp_eq by (auto using average_is_u64).
    now apply calculateAverageTimestamp_eq. }
  split; [now rewrite keptSlices_all|].
  split; [exact He|].
  intros Hsum. rewrite He. unfold u64. rewrite Z.mod_small; [reflexivity|].
  split; [now apply sumTimestamps_nonneg | exact Hsum].
Qed.

Lemma C4_embedded_timestamp_witness :
  forallb sliceValid (AggregatedFrame.slices frameSlop) = true /\
  AggregatedFrame.slices frameSlop <> [] /\
  Forall TimeSlice.well_typed (AggregatedFrame.slices frameSlop) /\
  let B := recordOf 10 frameSlop in
  Z.of_nat (length (keptSlices frameSlop)) = 2 /\
  embeddedTimestamp B = (300 mod 2 ^ 64) / 2 /\
  (300 < 2 ^ 64 -> embeddedTimestamp B = 150).
Proof.
  assert (Hwt : Forall TimeSlice.well_typed (AggregatedFrame.slices frameSlop)).
  { repeat (apply List.Forall_cons;
              [unfold TimeSlice.well_typed, is_u64, is_u32, is_u16; cbn; lia|]).
    apply List.Forall_nil. }
  split; [reflexivity|]. split; [discriminate|]. split; [exact Hwt|].
  apply (C4_embedded_timestamp 10 frameSlop);
    [reflexivity | discriminate | exact Hwt].
Defined.

(** C4 as stated fails. Two good slices with timestamp 2^63 are accepted
    without any error, both are kept, the mean of the timestamps is 2^63,
    and the record carries timestamp 0. And for a frame with a good slice
    at 100 and a short slice at 200, a record is built in which only the
    first is kept, and it carries 150, the mean over both. *)
Lemma C4_mean_wraps_around :
  (Encoder.buildEVIO6Frame 100 frameHighTs []
     = (false, true, recordOf 100 frameHighTs)
   /\ keptSlices frameHighTs = AggregatedFrame.slices frameHighTs
   /\ sumTimestamps (AggregatedFrame.slices frameHighTs) / 2 = 2 ^ 63
   /\ embeddedTimestamp (recordOf 100 frameHighTs) = 0
   /\ embeddedTimestamp (recordOf 100 frameHighTs)
      <> sumTimestamps (AggregatedFrame.slices frameHighTs) / 2)
  /\
  (Encoder.buildEVIO6Frame 1000 frameMixed []
     = (false, false, recordOf 1000 frameMixed)
   /\ recordOf 1000 frameMixed <> []
   /\ length (keptSlices frameMixed) = 1%nat
   /\ sumTimestamps (keptSlices frameMixed) / 1 = 100
   /\ embeddedTimestamp (recordOf 1000 frameMixed) = 150).
Proof.
  split; repeat split; try (vm_compute; reflexivity); vm_compute; discriminate.
Qed.

(** ** Frame buffer *)

Import BuilderThread.

Lemma frameBuffer_addTimeSlice now slice bt :
  frameBuffer (addTimeSlice now slice bt)
  = <[TimeSlice.timestamp slice :=
        AggregatedFrame.addSlice
          (let frame :=
             default (AggregatedFrame.make now)
                     (frameBuffer bt !! TimeSlice.timestamp slice) in
           if AggregatedFrame.timestamp frame =? 0 then
             {| AggregatedFrame.timestamp := TimeSlice.timestamp slice;
                AggregatedFrame.frameNumber := TimeSlice.frameNumber slice;
                AggregatedFrame.slices := AggregatedFrame.slices frame;
                AggregatedFrame.arrivalTime := now |}
           else frame) slice]> (frameBuffer bt).
Proof. reflexivity. Qed.

(** The first slice of a timestamp creates the entry. *)
Lemma addTimeSlice_new now slice bt :
  frameBuffer bt !! TimeSlice.timestamp slice = None ->
  frameBuffer (addTimeSlice now slice bt) !! TimeSlice.timestamp slice
  = Some {| AggregatedFrame.timestamp := TimeSlice.timestamp slice;
            AggregatedFrame.frameNumber := TimeSlice.frameNumber slice;
            AggregatedFrame.slices := [slice];
            AggregatedFrame.arrivalTime := now |}.
Proof.
  intros Hnone. rewrite frameBuffer_addTimeSlice, lookup_insert_eq, Hnone.
  reflexivity.
Qed.

(** A later slice of a non-zero timestamp leaves [frameNumber] and
    [arrivalTime] as they are. *)
Lemma addTimeSlice_later_nonzero now slice bt frame :
  frameBuffer bt !! TimeSlice.timestamp slice = Some frame ->
  AggregatedFrame.timestamp frame <> 0 ->
  frameBuffer (addTimeSlice now slice bt) !! TimeSlice.timestamp slice
  = Some (AggregatedFrame.addSlice frame slice).
Proof.
  intros Hf Hts. rewrite frameBuffer_addTimeSlice, lookup_insert_eq, Hf.
  cbv [default from_option id].
  destruct (Z.eqb_spec (AggregatedFrame.timestamp frame) 0);
    [contradiction|reflexivity].
Qed.

(** A later slice of timestamp 0 finds [frame.timestamp == 0] and goes
    through the new-frame branch again. *)
Lemma addTimeSlice_later_zero now slice bt frame :
  TimeSlice.timestamp slice = 0 ->
  frameBuffer bt !! 0 = Some frame ->
  AggregatedFrame.timestamp frame = 0 ->
  frameBuffer (addTimeSlice now slice bt) !! 0
  = Some {| AggregatedFrame.timestamp := 0;
            AggregatedFrame.frameNumber := TimeSlice.frameNumber slice;
            AggregatedFrame.slices := AggregatedFrame.slices frame ++ [slice];
            AggregatedFrame.arrivalTime := now |}.
Proof.
  intros Hts Hf Hz. rewrite frameBuffer_addTimeSlice, Hts, lookup_insert_eq, Hf.
  cbv [default from_option id]. rewrite Hz. reflexivity.
Qed.

(** C7 fails on the code for timestamp 0: a slice with frame number 7
    creates the entry at time 10, a second slice with timestamp 0 and
    frame number 9 arrives at time 500, and the entry then has frame
    number 9 and arrival time 500. With timestamp 5 the same two calls
    leave frame number 7 and arrival time 10. *)
Theorem C7_timestamp_zero_entry_is_reset :
  let first ts := addTimeSlice 10 (TimeSlice.make ts 7 1 codaPrefix) btStarted in
  let second ts := addTimeSlice 500 (TimeSlice.make ts 9 2 codaPrefix) (first ts) in
  frameInfo <$> frameBuffer (first 0) !! 0 = Some (7, 10, 1%nat) /\
  frameInfo <$> frameBuffer (second 0) !! 0 = Some (9, 500, 2%nat) /\
  frameInfo <$> frameBuffer (first 5) !! 5 = Some (7, 10, 1%nat) /\
  frameInfo <$> frameBuffer (second 5) !! 5 = Some (7, 10, 2%nat).
Proof. repeat split; vm_compute; reflexivity. Qed.

(** ** The builder loop *)

Lemma buildAndPublish_rejected env frame bt :
  (buildEVIO6Frame (timestampSlop (config bt)) frame []).1.2 = false ->
  etEvents (buildAndPublish env frame bt) = etEvents bt
  /\ fileOut (buildAndPublish env frame bt) = fileOut bt.
Proof.
  intros Hok. unfold buildAndPublish.
  destruct (running_after_unlock env); cbn [negb]; [|split; reflexivity].
  destruct (buildEVIO6Frame (timestampSlop (config bt)) frame [])
    as [[tsError ok] builtFrame].
  cbn in Hok. subst ok. destruct tsError; split; reflexivity.
Qed.

(** C2 fails on the code. Two slices with timestamp 0x1000 are submitted
    to a thread that expects two streams, one of them too short. The
    entry is ready, the encoder drops the short slice, keeps the other and
    fills the buffer with a well-formed record, but returns false, and
    the thread erases the entry and hands nothing to either sink, whatever
    the sinks would have answered. The same happens to a frame whose only
    error is the timestamp spread: its record carries the error flag and
    is not emitted. *)
Theorem C2_record_with_errors_is_not_emitted env now :
  let bt1 := addTimeSlice 0 sliceShort (addTimeSlice 0 sliceGood btStarted) in
  let bt2 := buildEntry env now 0x1000 bt1 in
  let B := recordOf 100 frameDropped in
  (frameBuffer bt1 !! 0x1000 = Some frameDropped
   /\ shouldBuild bt1 frameDropped now = true
   /\ keptSlices frameDropped = [sliceGood]
   /\ buildEVIO6Frame 100 frameDropped [] = (false, false, B)
   /\ read_be_u32 B 0 = Z.of_nat (length B) / 4
   /\ read_be_u32 B 7 = 0xc0da0100
   /\ frameBuffer bt2 !! 0x1000 = None
   /\ etEvents bt2 = []
   /\ files (fileOut bt2) = ∅)
  /\
  (buildEVIO6Frame 10 frameSlop [] = (true, false, recordOf 10 frameSlop)
   /\ SS (recordOf 10 frameSlop) = 0x82
   /\ forall bt, timestampSlop (config bt) = 10 ->
        etEvents (buildAndPublish env frameSlop bt) = etEvents bt
        /\ fileOut (buildAndPublish env frameSlop bt) = fileOut bt).
Proof.
  intros bt1 bt2 B.
  assert (Hf : frameBuffer bt1 !! 0x1000 = Some frameDropped)
    by (vm_compute; reflexivity).
  assert (Hs : shouldBuild bt1 frameDropped now = true) by reflexivity.
  assert (Hb : buildEVIO6Frame 100 frameDropped [] = (false, false, B))
    by (vm_compute; reflexivity).
  assert (Hbt2 : bt2 = buildAndPublish env frameDropped
                         (with_frameBuffer bt1 (delete 0x1000 (frameBuffer bt1)))).
  { subst bt2. unfold buildEntry. rewrite Hf, Hs. reflexivity. }
  assert (Hrej := buildAndPublish_rejected env frameDropped
                    (with_frameBuffer bt1 (delete 0x1000 (frameBuffer bt1)))).
  change (timestampSlop _) with 100 in Hrej. rewrite Hb in Hrej.
  destruct (Hrej eq_refl) as [Het Hfo]. rewrite <- Hbt2 in Het, Hfo.
  split.
  - split; [exact Hf|]. split; [exact Hs|].
    split; [vm_compute; reflexivity|]. split; [exact Hb|].
    split; [vm_compute; reflexivity|]. split; [vm_compute; reflexivity|].
    split; [|split].
    + rewrite Hbt2. unfold buildAndPublish.
      destruct (running_after_unlock env); cbn [negb];
        [|vm_compute; reflexivity].
      change (timestampSlop _) with 100. rewrite Hb. vm_compute. reflexivity.
    + rewrite Het. reflexivity.
    + rewrite Hfo. reflexivity.
  - split; [vm_compute; reflexivity|]. split; [vm_compute; reflexivity|].
    intros bt Hslop. apply buildAndPublish_rejected. rewrite Hslop.
    vm_compute. reflexivity.
Qed.

(** ** Stream status of the slices in the pipeline *)

Lemma aisEntry_from_pipeline s :
  sliceFromPipeline s -> aisEntry s = Z.shiftl (TimeSlice.dataId s) 16.
Proof.
  intros [Hst Hid]. unfold aisEntry. rewrite Hst, Z.lor_0_r.
  apply u32_small. unfold is_u32, is_u16 in *.
  rewrite Z.shiftl_mul_pow2 by lia. lia.
Qed.

Lemma shifted_low_bits d : Z.land (Z.shiftl d 16) 0xFFFF = 0.
Proof.
  change 0xFFFF with (Z.ones 16). rewrite Z.land_ones, Z.shiftl_mul_pow2 by lia.
  apply Z.mod_mul. lia.
Qed.

Lemma submitted_fromPipeline evs s :
  s ∈ submittedSlices evs -> sliceFromPipeline s.
Proof.
  unfold submittedSlices. intros H.
  apply list_elem_of_omap in H as (e & _ & He).
  destruct e as [now timestamp frameNumber dataId data|]; [|discriminate].
  injection He as <-. split; [reflexivity|apply u16_is_u16].
Qed.

Lemma submittedSlices_cons e evs s :
  s ∈ submittedSlices evs -> s ∈ submittedSlices (e :: evs).
Proof.
  unfold submittedSlices. cbn [omap list_omap].
  intros H. destruct e; [right|]; exact H.
Qed.

(** The AIS of a record built from slices the pipeline constructed. *)
Lemma pipeline_record_ais slop frame :
  Forall sliceFromPipeline (AggregatedFrame.slices frame) ->
  keptBanks frame <> [] ->
  aisIsDataIds (recordOf slop frame) (AggregatedFrame.slices frame)
  /\ Forall (fun e => Z.land e 0xFFFF = 0
                      /\ exists s, s ∈ AggregatedFrame.slices frame
                           /\ e = Z.shiftl (TimeSlice.dataId s) 16)
            (aisEntries (recordOf slop frame)).
Proof.
  intros Hsl Hk.
  assert (Hids : aisIsDataIds (recordOf slop frame) (AggregatedFrame.slices frame)).
  { intros i s Hs. rewrite (ais_word slop frame i s Hk Hs).
    apply aisEntry_from_pipeline.
    rewrite Forall_forall in Hsl. apply Hsl. eapply list_elem_of_lookup_2, Hs. }
  split; [exact Hids|].
  unfold aisEntries. rewrite aisCount_eq by exact Hk.
  apply Forall_fmap, Forall_forall. intros j Hj.
  apply elem_of_seq in Hj as [Hlo Hhi].
  set (n := length (AggregatedFrame.slices frame)) in *.
  assert (Hn : Z.of_nat n mod 2 ^ 16 <= Z.of_nat n)
    by (apply Z.mod_le; lia).
  assert (Hi : (j - 23 < n)%nat) by lia.
  destruct (lookup_lt_is_Some_2 (AggregatedFrame.slices frame) (j - 23) Hi)
    as [s Hs].
  cbn. replace j with (23 + (j - 23))%nat by lia.
  rewrite (Hids _ _ Hs). split; [apply shifted_low_bits|].
  exists s. split; [eapply list_elem_of_lookup_2, Hs|reflexivity].
Qed.

Lemma builtFrom_ais slop S B :
  (forall s, s ∈ S -> sliceFromPipeline s) ->
  builtFrom slop S B -> aisOfSubmitted slop S B.
Proof.
  intros HS (frame & Hsl & Hk & ->).
  assert (Hp : Forall sliceFromPipeline (AggregatedFrame.slices frame)).
  { eapply Forall_impl; [exact Hsl|]. exact HS. }
  destruct (pipeline_record_ais slop frame Hp Hk) as (Hids & Hlow).
  split; [exists frame; auto|].
  eapply Forall_impl; [exact Hlow|]. intros e (He & s & Hs & ->).
  split; [exact He|]. exists s. split; [|reflexivity].
  rewrite Forall_forall in Hsl. now apply Hsl.
Qed.

Lemma fileOf_nil P : fileOf P [].
Proof. exists []. split; [constructor|left; reflexivity]. Qed.

Lemma fileOf_header P : fileOf P fileHeaderBytes.
Proof.
  exists []. split; [constructor|right]. cbn [concat]. now rewrite app_nil_r.
Qed.

Lemma fileOf_append P content B :
  fileOf P content -> P B -> fileOf P (content ++ B).
Proof.
  intros (recs & Hrecs & Hc) HB. exists (recs ++ [B]).
  split; [apply Forall_app; split; [exact Hrecs|apply Forall_singleton; exact HB]|].
  rewrite concat_app. cbn [concat]. rewrite app_nil_r.
  destruct Hc as [-> | ->]; [left|right]; [reflexivity|].
  now rewrite app_assoc.
Qed.

Lemma fileOf_impl (P Q : list byte -> Prop) content :
  (forall B, P B -> Q B) -> fileOf P content -> fileOf Q content.
Proof.
  intros HPQ (recs & Hrecs & Hshape). exists recs. split; [|exact Hshape].
  eapply Forall_impl; [exact Hrecs|exact HPQ].
Qed.

Lemma buildEVIO6Frame_true slop frame output tsError B :
  buildEVIO6Frame slop frame output = (tsError, true, B) ->
  keptBanks frame <> [] /\ B = recordOf slop frame.
Proof.
  intros H.
  assert (Hk : keptBanks frame <> []).
  { intros E. rewrite buildEVIO6Frame_no_banks in H by exact E. discriminate. }
  split; [exact Hk|].
  rewrite buildEVIO6Frame_built in H by exact Hk.
  rewrite recordOf_eq by exact Hk. now injection H.
Qed.

(** ** The invariant of a builder thread *)

Section Provenance.
Variable slop : Z.
Variable S : list TimeSlice.t.

Lemma threadInv_same bt bt' :
  config bt' = config bt ->
  frameBuffer bt' = frameBuffer bt ->
  etEvents bt' = etEvents bt ->
  files (fileOut bt') = files (fileOut bt) ->
  threadInv slop S bt -> threadInv slop S bt'.
Proof. unfold threadInv. intros -> -> -> ->. auto. Qed.

Lemma threadInv_make index count timeout evtSize enableET enableFile
    fileDir filePrefix numExpectedStreams :
  threadInv slop S
    (start (make index count slop timeout evtSize enableET enableFile
                 fileDir filePrefix numExpectedStreams)).
Proof.
  unfold threadInv. cbn. split; [reflexivity|].
  split; [apply map_Forall_empty|].
  split; [constructor|apply map_Forall_empty].
Qed.

Lemma threadInv_addTimeSlice now slice bt :
  slice ∈ S -> threadInv slop S bt -> threadInv slop S (addTimeSlice now slice bt).
Proof.
  intros Hs (Hslop & Hbuf & Hev & Hfiles). unfold threadInv.
  split; [exact Hslop|]. split; [|split; [exact Hev|exact Hfiles]].
  rewrite frameBuffer_addTimeSlice. apply map_Forall_insert_2; [|exact Hbuf].
  cbn [AggregatedFrame.addSlice AggregatedFrame.slices].
  apply Forall_app. split; [|apply Forall_singleton; exact Hs].
  destruct (frameBuffer bt !! TimeSlice.timestamp slice) as [f|] eqn:Hf;
    cbv [default from_option id].
  - specialize (Hbuf _ _ Hf). cbn in Hbuf.
    destruct (AggregatedFrame.timestamp f =? 0); exact Hbuf.
  - cbn. constructor.
Qed.

Lemma threadInv_sendToET env B bt :
  builtFrom slop S B -> threadInv slop S bt ->
  threadInv slop S (sendToET env B bt).1.
Proof.
  intros HB Hinv. unfold sendToET.
  destruct (events_new_ok env); cbn [negb fst];
    [|eapply threadInv_same; [..|exact Hinv]; reflexivity].
  destruct (eventLength env <? Z.of_nat (length B)); cbn [fst];
    [eapply threadInv_same; [..|exact Hinv]; reflexivity|].
  destruct (events_put_ok env); cbn [negb fst];
    [|eapply threadInv_same; [..|exact Hinv]; reflexivity].
  destruct Hinv as (Hslop & Hbuf & Hev & Hfiles). unfold threadInv. cbn.
  split; [exact Hslop|]. split; [exact Hbuf|]. split; [|exact Hfiles].
  apply Forall_app. split; [exact Hev|apply Forall_singleton; exact HB].
Qed.

Lemma threadInv_openNextFile env bt :
  threadInv slop S bt -> threadInv slop S (openNextFile env bt).1.
Proof.
  intros (Hslop & Hbuf & Hev & Hfiles). unfold openNextFile, writeFileHeader.
  destruct (open_ok env);
    [|split; [exact Hslop|split; [exact Hbuf|split; [exact Hev|exact Hfiles]]]].
  destruct (header_ok env); unfold threadInv; cbn;
    (split; [exact Hslop|]); (split; [exact Hbuf|]); (split; [exact Hev|]).
  - rewrite lookup_insert_eq. cbn.
    apply map_Forall_insert_2; [apply fileOf_header|].
    apply map_Forall_insert_2; [apply fileOf_nil|exact Hfiles].
  - apply map_Forall_insert_2; [apply fileOf_nil|exact Hfiles].
Qed.

Lemma files_appendToOpenFile fo B :
  map_Forall (fun _ c => fileOf (builtFrom slop S) c) (files fo) ->
  builtFrom slop S B ->
  map_Forall (fun _ c => fileOf (builtFrom slop S) c)
             (files (appendToOpenFile fo B)).
Proof.
  intros Hfiles HB. unfold appendToOpenFile.
  destruct (outputFile fo) as [n|]; [|exact Hfiles]. cbn.
  apply map_Forall_insert_2; [|exact Hfiles].
  apply fileOf_append; [|exact HB].
  destruct (files fo !! n) as [c|] eqn:Hc; cbn.
  - exact (Hfiles _ _ Hc).
  - apply fileOf_nil.
Qed.

Lemma threadInv_writeToFile env B bt :
  builtFrom slop S B -> threadInv slop S bt ->
  threadInv slop S (writeToFile env B bt).1.
Proof.
  intros HB Hinv. unfold writeToFile.
  set (o := match outputFile (fileOut bt) with
            | Some _ => (bt, true)
            | None => openNextFile (first_open env) bt
            end).
  assert (Ho : threadInv slop S o.1).
  { subst o. destruct (outputFile (fileOut bt)); [exact Hinv|].
    now apply threadInv_openNextFile. }
  destruct o as [bt1 opened]. cbn [fst] in Ho.
  destruct opened; cbn [negb];
    [|eapply threadInv_same; [..|exact Ho]; reflexivity].
  destruct (write_ok env); cbn [negb];
    [|eapply threadInv_same; [..|exact Ho]; reflexivity].
  set (bt2 := addBytesWritten _ _).
  assert (H2 : threadInv slop S bt2).
  { destruct Ho as (Hslop & Hbuf & Hev & Hfiles). subst bt2.
    unfold threadInv. cbn.
    split; [exact Hslop|]. split; [exact Hbuf|]. split; [exact Hev|].
    now apply files_appendToOpenFile. }
  destruct (maxFileSize (config bt2) <=? currentFileSize (fileOut bt2));
    [|exact H2].
  pose proof (threadInv_openNextFile (rollover_open env) (bumpFileNumber bt2)
                ltac:(eapply threadInv_same; [..|exact H2]; reflexivity)) as H3.
  destruct (openNextFile (rollover_open env) (bumpFileNumber bt2)) as [bt3 ok].
  destruct ok; exact H3.
Qed.

Lemma threadInv_buildAndPublish env frame bt :
  Forall (fun s => s ∈ S) (AggregatedFrame.slices frame) ->
  threadInv slop S bt -> threadInv slop S (buildAndPublish env frame bt).
Proof.
  intros Hsl Hinv. unfold buildAndPublish.
  destruct (running_after_unlock env); cbn [negb]; [|exact Hinv].
  destruct (buildEVIO6Frame (timestampSlop (config bt)) frame [])
    as [[tsError ok] B] eqn:Hb.
  set (bt1 := if tsError then incTimestampErrors bt else bt).
  assert (H1 : threadInv slop S bt1).
  { subst bt1. destruct tsError; [|exact Hinv].
    eapply threadInv_same; [..|exact Hinv]; reflexivity. }
  destruct ok; [|exact H1].
  apply buildEVIO6Frame_true in Hb as [Hk ->].
  assert (HB : builtFrom slop S (recordOf (timestampSlop (config bt)) frame)).
  { rewrite (proj1 Hinv). exists frame. auto. }
  destruct (running_after_build env); cbn [negb]; [|exact H1].
  set (r := if useET (config bt1) && running_before_et env then _ else _).
  assert (Hr : threadInv slop S r.1.1).
  { subst r. destruct (useET (config bt1) && running_before_et env);
      [|exact H1].
    pose proof (threadInv_sendToET (et_env env) _ bt1 HB H1) as Hs.
    destruct (sendToET (et_env env) _ bt1) as [bt2 sent]. exact Hs. }
  destruct r as [[bt2 success] stopped]. cbn [fst] in Hr.
  destruct stopped; [exact Hr|].
  set (w := if useFileOutput (config bt2) && running_before_file env
            then _ else _).
  assert (Hw : threadInv slop S w.1).
  { subst w. destruct (useFileOutput (config bt2) && running_before_file env);
      [|exact Hr].
    pose proof (threadInv_writeToFile (file_env env) _ bt2 HB Hr) as Hs.
    destruct (writeToFile (file_env env) _ bt2) as [bt3 written]. exact Hs. }
  destruct w as [bt3 success']. cbn [fst] in Hw.
  destruct success'; [|exact Hw].
  eapply threadInv_same; [..|exact Hw]; reflexivity.
Qed.

Lemma threadInv_buildEntry env now ts bt :
  threadInv slop S bt -> threadInv slop S (buildEntry env now ts bt).
Proof.
  intros Hinv. unfold buildEntry.
  destruct (frameBuffer bt !! ts) as [frame|] eqn:Hf; [|exact Hinv].
  destruct (shouldBuild bt frame now); [|exact Hinv].
  apply threadInv_buildAndPublish.
  - destruct Hinv as (_ & Hbuf & _). exact (Hbuf _ _ Hf).
  - destruct Hinv as (Hslop & Hbuf & Hev & Hfiles). unfold threadInv. cbn.
    split; [exact Hslop|]. split; [now apply map_Forall_delete|].
    split; assumption.
Qed.

(** ** The invariant of the frame builder *)

Lemma initializeET_threads env fb :
  FrameBuilder.builderThreads (FrameBuilder.initializeET env fb).1
  = FrameBuilder.builderThreads fb
  /\ FrameBuilder.timestampSlop (FrameBuilder.initializeET env fb).1
     = FrameBuilder.timestampSlop fb.
Proof.
  unfold FrameBuilder.initializeET.
  destruct (FrameBuilder.enableET fb); [|now split].
  destruct (FrameBuilder.et_config_init_ok env); [|now split].
  destruct (FrameBuilder.et_open_ok env); [|now split].
  cbn [negb]. destruct (FrameBuilder.attachAll _ _ _ _); now split.
Qed.

Lemma builderInv_start env fb fb' ok :
  builderInv slop S fb -> FrameBuilder.start env fb = (fb', ok) ->
  builderInv slop S fb'.
Proof.
  unfold builderInv, FrameBuilder.start. intros (Hslop & Hinv).
  set (r := if FrameBuilder.enableET fb then FrameBuilder.initializeET env fb
            else (fb, true)).
  assert (Hr : FrameBuilder.builderThreads r.1 = FrameBuilder.builderThreads fb
               /\ FrameBuilder.timestampSlop r.1 = FrameBuilder.timestampSlop fb).
  { subst r. destruct (FrameBuilder.enableET fb); [|now split].
    apply initializeET_threads. }
  destruct r as [fb1 ok1]. cbn [fst] in Hr. destruct Hr as (Hr & Hs).
  destruct ok1; cbn [negb].
  - destruct (FrameBuilder.enableFileOutput fb1
              && negb (FrameBuilder.output_dir_ready env)).
    + intros H. injection H as <- _. rewrite Hr, Hs. now split.
    + intros H. injection H as <- _. cbn. split; [congruence|].
      apply Forall_app. split; [now rewrite Hr|].
      apply Forall_fmap, Forall_forall. intros i _.
      unfold FrameBuilder.spawn. cbn [compose]. rewrite Hs, Hslop.
      apply threadInv_make.
  - intros H. injection H as <- _. rewrite Hr, Hs. now split.
Qed.

Lemma builderInv_step fb e fb' :
  builderInv slop S fb ->
  (forall s, s ∈ submittedSlices [e] -> s ∈ S) ->
  FrameBuilder.step fb e = Some fb' -> builderInv slop S fb'.
Proof.
  unfold builderInv. intros (Hslop & Hinv) Hsub.
  destruct e as [now timestamp frameNumber dataId data | i env now ts];
    cbn [FrameBuilder.step].
  - unfold FrameBuilder.addTimeSlice.
    destruct (u64 (FrameBuilder.builderThreadCount fb) =? 0); [discriminate|].
    destruct (to_int _ <? 0); [discriminate|].
    destruct (FrameBuilder.builderThreads fb !! _) as [bt|] eqn:Hbt;
      [|discriminate].
    intros H. injection H as <-. cbn. split; [exact Hslop|].
    apply Forall_insert; [exact Hinv|].
    apply threadInv_addTimeSlice.
    + apply Hsub. left.
    + rewrite Forall_forall in Hinv. apply Hinv.
      eapply list_elem_of_lookup_2, Hbt.
  - destruct (FrameBuilder.builderThreads fb !! i) as [bt|] eqn:Hbt;
      [|discriminate].
    intros H. injection H as <-. cbn. split; [exact Hslop|].
    apply Forall_insert; [exact Hinv|].
    apply threadInv_buildEntry.
    rewrite Forall_forall in Hinv. apply Hinv.
    eapply list_elem_of_lookup_2, Hbt.
Qed.

Lemma builderInv_run evs fb fb' :
  builderInv slop S fb ->
  (forall s, s ∈ submittedSlices evs -> s ∈ S) ->
  FrameBuilder.run evs fb = Some fb' -> builderInv slop S fb'.
Proof.
  revert fb. induction evs as [|e evs IH]; intros fb Hinv Hsub;
    cbn [FrameBuilder.run].
  - intros H. now injection H as <-.
  - destruct (FrameBuilder.step fb e) as [fb1|] eqn:Hstep; [|discriminate].
    apply IH.
    + eapply builderInv_step; [exact Hinv| |exact Hstep].
      intros s Hs. apply Hsub. unfold submittedSlices in *.
      cbn [omap list_omap] in *. destruct e; [|inversion Hs].
      apply list_elem_of_singleton in Hs as ->. left.
    + intros s Hs. apply Hsub. now apply submittedSlices_cons.
Qed.
End Provenance.

Lemma make_threads etFile etHost etPort fileDir filePrefix numBuilderThreads
    eventSize tsSlop timeout numExpectedStreams fb :
  FrameBuilder.make etFile etHost etPort fileDir filePrefix numBuilderThreads
    eventSize tsSlop timeout numExpectedStreams = FrameBuilder.Constructed fb ->
  FrameBuilder.builderThreads fb = []
  /\ FrameBuilder.timestampSlop fb = tsSlop.
Proof.
  unfold FrameBuilder.make.
  destruct (_ && _); [discriminate|]. intros H. injection H as <-. now split.
Qed.

(** A failed attach leaves the attachments made before it in the vector
    and the handle set: with ET output and two threads, of which the
    second cannot attach, [start] fails and keeps attachment 7. *)
Example initializeET_failed_attach :
  match FrameBuilder.make "/tmp/et_sys"%string EmptyString 0 EmptyString
          EmptyString 2 (2 * 1024 * 1024) 100 1000 1 with
  | FrameBuilder.Constructed fb =>
      let r := FrameBuilder.start
                 (FrameBuilder.mkStartEnv true true
                    (fun i => match i with O => Some 7 | _ => None end) true)
                 fb in
      r.2 = false
      /\ FrameBuilder.etAttachments r.1 = [7]
      /\ FrameBuilder.etSystem r.1 = true
      /\ FrameBuilder.builderThreads r.1 = []
  | FrameBuilder.Throw_invalid_argument _ => False
  end.
Proof. vm_compute. repeat split. Qed.

(** C10: start a frame builder that was constructed successfully and let
    producers submit slices and builder threads handle entries in any
    order, with any answers from the sinks. Every slice submitted has
    stream status 0. In every thread, every event put to the ET system
    and every record in every file written is the record built, with the
    configured slop, from a frame made of submitted slices; entry [i] of
    its AIS is exactly the data id that was submitted for slice [i] of that
    frame, shifted left by 16; and every entry the AIS announces has its
    low 16 bits zero and is the shifted data id of a submitted slice.
    Every slice still in a frame buffer is a submitted slice with stream
    status 0, and the record built from its frame, with any slop, has
    as AIS entry [i] the data id of its slice [i] shifted left by 16, the
    low 16 bits of every entry being zero. *)
Theorem C10_ais_entries_are_shifted_data_ids
    etFile etHost etPort fileDir filePrefix numBuilderThreads eventSize
    tsSlop timeout numExpectedStreams env fb0 fb1 evs fb2 :
  FrameBuilder.make etFile etHost etPort fileDir filePrefix numBuilderThreads
    eventSize tsSlop timeout numExpectedStreams = FrameBuilder.Constructed fb0 ->
  FrameBuilder.start env fb0 = (fb1, true) ->
  FrameBuilder.run evs fb1 = Some fb2 ->
  Forall (fun s => TimeSlice.streamStatus s = 0) (submittedSlices evs)
  /\ forall i bt, FrameBuilder.builderThreads fb2 !! i = Some bt ->
    Forall (aisOfSubmitted tsSlop (submittedSlices evs)) (etEvents bt)
    /\ (forall n content, files (fileOut bt) !! n = Some content ->
          fileOf (aisOfSubmitted tsSlop (submittedSlices evs)) content)
    /\ (forall ts frame, frameBuffer bt !! ts = Some frame ->
          Forall (fun s => s ∈ submittedSlices evs
                           /\ TimeSlice.streamStatus s = 0)
                 (AggregatedFrame.slices frame)
          /\ forall slop, keptBanks frame <> [] ->
               aisIsDataIds (recordOf slop frame) (AggregatedFrame.slices frame)
               /\ Forall (fun e => Z.land e 0xFFFF = 0)
                         (aisEntries (recordOf slop frame))).
Proof.
  intros Hmake Hstart Hrun.
  pose proof (submitted_fromPipeline evs) as HS.
  split.
  { apply Forall_forall. intros s Hs. exact (proj1 (HS s Hs)). }
  intros i bt Hbt.
  assert (Hinv : builderInv tsSlop (submittedSlices evs) fb2).
  { eapply builderInv_run; [| |exact Hrun]; [|auto].
    eapply builderInv_start; [|exact Hstart].
    destruct (make_threads _ _ _ _ _ _ _ _ _ _ _ Hmake) as (Hnil & Hslop).
    split; [exact Hslop|]. rewrite Hnil. constructor. }
  destruct Hinv as (_ & Hinv). rewrite Forall_forall in Hinv.
  destruct (Hinv bt (list_elem_of_lookup_2 _ _ _ Hbt))
    as (_ & Hbuf & Hev & Hfiles).
  split; [|split].
  - eapply Forall_impl; [exact Hev|]. intros B. now apply builtFrom_ais.
  - intros n content Hc. eapply fileOf_impl; [|exact (Hfiles _ _ Hc)].
    intros B. now apply builtFrom_ais.
  - intros ts frame Hf. pose proof (Hbuf _ _ Hf) as Hsl. cbn in Hsl. split.
    + eapply Forall_impl; [exact Hsl|]. intros s Hs.
      split; [exact Hs|exact (proj1 (HS s Hs))].
    + intros slop Hk.
      assert (Hp : Forall sliceFromPipeline (AggregatedFrame.slices frame)).
      { eapply Forall_impl; [exact Hsl|]. exact HS. }
      destruct (pipeline_record_ais slop frame Hp Hk) as (Hids & Hlow).
      split; [exact Hids|].
      eapply Forall_impl; [exact Hlow|]. now intros e (He & _).
Qed.

Lemma C10_ais_entries_are_shifted_data_ids_witness :
  fbConstructed = FrameBuilder.Constructed fbMade /\
  FrameBuilder.start startEnvOk fbMade = (fbStarted, true) /\
  FrameBuilder.run runSingle fbStarted = Some fbAfterRunSingle /\
  forall i bt, FrameBuilder.builderThreads fbAfterRunSingle !! i = Some bt ->
    Forall (aisOfSubmitted 100 (submittedSlices runSingle)) (etEvents bt)
    /\ (forall n content, files (fileOut bt) !! n = Some content ->
          fileOf (aisOfSubmitted 100 (submittedSlices runSingle)) content).
Proof.
  split; [reflexivity|]. split; [reflexivity|]. split; [vm_compute; reflexivity|].
  intros i bt Hbt.
  destruct (C10_ais_entries_are_shifted_data_ids
              EmptyString EmptyString 0 "/data"%string "frames"%string
              2 (2 * 1024 * 1024) 100 1000 1 startEnvOk fbMade fbStarted
              runSingle fbAfterRunSingle)
    as (_ & H); [reflexivity | reflexivity | vm_compute; reflexivity|].
  destruct (H i bt Hbt) as (Hev & Hfiles & _). split; [exact Hev|exact Hfiles].
Defined.


(** In that run the record of the submitted slice is in file 0 of
    thread 0, after the file header, and its one AIS entry is 0x002A0000. *)
Example runSingle_file :
  (fun bt => files (fileOut bt) !! 0) <$>
    FrameBuilder.builderThreads fbAfterRunSingle !! 0%nat
  = Some (Some (fileHeaderBytes ++ recordOf 100 frameSingle))
  /\ aisEntries (recordOf 100 frameSingle) = [0x002A0000].
Proof. split; vm_compute; reflexivity. Qed.

(** ** Construction *)

Lemma empty_spec s : FrameBuilder.empty s = true <-> s = EmptyString.
Proof. unfold FrameBuilder.empty. apply bool_decide_eq_true. Qed.

(** C8, as the code has it: the constructor throws if and only if both
    the ET file name and the file output directory are empty; it does not
    look at the number of builder threads. The range 1..32 is checked by
    [main] on the [--fb-threads] option before the constructor is
    called. *)
Theorem C8_construction_fails_iff_no_output
    etFile etHost etPort fileDir filePrefix numBuilderThreads eventSize
    tsSlop timeout numExpectedStreams :
  (FrameBuilder.failed
     (FrameBuilder.make etFile etHost etPort fileDir filePrefix
        numBuilderThreads eventSize tsSlop timeout numExpectedStreams)
   <-> (etFile = EmptyString /\ fileDir = EmptyString))
  /\ (FrameBuilder.main_rejects_fbThreads numBuilderThreads = true
      <-> ~ (1 <= numBuilderThreads <= 32)).
Proof.
  split.
  - unfold FrameBuilder.make. cbn [FrameBuilder.enableET FrameBuilder.enableFileOutput].
    rewrite <- !empty_spec.
    destruct (FrameBuilder.empty etFile), (FrameBuilder.empty fileDir);
      cbn; intuition congruence.
  - unfold FrameBuilder.main_rejects_fbThreads.
    rewrite orb_true_iff, !Z.ltb_lt. lia.
Qed.

(** C8 as stated fails: with file output enabled the constructor accepts
    0 and 33 builder threads. *)
Lemma C8_thread_count_is_not_checked :
  let make0 := FrameBuilder.make EmptyString EmptyString 0 "/data"%string
                 "frames"%string 0 (2 * 1024 * 1024) 100 1000 1 in
  let make33 := FrameBuilder.make EmptyString EmptyString 0 "/data"%string
                  "frames"%string 33 (2 * 1024 * 1024) 100 1000 1 in
  ~ (FrameBuilder.failed make0
     <-> ((EmptyString = EmptyString /\ "/data"%string = EmptyString)
          \/ ~ (1 <= 0 <= 32)))
  /\ ~ (FrameBuilder.failed make33
        <-> ((EmptyString = EmptyString /\ "/data"%string = EmptyString)
             \/ ~ (1 <= 33 <= 32))).
Proof.
  cbv zeta. split; intros [_ H]; apply H; right; lia.
Qed.

(** ** Stopping *)

Section StopTiming.
Variable oversleep : nat -> Z.
Hypothesis oversleep_nonneg : forall k, 0 <= oversleep k.

Lemma sleep_for_clock ms tm :
  clock (sleep_for oversleep ms tm) = clock tm + ms + oversleep (sleeps tm).
Proof. reflexivity. Qed.

Lemma sleep_for_lower ms tm :
  clock tm + ms <= clock (sleep_for oversleep ms tm).
Proof. rewrite sleep_for_clock. pose proof (oversleep_nonneg (sleeps tm)). lia. Qed.

Lemma sleep_for_exact ms tm :
  (forall k, oversleep k = 0) ->
  clock (sleep_for oversleep ms tm) = clock tm + ms.
Proof. intros Hz. rewrite sleep_for_clock, Hz. lia. Qed.

Lemma signalStop_spec bt tm :
  let r := signalStop oversleep bt tm in
  r.1 = with_running bt false
  /\ clock tm + 250 <= clock r.2
  /\ ((forall k, oversleep k = 0) -> clock r.2 = clock tm + 250).
Proof.
  intros r. subst r. unfold signalStop. cbn [fst snd].
  change (Nat.iter 5 (sleep_for oversleep 50) tm)
    with (sleep_for oversleep 50 (sleep_for oversleep 50
           (sleep_for oversleep 50 (sleep_for oversleep 50
             (sleep_for oversleep 50 tm))))).
  split; [reflexivity|]. split.
  - rewrite !sleep_for_clock. cbn [sleeps sleep_for].
    pose proof (oversleep_nonneg (sleeps tm)).
    pose proof (oversleep_nonneg (S (sleeps tm))).
    pose proof (oversleep_nonneg (S (S (sleeps tm)))).
    pose proof (oversleep_nonneg (S (S (S (sleeps tm))))).
    pose proof (oversleep_nonneg (S (S (S (S (sleeps tm)))))).
    lia.
  - intros Hz. rewrite !sleep_for_exact by exact Hz. lia.
Qed.

(** The wait loop returns within the fuel it needs for eleven sleeps,
    once more than [max_wait_ms] have elapsed. *)
Lemma waitLoop_spec fuel start tm :
  clock tm - start <= 1000 ->
  1000 - (clock tm - start) < 100 * Z.of_nat fuel ->
  exists tm',
    waitLoop oversleep fuel start tm = Some tm'
    /\ 1000 < clock tm' - start
    /\ ((forall k, oversleep k = 0) ->
        (clock tm - start) mod 100 = 0 ->
        clock tm' - start = 1100).
Proof.
  revert tm. induction fuel as [|fuel IH]; intros tm Hle Hfuel; [lia|].
  cbn [waitLoop]. unfold max_wait_ms.
  pose proof (sleep_for_lower 100 tm) as Hlow.
  destruct (Z.ltb_spec 1000 (clock (sleep_for oversleep 100 tm) - start))
    as [Hdone | Hmore].
  - eexists. split; [reflexivity|]. split; [exact Hdone|].
    intros Hz Hmod. rewrite sleep_for_exact in * by exact Hz.
    apply Z.mod_divide in Hmod; [|lia]. destruct Hmod as [q Hq]. lia.
  - destruct (IH (sleep_for oversleep 100 tm)) as (tm' & Hrun & Hgt & Hex);
      [lia | lia |].
    exists tm'. split; [exact Hrun|]. split; [exact Hgt|].
    intros Hz Hmod. apply Hex; [exact Hz|].
    rewrite sleep_for_exact by exact Hz.
    replace (clock tm + 100 - start) with (clock tm - start + 1 * 100) by lia.
    now rewrite Z.mod_add by lia.
Qed.

Lemma waitForStop_spec bt tm :
  thread bt = Joinable ->
  exists tm',
    waitForStop oversleep 11 bt tm = Some (with_thread bt Detached, tm')
    /\ clock tm + 1001 <= clock tm'
    /\ ((forall k, oversleep k = 0) -> clock tm' = clock tm + 1100).
Proof.
  intros Hj. unfold waitForStop. rewrite Hj. cbn [joinable negb].
  destruct (waitLoop_spec 11 (clock tm) tm) as (tm' & Hrun & Hgt & Hex);
    [lia | lia |].
  exists tm'. rewrite Hrun. split; [reflexivity|]. split; [lia|].
  intros Hz. specialize (Hex Hz). rewrite Z.sub_diag in Hex.
  specialize (Hex eq_refl). lia.
Qed.

Lemma signalAll_spec bts tm :
  let r := FrameBuilder.signalAll oversleep bts tm in
  r.1 = map (fun bt => with_running bt false) bts
  /\ clock tm + 250 * Z.of_nat (length bts) <= clock r.2
  /\ ((forall k, oversleep k = 0) ->
      clock r.2 = clock tm + 250 * Z.of_nat (length bts)).
Proof.
  revert tm. induction bts as [|bt bts IH]; intros tm.
  - cbn. split; [reflexivity|]. split; [lia|]. intros _. lia.
  - cbn [FrameBuilder.signalAll].
    destruct (signalStop_spec bt tm) as (H1 & H2 & H3).
    destruct (signalStop oversleep bt tm) as [bt1 tm1].
    cbn [fst snd] in H1, H2, H3.
    specialize (IH tm1). destruct IH as (I1 & I2 & I3).
    destruct (FrameBuilder.signalAll oversleep bts tm1) as [bts1 tm2].
    cbn [fst snd] in *. subst bt1 bts1.
    split; [reflexivity|]. cbn [length]. rewrite Nat2Z.inj_succ.
    split; [lia|].
    intros Hz. rewrite I3, H3 by exact Hz. lia.
Qed.

Lemma waitAll_spec bts tm :
  Forall (fun bt => thread bt = Joinable) bts ->
  exists tm',
    FrameBuilder.waitAll oversleep 11 bts tm
    = Some (map (fun bt => with_thread bt Detached) bts, tm')
    /\ clock tm + 1001 * Z.of_nat (length bts) <= clock tm'
    /\ ((forall k, oversleep k = 0) ->
        clock tm' = clock tm + 1100 * Z.of_nat (length bts)).
Proof.
  intros Hj. revert tm. induction Hj as [|bt bts Hbt _ IH]; intros tm.
  - exists tm. cbn. split; [reflexivity|]. split; [lia|]. intros _. lia.
  - cbn [FrameBuilder.waitAll].
    destruct (waitForStop_spec bt tm Hbt) as (tm1 & -> & H2 & H3).
    destruct (IH tm1) as (tm2 & -> & I2 & I3).
    exists tm2. split; [reflexivity|]. cbn [length]. rewrite Nat2Z.inj_succ.
    split; [lia|]. intros Hz. rewrite I3, H3 by exact Hz. lia.
Qed.

Lemma stop_spec fb tm :
  Forall (fun bt => thread bt = Joinable) (FrameBuilder.builderThreads fb) ->
  let N := Z.of_nat (length (FrameBuilder.builderThreads fb)) in
  exists fb' tm',
    FrameBuilder.stop oversleep 11 fb tm = Some (fb', tm')
    /\ FrameBuilder.running fb' = false
    /\ FrameBuilder.builderThreads fb'
       = map (fun bt => with_thread (with_running bt false) Detached)
             (FrameBuilder.builderThreads fb)
    /\ clock tm + 1251 * N <= clock tm'
    /\ ((forall k, oversleep k = 0) -> clock tm' = clock tm + 1350 * N).
Proof.
  intros Hj N. unfold FrameBuilder.stop.
  cbn [FrameBuilder.with_running FrameBuilder.builderThreads].
  destruct (signalAll_spec (FrameBuilder.builderThreads fb) tm)
    as (S1 & S2 & S3).
  destruct (FrameBuilder.signalAll oversleep (FrameBuilder.builderThreads fb) tm)
    as [bts1 tm1]. cbn [fst snd] in S1, S2, S3. subst bts1.
  destruct (waitAll_spec
              (map (fun bt => with_running bt false)
                   (FrameBuilder.builderThreads fb)) tm1)
    as (tm2 & -> & W2 & W3).
  { apply Forall_fmap. eapply Forall_impl; [exact Hj|]. now intros bt Hbt. }
  rewrite length_map in W2, W3. fold N in S2, S3, W2, W3.
  eexists _, tm2. split; [reflexivity|].
  split; [destruct (_ && _); reflexivity|].
  split; [destruct (_ && _); cbn; now rewrite map_map|].
  split; [lia|]. intros Hz. rewrite W3, S3 by exact Hz. lia.
Qed.
End StopTiming.

(** C9, as the code has it: [stop] on a frame builder whose [N] builder
    threads were started always returns, each wait loop ending within
    eleven 100 ms sleeps; every thread is then detached, whether or not
    it had exited. No sleep being shorter than requested, [stop] takes at
    least [N × 1251] ms, and exactly [N × 1350] ms (250 ms of signalling
    and 1100 ms of waiting per thread) when every sleep lasts exactly as
    long as requested. *)
Theorem C9_stop_returns_after_more_than_a_second_per_thread
    (oversleep : nat -> Z) fb tm :
  (forall k, 0 <= oversleep k) ->
  Forall (fun bt => thread bt = Joinable) (FrameBuilder.builderThreads fb) ->
  let N := Z.of_nat (length (FrameBuilder.builderThreads fb)) in
  exists fb' tm',
    FrameBuilder.stop oversleep 11 fb tm = Some (fb', tm')
    /\ FrameBuilder.running fb' = false
    /\ length (FrameBuilder.builderThreads fb')
       = length (FrameBuilder.builderThreads fb)
    /\ Forall (fun bt => thread bt = Detached /\ running bt = false)
              (FrameBuilder.builderThreads fb')
    /\ 1251 * N <= clock tm' - clock tm
    /\ ((forall k, oversleep k = 0) -> clock tm' - clock tm = 1350 * N).
Proof.
  intros Hnn Hj N.
  destruct (stop_spec oversleep Hnn fb tm Hj) as (fb' & tm' & Hs & Hr & Hb & Hlo & Hex).
  exists fb', tm'. split; [exact Hs|]. split; [exact Hr|].
  split; [now rewrite Hb, length_map|].
  split; [rewrite Hb; apply Forall_fmap, Forall_forall; now intros bt _|].
  fold N in Hlo, Hex. split; [lia|]. intros Hz. specialize (Hex Hz). lia.
Qed.

Lemma C9_stop_returns_after_more_than_a_second_per_thread_witness :
  (forall k, 0 <= exactSleep k) /\
  Forall (fun bt => thread bt = Joinable) (FrameBuilder.builderThreads fbStarted) /\
  exists fb' tm',
    FrameBuilder.stop exactSleep 11 fbStarted (mkClockState 0 0) = Some (fb', tm')
    /\ FrameBuilder.running fb' = false
    /\ length (FrameBuilder.builderThreads fb') = 2%nat
    /\ Forall (fun bt => thread bt = Detached /\ running bt = false)
              (FrameBuilder.builderThreads fb')
    /\ 1251 * 2 <= clock tm' - 0
    /\ ((forall k, exactSleep k = 0) -> clock tm' - 0 = 1350 * 2).
Proof.
  assert (Hnn : forall k, 0 <= exactSleep k) by (intros k; unfold exactSleep; lia).
  assert (Hj : Forall (fun bt => thread bt = Joinable)
                      (FrameBuilder.builderThreads fbStarted))
    by (repeat (apply List.Forall_cons; [reflexivity|]); apply List.Forall_nil).
  split; [exact Hnn|]. split; [exact Hj|].
  exact (C9_stop_returns_after_more_than_a_second_per_thread
           exactSleep fbStarted (mkClockState 0 0) Hnn Hj).
Defined.

(** C9 as stated fails: with two started builder threads and sleeps that
    last exactly as long as requested, [stop] returns when the clock has
    advanced by 2700 ms, more than 2 × 1 s. *)
Lemma C9_stop_exceeds_one_second_per_thread :
  length (FrameBuilder.builderThreads fbStarted) = 2%nat /\
  snd <$> FrameBuilder.stop exactSleep 11 fbStarted (mkClockState 0 0)
    = Some (mkClockState 2700 32) /\
  ~ (2700 - 0 <= 2 * 1000).
Proof. split; [reflexivity|]. split; [vm_compute; reflexivity|lia]. Qed.

(** * Further properties *)

(** * Further properties *)

(** ** The encoder: layout of the record *)

Lemma padBank_spec rocBank :
  exists pad : nat,
    (pad <= 3)%nat
    /\ padBank rocBank = rocBank ++ repeat Byte.x00 pad
    /\ Z.of_nat (length rocBank + pad) mod 4 = 0
    /\ (Z.of_nat (length rocBank) mod 4 = 0 -> pad = 0%nat).
Proof.
  exists (Z.to_nat ((4 - Z.of_nat (length rocBank) mod 4) mod 4)).
  pose proof (Z.mod_pos_bound (Z.of_nat (length rocBank)) 4 ltac:(lia)) as Hr.
  pose proof (Z.mod_pos_bound (4 - Z.of_nat (length rocBank) mod 4) 4 ltac:(lia)) as Hp.
  split; [lia|]. split; [reflexivity|]. split.
  - rewrite Nat2Z.inj_add, Z2Nat.id by lia. Z.div_mod_to_equations. lia.
  - intros H0. rewrite H0. reflexivity.
Qed.

(** X1. The padding loop, on any buffer: it appends at most three zero
    bytes, none if the buffer is already a whole number of words, and
    leaves a whole number of words. Three rounds of the loop are always
    enough. *)
Theorem padLoop_aligns output :
  exists pad : nat,
    (pad <= 3)%nat
    /\ padLoop 3 output = output ++ repeat Byte.x00 pad
    /\ Z.of_nat (length (padLoop 3 output)) mod 4 = 0
    /\ (Z.of_nat (length output) mod 4 = 0 -> pad = 0%nat)
    /\ forall fuel, (3 <= fuel)%nat -> padLoop fuel output = padLoop 3 output.
Proof.
  destruct (padBank_spec output) as (pad & Hle & Hpad & Hal & Hz).
  pose proof (padLoop_padBank [] output eq_refl) as H. cbn [app] in H.
  assert (Haligned : Z.of_nat (length (padLoop 3 output)) mod 4 = 0).
  { rewrite H, Hpad, length_app, repeat_length. exact Hal. }
  exists pad. split; [exact Hle|]. split; [now rewrite H|].
  split; [exact Haligned|]. split; [exact Hz|].
  intros fuel Hfuel.
  replace fuel with (3 + (fuel - 3))%nat by lia.
  generalize (fuel - 3)%nat as extra. intros extra.
  (* once aligned, further rounds return at once *)
  assert (Hstop : forall k out, Z.of_nat (length out) mod 4 = 0 ->
                                padLoop k out = out).
  { intros [|k] out Ho; [reflexivity|]. cbn [padLoop]. now rewrite Ho. }
  assert (Hsplit : forall a b out, padLoop (a + b) out = padLoop b (padLoop a out)).
  { induction a as [|a IH]; intros b out; [reflexivity|].
    cbn [Nat.add padLoop].
    destruct (Z.of_nat (length out) mod 4 =? 0) eqn:E.
    - symmetry. apply Hstop. now apply Z.eqb_eq.
    - apply IH. }
  rewrite Hsplit. now apply Hstop.
Qed.

(** X2. Layout of a built record: [23 + n] metadata words for the [n]
    slices of the frame, then the ROC banks of the retained slices, each
    the slice's payload from byte 32 on, unmodified, each followed by
    its zero padding of at most three bytes, in the order of the
    slices. *)
Theorem record_layout slop frame :
  keptBanks frame <> [] ->
  let B := recordOf slop frame in
  let n := length (AggregatedFrame.slices frame) in
  take (4 * (23 + n)) B = host_store_words (map bswap32 (eventWordsOf slop frame))
  /\ length (take (4 * (23 + n)) B) = (4 * (23 + n))%nat
  /\ drop (4 * (23 + n)) B
     = concat (map (fun s => padBank (drop 32 (TimeSlice.payload s)))
                   (keptSlices frame))
  /\ Forall (fun s => (32 <= length (TimeSlice.payload s))%nat)
            (keptSlices frame).
Proof.
  intros Hk B n.
  assert (Hlen : length (host_store_words (map bswap32 (eventWordsOf slop frame)))
                 = (4 * (23 + n))%nat).
  { rewrite host_store_words_length, length_map, eventWordsOf_length. reflexivity. }
  subst B. rewrite recordOf_eq by exact Hk.
  split; [|split; [|split]].
  - rewrite take_app_length' by (symmetry; exact Hlen). reflexivity.
  - rewrite take_app_length' by (symmetry; exact Hlen). exact Hlen.
  - rewrite drop_app_length' by (symmetry; exact Hlen). unfold keptBanks.
    now rewrite map_map.
  - unfold keptSlices. apply Forall_forall. intros s Hs.
    apply list_elem_of_In, filter_In in Hs as [_ Hv].
    unfold sliceValid, checkSlice in Hv.
    destruct (Z.ltb_spec (Z.of_nat (length (TimeSlice.payload s))) 32);
      [discriminate|lia].
Qed.

Lemma record_layout_witness :
  keptBanks frameDropped <> [] /\
  let B := recordOf 100 frameDropped in
  take (4 * (23 + 2)) B
    = host_store_words (map bswap32 (eventWordsOf 100 frameDropped))
  /\ length (take (4 * (23 + 2)) B) = (4 * (23 + 2))%nat
  /\ drop (4 * (23 + 2)) B
     = concat (map (fun s => padBank (drop 32 (TimeSlice.payload s)))
                   (keptSlices frameDropped))
  /\ Forall (fun s => (32 <= length (TimeSlice.payload s))%nat)
            (keptSlices frameDropped).
Proof.
  split; [vm_compute; discriminate|].
  apply (record_layout 100 frameDropped). vm_compute. discriminate.
Defined.

(** The outcome of [buildEVIO6Frame] by cases. *)
Lemma buildEVIO6Frame_cases slop frame output :
  let r := buildEVIO6Frame slop frame output in
  (r.1.2 = true <->
     AggregatedFrame.slices frame <> []
     /\ forallb sliceValid (AggregatedFrame.slices frame) = true
     /\ checkTimestampConsistency slop frame = false)
  /\ (keptBanks frame = [] -> r.1.2 = false /\ r.2 = output)
  /\ (keptBanks frame <> [] -> r.2 = recordOf slop frame)
  /\ r.1.1 = checkTimestampConsistency slop frame.
Proof.
  intros r. subst r.
  destruct (decide (keptBanks frame = [])) as [Hk|Hk].
  - rewrite buildEVIO6Frame_no_banks by exact Hk. cbn [fst snd].
    split; [|split; [auto|split; [contradiction|reflexivity]]].
    split; [discriminate|]. intros (Hne & Hv & _).
    destruct (keptBanks_all_nonempty frame Hv Hne Hk).
  - rewrite buildEVIO6Frame_built by exact Hk. cbn [fst snd].
    split; [|split; [contradiction|split; [|reflexivity]]].
    + rewrite negb_true_iff, orb_false_iff. split.
      * intros [Hts Hex]. split; [|split; [|exact Hts]].
        -- intros Hnil. apply Hk. unfold keptBanks, keptSlices.
           now rewrite Hnil.
        -- apply forallb_forall. intros s Hs.
           destruct (sliceValid s) eqn:E; [reflexivity|].
           assert (existsb (fun s => negb (sliceValid s))
                           (AggregatedFrame.slices frame) = true).
           { apply existsb_exists. exists s. now rewrite E. }
           congruence.
      * intros (_ & Hv & Hts). split; [exact Hts|]. now apply no_invalid_slice.
    + intros _. now rewrite recordOf_eq.
Qed.

(** X3. What [buildEVIO6Frame] returns. It returns true exactly when the
    frame has slices, every slice passes the checks of step 1 and the
    timestamps are consistent. When no slice is retained, which includes
    the empty frame, it returns false and leaves [output] as it was.
    Otherwise the record it leaves does not depend on what [output]
    held. The timestamp-error counter moves exactly when the timestamp
    check fails. *)
Theorem buildEVIO6Frame_result slop frame output :
  let r := buildEVIO6Frame slop frame output in
  (r.1.2 = true <->
     AggregatedFrame.slices frame <> []
     /\ forallb sliceValid (AggregatedFrame.slices frame) = true
     /\ checkTimestampConsistency slop frame = false)
  /\ (keptBanks frame = [] -> r.1.2 = false /\ r.2 = output)
  /\ (keptBanks frame <> [] -> r.2 = recordOf slop frame)
  /\ r.1.1 = checkTimestampConsistency slop frame.
Proof. exact (buildEVIO6Frame_cases slop frame output). Qed.

(** X4. Fixed words of the record header: word 2 is the header length 14,
    word 4 is 0, word 5 is 0x80004206 (version 6, last-block flag, record
    type, big-endian flag) and word 7 is the magic number. *)
Theorem record_magic_and_version slop frame :
  keptBanks frame <> [] ->
  let B := recordOf slop frame in
  read_be_u32 B 2 = 14 /\ read_be_u32 B 4 = 0 /\
  read_be_u32 B 5 = 0x80004206 /\ read_be_u32 B 7 = 0xC0DA0100.
Proof.
  intros Hk B. pose proof (record_header_words slop frame Hk) as H.
  cbv zeta in H. subst B. change 0x80004206 with bitInfo. tauto.
Qed.

Lemma record_magic_and_version_witness :
  keptBanks frameTwo <> [] /\
  let B := recordOf 100 frameTwo in
  read_be_u32 B 2 = 14 /\ read_be_u32 B 4 = 0 /\
  read_be_u32 B 5 = 0x80004206 /\ read_be_u32 B 7 = 0xC0DA0100.
Proof.
  split; [vm_compute; discriminate|].
  apply (record_magic_and_version 100 frameTwo). vm_compute. discriminate.
Defined.

(** ** The encoder: timestamp check *)

Lemma min_max_fold slices mn mx :
  let f := fun '(mn, mx) slice =>
             (Z.min mn (TimeSlice.timestamp slice),
              Z.max mx (TimeSlice.timestamp slice)) in
  let r := fold_left f slices (mn, mx) in
  r.1 <= mn /\ mx <= r.2
  /\ Forall (fun s => r.1 <= TimeSlice.timestamp s <= r.2) slices
  /\ (r.1 = mn \/ Exists (fun s => TimeSlice.timestamp s = r.1) slices)
  /\ (r.2 = mx \/ Exists (fun s => TimeSlice.timestamp s = r.2) slices).
Proof.
  cbv zeta. revert mn mx. induction slices as [|s ss IH]; intros mn mx.
  - cbn. repeat split; try lia; auto.
  - cbn [fold_left].
    destruct (IH (Z.min mn (TimeSlice.timestamp s))
                 (Z.max mx (TimeSlice.timestamp s)))
      as (H1 & H2 & H3 & H4 & H5).
    set (r := fold_left _ ss _) in *.
    split; [lia|]. split; [lia|]. split; [|split].
    + constructor; [lia|exact H3].
    + destruct H4 as [H4|H4]; [|right; now apply Exists_cons_tl].
      destruct (Z.min_spec mn (TimeSlice.timestamp s)) as [[_ E]|[_ E]];
        [left; lia | right; apply Exists_cons_hd; lia].
    + destruct H5 as [H5|H5]; [|right; now apply Exists_cons_tl].
      destruct (Z.max_spec mx (TimeSlice.timestamp s)) as [[_ E]|[_ E]];
        [right; apply Exists_cons_hd; lia | left; lia].
Qed.

(** X5. The timestamp check flags a frame exactly when two of its slices
    have timestamps further apart than the slop, the slop being read as
    an unsigned 64-bit number. *)
Theorem checkTimestampConsistency_spec slop frame :
  Forall (fun s => is_u64 (TimeSlice.timestamp s)) (AggregatedFrame.slices frame) ->
  (checkTimestampConsistency slop frame = true <->
   exists a b,
     a ∈ AggregatedFrame.slices frame /\ b ∈ AggregatedFrame.slices frame
     /\ u64 slop < TimeSlice.timestamp a - TimeSlice.timestamp b).
Proof.
  intros Hwt. unfold checkTimestampConsistency.
  destruct (AggregatedFrame.slices frame) as [|s0 ss] eqn:E.
  - split; [discriminate|]. intros (a & _ & Ha & _). inversion Ha.
  - rewrite <- E in *.
    pose proof (min_max_fold (AggregatedFrame.slices frame)
                  (TimeSlice.timestamp s0) (TimeSlice.timestamp s0)) as H.
    cbv zeta in H.
    destruct (fold_left _ (AggregatedFrame.slices frame) _) as [tsMin tsMax].
    cbn [fst snd] in H. destruct H as (H1 & H2 & H3 & H4 & H5).
    assert (Hs0 : s0 ∈ AggregatedFrame.slices frame) by (rewrite E; left).
    assert (Hmin : exists b, b ∈ AggregatedFrame.slices frame
                             /\ TimeSlice.timestamp b = tsMin).
    { destruct H4 as [H4|H4]; [exists s0; split; [exact Hs0|now symmetry]|].
      apply Exists_exists in H4 as (b & Hb & Hb'). exists b. split; [|exact Hb'].
      first [exact Hb | exact Ha | now apply list_elem_of_In]. }
    assert (Hmax : exists a, a ∈ AggregatedFrame.slices frame
                             /\ TimeSlice.timestamp a = tsMax).
    { destruct H5 as [H5|H5]; [exists s0; split; [exact Hs0|now symmetry]|].
      apply Exists_exists in H5 as (a & Ha & Ha'). exists a. split; [|exact Ha'].
      first [exact Hb | exact Ha | now apply list_elem_of_In]. }
    destruct Hmin as (b & Hb & Eb), Hmax as (a & Ha & Ea).
    rewrite Forall_forall in Hwt, H3.
    pose proof (Hwt a Ha) as Wa. pose proof (Hwt b Hb) as Wb.
    unfold is_u64 in *.
    unfold u64 at 2. rewrite (Z.mod_small (tsMax - tsMin)) by lia.
    rewrite Z.ltb_lt. split.
    + intros Hlt. exists a, b. split; [exact Ha|]. split; [exact Hb|]. lia.
    + intros (a' & b' & Ha' & Hb' & Hlt).
      pose proof (H3 a' Ha'). pose proof (H3 b' Hb'). lia.
Qed.

Lemma checkTimestampConsistency_spec_witness :
  Forall (fun s => is_u64 (TimeSlice.timestamp s)) (AggregatedFrame.slices frameSlop) /\
  (checkTimestampConsistency 10 frameSlop = true <->
   exists a b,
     a ∈ AggregatedFrame.slices frameSlop /\ b ∈ AggregatedFrame.slices frameSlop
     /\ u64 10 < TimeSlice.timestamp a - TimeSlice.timestamp b).
Proof.
  assert (Hwt : Forall (fun s => is_u64 (TimeSlice.timestamp s))
                       (AggregatedFrame.slices frameSlop)).
  { repeat (apply List.Forall_cons; [unfold is_u64; cbn; lia|]).
    apply List.Forall_nil. }
  split; [exact Hwt|]. exact (checkTimestampConsistency_spec 10 frameSlop Hwt).
Defined.

(** Slices that all carry one timestamp are never flagged. *)
Lemma checkTimestampConsistency_same slop frame k :
  Forall (fun s => TimeSlice.timestamp s = k) (AggregatedFrame.slices frame) ->
  checkTimestampConsistency slop frame = false.
Proof.
  intros Hk. unfold checkTimestampConsistency.
  destruct (AggregatedFrame.slices frame) as [|s0 ss] eqn:E; [reflexivity|].
  rewrite <- E in *.
  pose proof (min_max_fold (AggregatedFrame.slices frame)
                (TimeSlice.timestamp s0) (TimeSlice.timestamp s0)) as H.
  cbv zeta in H.
  destruct (fold_left _ (AggregatedFrame.slices frame) _) as [tsMin tsMax].
  cbn [fst snd] in H. destruct H as (H1 & H2 & H3 & H4 & H5).
  rewrite Forall_forall in Hk.
  assert (Hs0 : TimeSlice.timestamp s0 = k) by (apply Hk; rewrite E; left).
  assert (tsMin = k).
  { destruct H4 as [H4|H4]; [lia|].
    apply Exists_exists in H4 as (b & Hb & Hb').
    rewrite <- Hb'. apply Hk. first [exact Hb | exact Ha | now apply list_elem_of_In]. }
  assert (tsMax = k).
  { destruct H5 as [H5|H5]; [lia|].
    apply Exists_exists in H5 as (b & Hb & Hb').
    rewrite <- Hb'. apply Hk. first [exact Hb | exact Ha | now apply list_elem_of_In]. }
  subst tsMin tsMax. rewrite Z.sub_diag. apply Z.ltb_ge.
  unfold u64. change (0 mod 2 ^ 64) with 0. apply Z.mod_pos_bound. lia.
Qed.

(** ** The encoder: bank headers, AIS and time-slice segment *)

Lemma lor_low_field K v k :
  0 <= k -> Z.land K (Z.ones k) = 0 -> 0 <= v < 2 ^ k -> Z.lor K v = K + v.
Proof.
  intros Hk HK Hv.
  assert (Hland : Z.land K v = 0).
  { rewrite <- (Z.mod_small v (2 ^ k)) by lia.
    rewrite <- Z.land_ones by lia.
    rewrite (Z.land_comm v), Z.land_assoc, HK. apply Z.land_0_l. }
  rewrite <- Z.lxor_lor by exact Hland.
  symmetry. apply Z.add_nocarry_lxor. exact Hland.
Qed.

(** X6. The status byte of every built record, whether or not slices
    were dropped: bit 7 is the outcome of the timestamp check alone, the
    low 7 bits are the number of slices of the frame modulo 128, and the
    aggregated-bank header (word 15) and the stream-info header (word 17)
    are 0xFF6010SS and 0xFF3120SS with that same byte. *)
Theorem status_byte_and_bank_headers slop frame :
  keptBanks frame <> [] ->
  let B := recordOf slop frame in
  let n := Z.of_nat (length (AggregatedFrame.slices frame)) in
  Z.shiftr (SS B) 7 = (if checkTimestampConsistency slop frame then 1 else 0)
  /\ Z.land (SS B) 0x7F = n mod 128
  /\ 0 <= SS B < 256
  /\ read_be_u32 B 15 = 0xFF601000 + SS B
  /\ read_be_u32 B 17 = 0xFF312000 + SS B.
Proof.
  intros Hk B n. subst B.
  pose proof (statusOf_fields slop frame) as (Hr & Hlow & Hhigh).
  cbv zeta in Hr, Hlow, Hhigh.
  rewrite SS_statusOf by exact Hk.
  split; [exact Hhigh|]. split; [exact Hlow|]. split; [exact Hr|].
  fixed_word slop frame Hk 15%nat. fixed_word slop frame Hk 17%nat.
  rewrite !u32_u32.
  change (Z.lor (Z.shiftl 65376 16) (Z.shiftl 16 8)) with 0xFF601000.
  change (Z.lor (Z.shiftl 65329 16) (Z.shiftl 32 8)) with 0xFF312000.
  rewrite !(lor_low_field _ (statusOf slop frame) 8) by (try reflexivity; lia).
  split; apply u32_small; unfold is_u32; lia.
Qed.

Lemma status_byte_and_bank_headers_witness :
  keptBanks frameSlop <> [] /\
  let B := recordOf 10 frameSlop in
  Z.shiftr (SS B) 7 = (if checkTimestampConsistency 10 frameSlop then 1 else 0)
  /\ Z.land (SS B) 0x7F = 2 mod 128
  /\ 0 <= SS B < 256
  /\ read_be_u32 B 15 = 0xFF601000 + SS B
  /\ read_be_u32 B 17 = 0xFF312000 + SS B.
Proof.
  split; [vm_compute; discriminate|].
  apply (status_byte_and_bank_headers 10 frameSlop). vm_compute. discriminate.
Defined.

Lemma keptBanks_slices_nonempty frame :
  keptBanks frame <> [] -> AggregatedFrame.slices frame <> [].
Proof.
  intros Hk Hnil. apply Hk. unfold keptBanks, keptSlices. now rewrite Hnil.
Qed.

(** X7. The aggregation-info segment of every built record lists every
    slice of the frame, dropped or not: its length field is the number of
    slices modulo 2^16, entry [i] is made of the data id and stream
    status of slice [i], and the number of ROC banks that follow is the
    number of retained slices, which may be smaller. *)
Theorem ais_lists_every_slice slop frame :
  keptBanks frame <> [] ->
  let B := recordOf slop frame in
  let n := Z.of_nat (length (AggregatedFrame.slices frame)) in
  aisCount B = n mod 2 ^ 16
  /\ (n < 2 ^ 16 -> read_be_u32 B 22 = 0x42010000 + n)
  /\ (forall i s, AggregatedFrame.slices frame !! i = Some s ->
        TimeSlice.well_typed s ->
        read_be_u32 B (23 + i)
        = Z.lor (Z.shiftl (TimeSlice.dataId s) 16) (TimeSlice.streamStatus s))
  /\ length (keptBanks frame) = length (keptSlices frame)
  /\ (length (keptSlices frame) <= length (AggregatedFrame.slices frame))%nat.
Proof.
  intros Hk B n. subst B.
  split; [now apply aisCount_eq|]. split; [|split; [|split]].
  - intros Hn. fixed_word slop frame Hk 22%nat. rewrite u32_u32. fold n.
    rewrite to_int_small by lia.
    change (Z.lor (Z.shiftl 66 24) (Z.shiftl 1 16)) with 0x42010000.
    rewrite (lor_low_field _ n 16) by (try reflexivity; lia).
    apply u32_small. unfold is_u32. lia.
  - intros i s Hs Hwt. rewrite (ais_word slop frame i s Hk Hs).
    now apply aisEntry_well_typed.
  - unfold keptBanks. apply length_map.
  - unfold keptSlices. apply filter_length_le.
Qed.

Lemma ais_lists_every_slice_witness :
  keptBanks frameDropped <> [] /\
  let B := recordOf 100 frameDropped in
  aisCount B = 2 mod 2 ^ 16
  /\ (2 < 2 ^ 16 -> read_be_u32 B 22 = 0x42010000 + 2)
  /\ (forall i s, AggregatedFrame.slices frameDropped !! i = Some s ->
        TimeSlice.well_typed s ->
        read_be_u32 B (23 + i)
        = Z.lor (Z.shiftl (TimeSlice.dataId s) 16) (TimeSlice.streamStatus s))
  /\ length (keptBanks frameDropped) = 1%nat
  /\ (1 <= 2)%nat.
Proof.
  split; [vm_compute; discriminate|].
  apply (ais_lists_every_slice 100 frameDropped). vm_compute. discriminate.
Defined.

(** X8. The time-slice segment of every built record: word 18 is the
    header 0x32010003, word 19 the frame number of the frame, and words
    20 and 21 the low and high halves of the sum of the timestamps of
    all slices of the frame, dropped or not, taken modulo 2^64 and
    divided by their number. *)
Theorem time_slice_segment slop frame :
  keptBanks frame <> [] ->
  let B := recordOf slop frame in
  let n := Z.of_nat (length (AggregatedFrame.slices frame)) in
  let avg := u64 (sumTimestamps (AggregatedFrame.slices frame)) / n in
  read_be_u32 B 18 = 0x32010003
  /\ read_be_u32 B 19 = u32 (AggregatedFrame.frameNumber frame)
  /\ read_be_u32 B 20 = avg mod 2 ^ 32
  /\ read_be_u32 B 21 = avg / 2 ^ 32
  /\ embeddedTimestamp B = avg.
Proof.
  intros Hk B n avg. subst B.
  pose proof (keptBanks_slices_nonempty frame Hk) as Hne.
  pose proof (average_is_u64 frame Hne) as Ha.
  pose proof (calculateAverageTimestamp_eq frame Hne) as Havg.
  fold n avg in Havg.
  rewrite embeddedTimestamp_eq by assumption.
  fixed_word slop frame Hk 18%nat. fixed_word slop frame Hk 19%nat.
  fixed_word slop frame Hk 20%nat. fixed_word slop frame Hk 21%nat.
  rewrite !u32_u32, Havg in *. unfold is_u64 in Ha.
  change 0xFFFFFFFF with (Z.ones 32). rewrite !Z.land_ones by lia.
  rewrite Z.shiftr_div_pow2 by lia.
  split; [reflexivity|]. split; [reflexivity|].
  split; [unfold u32; now rewrite Z.mod_mod by lia|].
  split; [|reflexivity].
  unfold u32. rewrite Z.mod_mod by lia. apply Z.mod_small.
  split; [apply Z.div_pos; lia|]. apply Z.div_lt_upper_bound; lia.
Qed.

Lemma time_slice_segment_witness :
  keptBanks frameMixed <> [] /\
  let B := recordOf 1000 frameMixed in
  read_be_u32 B 18 = 0x32010003
  /\ read_be_u32 B 19 = u32 7
  /\ read_be_u32 B 20 = (u64 300 / 2) mod 2 ^ 32
  /\ read_be_u32 B 21 = (u64 300 / 2) / 2 ^ 32
  /\ embeddedTimestamp B = u64 300 / 2.
Proof.
  split; [vm_compute; discriminate|].
  apply (time_slice_segment 1000 frameMixed). vm_compute. discriminate.
Defined.

(** ** The frame buffer *)

Lemma addTimeSlice_other now slice bt k :
  k <> TimeSlice.timestamp slice ->
  frameBuffer (addTimeSlice now slice bt) !! k = frameBuffer bt !! k.
Proof.
  intros Hne. rewrite frameBuffer_addTimeSlice. apply lookup_insert_ne. congruence.
Qed.

Lemma slicesAt_snoc k adds a :
  slicesAt k (adds ++ [a])
  = slicesAt k adds ++ (if TimeSlice.timestamp a.2 =? k then [a] else []).
Proof. unfold slicesAt. rewrite List.filter_app. reflexivity. Qed.

Lemma addAll_snoc adds a bt :
  addAll (adds ++ [a]) bt = addTimeSlice a.1 a.2 (addAll adds bt).
Proof. unfold addAll. now rewrite fold_left_app. Qed.

Lemma groupedAt_step k adds a bt :
  groupedAt k adds (frameBuffer bt !! k) ->
  groupedAt k (adds ++ [a]) (frameBuffer (addTimeSlice a.1 a.2 bt) !! k).
Proof.
  intros Hg. unfold groupedAt in *. cbv zeta in *. rewrite slicesAt_snoc.
  destruct (Z.eqb_spec (TimeSlice.timestamp a.2) k) as [Heq|Hne].
  - subst k. destruct (frameBuffer bt !! TimeSlice.timestamp a.2) as [f|] eqn:Hf.
    + destruct Hg as (Hsl & Hts & Hfirst & Hlast).
      destruct (Z.eq_dec (TimeSlice.timestamp a.2) 0) as [Hz|Hnz].
      * rewrite Hz in *. rewrite (addTimeSlice_later_zero _ _ _ f Hz Hf Hts).
        cbn [AggregatedFrame.slices AggregatedFrame.timestamp
             AggregatedFrame.arrivalTime AggregatedFrame.frameNumber].
        rewrite map_app, Hsl. split; [reflexivity|]. split; [reflexivity|].
        split; [intros H; now destruct H|]. intros _.
        now rewrite last_snoc.
      * rewrite (addTimeSlice_later_nonzero _ _ _ f Hf) by congruence.
        cbn [AggregatedFrame.addSlice AggregatedFrame.slices
             AggregatedFrame.timestamp AggregatedFrame.arrivalTime
             AggregatedFrame.frameNumber].
        rewrite map_app, Hsl. split; [reflexivity|]. split; [exact Hts|].
        split; [|intros H; now destruct Hnz]. intros _.
        specialize (Hfirst Hnz). rewrite head_app.
        destruct (head (slicesAt (TimeSlice.timestamp a.2) adds)) as [h|];
          [exact Hfirst|discriminate].
    + rewrite (addTimeSlice_new _ _ _ Hf), Hg.
      cbn [AggregatedFrame.slices AggregatedFrame.timestamp
           AggregatedFrame.arrivalTime AggregatedFrame.frameNumber app map].
      repeat split; reflexivity.
  - rewrite addTimeSlice_other by congruence. rewrite app_nil_r. exact Hg.
Qed.

(** X9. A thread whose buffer is empty receives the timed submissions
    [adds]. Then for every timestamp [k]: there is an entry under [k]
    exactly when some submission carries [k]; the entry holds the slices
    of those submissions, in the order in which they were submitted; and
    for [k] other than 0 its arrival time and frame number are those of
    the first of them. For [k = 0] they are those of the last. *)
Theorem addTimeSlice_groups_by_timestamp adds bt k :
  frameBuffer bt = ∅ ->
  groupedAt k adds (frameBuffer (addAll adds bt) !! k).
Proof.
  intros Hempty. induction adds as [|a adds IH] using rev_ind.
  - unfold groupedAt, addAll. cbn [fold_left]. rewrite Hempty, lookup_empty.
    reflexivity.
  - rewrite addAll_snoc. now apply groupedAt_step.
Qed.

Lemma addTimeSlice_groups_by_timestamp_witness :
  frameBuffer btStarted = ∅ /\
  groupedAt 0x1000 [(10, sliceGood); (20, TimeSlice.make 5 1 1 codaPrefix);
                    (30, sliceShort)]
    (frameBuffer (addAll [(10, sliceGood); (20, TimeSlice.make 5 1 1 codaPrefix);
                          (30, sliceShort)] btStarted) !! 0x1000).
Proof.
  split; [reflexivity|].
  apply (addTimeSlice_groups_by_timestamp
           [(10, sliceGood); (20, TimeSlice.make 5 1 1 codaPrefix);
            (30, sliceShort)] btStarted 0x1000).
  reflexivity.
Defined.

(** In that example the entry holds the two slices with timestamp
    0x1000 and the arrival time of the first. *)
Example addAll_example :
  frameInfo <$> frameBuffer (addAll [(10, sliceGood);
                                     (20, TimeSlice.make 5 1 1 codaPrefix);
                                     (30, sliceShort)] btStarted) !! 0x1000
  = Some (7, 10, 2%nat).
Proof. vm_compute. reflexivity. Qed.

(** *** Invariant of the buffer *)

Lemma bufferInv_addTimeSlice now slice bt :
  bufferInv (frameBuffer bt) -> bufferInv (frameBuffer (addTimeSlice now slice bt)).
Proof.
  intros Hinv. rewrite frameBuffer_addTimeSlice.
  apply map_Forall_insert_2; [|exact Hinv].
  cbn [AggregatedFrame.addSlice AggregatedFrame.slices AggregatedFrame.timestamp].
  destruct (frameBuffer bt !! TimeSlice.timestamp slice) as [f|] eqn:Hf;
    cbv [default from_option id].
  - destruct (Hinv _ _ Hf) as (Hne & Hts & Hall).
    split; [intros H; destruct (List.app_eq_nil _ _ H) as [_ H']; discriminate|].
    destruct (Z.eqb_spec (AggregatedFrame.timestamp f) 0) as [Hz|Hnz];
      cbn [AggregatedFrame.slices AggregatedFrame.timestamp].
    + split; [reflexivity|]. apply Forall_app. split; [exact Hall|].
      now apply Forall_singleton.
    + split; [exact Hts|]. apply Forall_app. split; [exact Hall|].
      now apply Forall_singleton.
  - cbn. split; [discriminate|]. split; [reflexivity|].
    now apply Forall_singleton.
Qed.

Lemma frameBuffer_sendToET env B bt :
  frameBuffer (sendToET env B bt).1 = frameBuffer bt
  /\ timestampErrors (stats (sendToET env B bt).1) = timestampErrors (stats bt)
  /\ config (sendToET env B bt).1 = config bt.
Proof.
  unfold sendToET.
  destruct (events_new_ok env); cbn [negb]; [|repeat split].
  destruct (eventLength env <? Z.of_nat (length B)); [repeat split|].
  destruct (events_put_ok env); repeat split.
Qed.

Lemma frameBuffer_openNextFile env bt :
  frameBuffer (openNextFile env bt).1 = frameBuffer bt
  /\ timestampErrors (stats (openNextFile env bt).1) = timestampErrors (stats bt)
  /\ config (openNextFile env bt).1 = config bt
  /\ etEvents (openNextFile env bt).1 = etEvents bt.
Proof.
  unfold openNextFile, writeFileHeader.
  destruct (open_ok env); [|repeat split].
  destruct (header_ok env); repeat split.
Qed.

Lemma frameBuffer_writeToFile env B bt :
  frameBuffer (writeToFile env B bt).1 = frameBuffer bt
  /\ timestampErrors (stats (writeToFile env B bt).1) = timestampErrors (stats bt)
  /\ config (writeToFile env B bt).1 = config bt
  /\ etEvents (writeToFile env B bt).1 = etEvents bt.
Proof.
  unfold writeToFile.
  set (o := match outputFile (fileOut bt) with
            | Some _ => (bt, true)
            | None => openNextFile (first_open env) bt
            end).
  assert (Ho : frameBuffer o.1 = frameBuffer bt
               /\ timestampErrors (stats o.1) = timestampErrors (stats bt)
               /\ config o.1 = config bt /\ etEvents o.1 = etEvents bt).
  { subst o. destruct (outputFile (fileOut bt)); [repeat split|].
    apply frameBuffer_openNextFile. }
  destruct o as [bt1 opened]. cbn [fst] in Ho.
  destruct Ho as (H1 & H2 & H3 & H4).
  destruct opened; cbn [negb]; [|now repeat split].
  destruct (write_ok env); cbn [negb]; [|now repeat split].
  set (bt2 := addBytesWritten _ _).
  assert (H2' : frameBuffer bt2 = frameBuffer bt
                /\ timestampErrors (stats bt2) = timestampErrors (stats bt)
                /\ config bt2 = config bt /\ etEvents bt2 = etEvents bt)
    by (subst bt2; now repeat split).
  destruct (maxFileSize (config bt2) <=? currentFileSize (fileOut bt2));
    [|exact H2'].
  pose proof (frameBuffer_openNextFile (rollover_open env) (bumpFileNumber bt2))
    as (R1 & R2 & R3 & R4).
  destruct (openNextFile (rollover_open env) (bumpFileNumber bt2)) as [bt3 ok].
  cbn [fst] in R1, R2, R3, R4. destruct H2' as (A & B' & C & D).
  change (frameBuffer (bumpFileNumber bt2)) with (frameBuffer bt2) in R1.
  change (stats (bumpFileNumber bt2)) with (stats bt2) in R2.
  change (config (bumpFileNumber bt2)) with (config bt2) in R3.
  change (etEvents (bumpFileNumber bt2)) with (etEvents bt2) in R4.
  destruct ok; cbn [fst]; repeat split; congruence.
Qed.

Lemma frameBuffer_buildAndPublish env frame bt :
  frameBuffer (buildAndPublish env frame bt) = frameBuffer bt
  /\ config (buildAndPublish env frame bt) = config bt
  /\ (checkTimestampConsistency (timestampSlop (config bt)) frame = false ->
      timestampErrors (stats (buildAndPublish env frame bt))
      = timestampErrors (stats bt)).
Proof.
  unfold buildAndPublish.
  destruct (running_after_unlock env); cbn [negb]; [|now repeat split].
  pose proof (buildEVIO6Frame_cases (timestampSlop (config bt)) frame [])
    as (_ & _ & _ & Hts). cbv zeta in Hts.
  destruct (buildEVIO6Frame (timestampSlop (config bt)) frame [])
    as [[tsError ok] B]. cbn [fst snd] in Hts.
  set (bt1 := if tsError then incTimestampErrors bt else bt).
  assert (H1 : frameBuffer bt1 = frameBuffer bt /\ config bt1 = config bt
               /\ (checkTimestampConsistency (timestampSlop (config bt)) frame
                   = false ->
                   timestampErrors (stats bt1) = timestampErrors (stats bt))).
  { subst bt1. destruct tsError; [|now repeat split].
    split; [reflexivity|]. split; [reflexivity|]. intros H. congruence. }
  destruct ok; [|exact H1].
  destruct (running_after_build env); cbn [negb]; [|exact H1].
  set (r := if useET (config bt1) && running_before_et env then _ else _).
  assert (Hr : frameBuffer r.1.1 = frameBuffer bt1 /\ config r.1.1 = config bt1
               /\ timestampErrors (stats r.1.1) = timestampErrors (stats bt1)).
  { subst r. destruct (useET (config bt1) && running_before_et env);
      [|now repeat split].
    pose proof (frameBuffer_sendToET (et_env env) B bt1) as (S1 & S2 & S3).
    destruct (sendToET (et_env env) B bt1) as [bt2 sent]. now repeat split. }
  destruct r as [[bt2 success] stopped]. cbn [fst] in Hr.
  destruct H1 as (A1 & A2 & A3), Hr as (B1 & B2 & B3).
  destruct stopped.
  { split; [congruence|]. split; [congruence|]. intros H. rewrite B3. auto. }
  set (w := if useFileOutput (config bt2) && running_before_file env
            then _ else _).
  assert (Hw : frameBuffer w.1 = frameBuffer bt2 /\ config w.1 = config bt2
               /\ timestampErrors (stats w.1) = timestampErrors (stats bt2)).
  { subst w. destruct (useFileOutput (config bt2) && running_before_file env);
      [|now repeat split].
    pose proof (frameBuffer_writeToFile (file_env env) B bt2) as (S1 & S2 & S3 & _).
    destruct (writeToFile (file_env env) B bt2) as [bt3 written].
    now repeat split. }
  destruct w as [bt3 success']. cbn [fst] in Hw. destruct Hw as (C1 & C2 & C3).
  destruct success'; cbn;
    (split; [congruence|]); (split; [congruence|]);
    intros H; rewrite C3, B3; auto.
Qed.

(** The buffer after [buildEntry]. *)
Lemma buildEntry_buffer env now ts bt :
  frameBuffer (buildEntry env now ts bt)
  = match frameBuffer bt !! ts with
    | Some frame =>
        if shouldBuild bt frame now then delete ts (frameBuffer bt)
        else frameBuffer bt
    | None => frameBuffer bt
    end
  /\ (running_after_unlock env = false ->
      etEvents (buildEntry env now ts bt) = etEvents bt
      /\ fileOut (buildEntry env now ts bt) = fileOut bt
      /\ stats (buildEntry env now ts bt) = stats bt).
Proof.
  unfold buildEntry.
  destruct (frameBuffer bt !! ts) as [frame|]; [|now repeat split].
  destruct (shouldBuild bt frame now); [|now repeat split].
  split.
  - now rewrite (proj1 (frameBuffer_buildAndPublish _ _ _)).
  - intros Hstop. unfold buildAndPublish. rewrite Hstop. now repeat split.
Qed.

(** X10. What handling an entry does to the buffer, whatever the thread
    reads from [running] and whatever the sinks answer: an entry that is
    ready is removed, also when its frame is then discarded or fails to
    be published; an entry that is not ready stays; no other entry is
    touched. When the thread finds [running] false right after removing
    the entry, nothing else of its state changes. *)
Theorem buildEntry_removes_ready_entry env now ts bt :
  frameBuffer (buildEntry env now ts bt)
  = match frameBuffer bt !! ts with
    | Some frame =>
        if shouldBuild bt frame now then delete ts (frameBuffer bt)
        else frameBuffer bt
    | None => frameBuffer bt
    end
  /\ (running_after_unlock env = false ->
      etEvents (buildEntry env now ts bt) = etEvents bt
      /\ fileOut (buildEntry env now ts bt) = fileOut bt
      /\ stats (buildEntry env now ts bt) = stats bt).
Proof. exact (buildEntry_buffer env now ts bt). Qed.

Lemma bufferInv_buildEntry env now ts bt :
  bufferInv (frameBuffer bt) -> bufferInv (frameBuffer (buildEntry env now ts bt)).
Proof.
  intros Hinv. rewrite (proj1 (buildEntry_buffer env now ts bt)).
  destruct (frameBuffer bt !! ts) as [frame|]; [|exact Hinv].
  destruct (shouldBuild bt frame now); [|exact Hinv].
  now apply map_Forall_delete.
Qed.

Lemma timestampErrors_addTimeSlice now slice bt :
  timestampErrors (stats (addTimeSlice now slice bt)) = timestampErrors (stats bt)
  /\ config (addTimeSlice now slice bt) = config bt.
Proof. split; reflexivity. Qed.

Lemma timestampErrors_buildEntry env now ts bt :
  bufferInv (frameBuffer bt) ->
  timestampErrors (stats (buildEntry env now ts bt)) = timestampErrors (stats bt)
  /\ config (buildEntry env now ts bt) = config bt.
Proof.
  intros Hinv. unfold buildEntry.
  destruct (frameBuffer bt !! ts) as [frame|] eqn:Hf; [|now split].
  destruct (shouldBuild bt frame now); [|now split].
  pose proof (frameBuffer_buildAndPublish env frame
                (with_frameBuffer bt (delete ts (frameBuffer bt))))
    as (_ & Hc & Ht).
  split; [|exact Hc]. rewrite Ht; [reflexivity|].
  destruct (Hinv _ _ Hf) as (_ & _ & Hall).
  eapply checkTimestampConsistency_same. exact Hall.
Qed.

(** X11. In every run of a builder thread that starts with a buffer
    satisfying the invariant (for one, an empty buffer), with slices of
    any content added and entries handled in any order: every entry has
    at least one slice, is stored under its own timestamp and holds only
    slices with that timestamp; so the timestamp check never flags a
    frame taken from the buffer, and the thread's timestamp-error counter
    never moves. *)
Theorem buffer_invariant evs bt :
  bufferInv (frameBuffer bt) ->
  let bt' := threadRun evs bt in
  bufferInv (frameBuffer bt')
  /\ (forall k frame slop, frameBuffer bt' !! k = Some frame ->
        checkTimestampConsistency slop frame = false)
  /\ timestampErrors (stats bt') = timestampErrors (stats bt).
Proof.
  intros Hinv bt'. subst bt'. unfold threadRun.
  assert (H : bufferInv (frameBuffer (fold_left threadStep evs bt))
              /\ timestampErrors (stats (fold_left threadStep evs bt))
                 = timestampErrors (stats bt)).
  { revert bt Hinv. induction evs as [|e evs IH]; intros bt Hinv; [now split|].
    cbn [fold_left].
    assert (Hstep : bufferInv (frameBuffer (threadStep bt e))
                    /\ timestampErrors (stats (threadStep bt e))
                       = timestampErrors (stats bt)).
    { destruct e as [now slice | env now ts]; cbn [threadStep].
      - split; [now apply bufferInv_addTimeSlice|reflexivity].
      - split; [now apply bufferInv_buildEntry|].
        now apply timestampErrors_buildEntry. }
    destruct Hstep as [Hb Ht]. destruct (IH _ Hb) as [Hb' Ht'].
    split; [exact Hb'|]. now rewrite Ht'. }
  destruct H as [Hb Ht]. split; [exact Hb|]. split; [|exact Ht].
  intros k frame slop Hf. destruct (Hb _ _ Hf) as (_ & _ & Hall).
  eapply checkTimestampConsistency_same. exact Hall.
Qed.

Lemma buffer_invariant_witness :
  bufferInv (frameBuffer btStarted) /\
  let bt' := threadRun [Add 0 sliceGood; Add 5 sliceShort;
                        Handle buildEnvOk 10 0x1000] btStarted in
  bufferInv (frameBuffer bt')
  /\ (forall k frame slop, frameBuffer bt' !! k = Some frame ->
        checkTimestampConsistency slop frame = false)
  /\ timestampErrors (stats bt') = timestampErrors (stats btStarted).
Proof.
  assert (H0 : bufferInv (frameBuffer btStarted)) by apply map_Forall_empty.
  split; [exact H0|].
  exact (buffer_invariant [Add 0 sliceGood; Add 5 sliceShort;
                           Handle buildEnvOk 10 0x1000] btStarted H0).
Defined.



(** ** What reaches the sinks *)

Section SinksHold.
Variable P : list byte -> Prop.

Lemma sinksHold_same bt bt' :
  etEvents bt' = etEvents bt ->
  files (fileOut bt') = files (fileOut bt) ->
  sinksHold P bt -> sinksHold P bt'.
Proof. unfold sinksHold. intros -> ->. auto. Qed.

Lemma sinksHold_sendToET env B bt :
  P B -> sinksHold P bt -> sinksHold P (sendToET env B bt).1.
Proof.
  intros HB Hinv. unfold sendToET.
  destruct (events_new_ok env); cbn [negb fst];
    [|eapply sinksHold_same; [..|exact Hinv]; reflexivity].
  destruct (eventLength env <? Z.of_nat (length B)); cbn [fst];
    [eapply sinksHold_same; [..|exact Hinv]; reflexivity|].
  destruct (events_put_ok env); cbn [negb fst];
    [|eapply sinksHold_same; [..|exact Hinv]; reflexivity].
  destruct Hinv as (Hev & Hfiles). unfold sinksHold. cbn.
  split; [|exact Hfiles].
  apply Forall_app. split; [exact Hev|apply Forall_singleton; exact HB].
Qed.

Lemma sinksHold_openNextFile env bt :
  sinksHold P bt -> sinksHold P (openNextFile env bt).1.
Proof.
  intros (Hev & Hfiles). unfold openNextFile, writeFileHeader.
  destruct (open_ok env); [|split; [exact Hev|exact Hfiles]].
  destruct (header_ok env); unfold sinksHold; cbn; (split; [exact Hev|]).
  - rewrite lookup_insert_eq. cbn.
    apply map_Forall_insert_2; [apply fileOf_header|].
    apply map_Forall_insert_2; [apply fileOf_nil|exact Hfiles].
  - apply map_Forall_insert_2; [apply fileOf_nil|exact Hfiles].
Qed.

Lemma sinksHold_appendToOpenFile fo B :
  map_Forall (fun _ c => fileOf P c) (files fo) -> P B ->
  map_Forall (fun _ c => fileOf P c) (files (appendToOpenFile fo B)).
Proof.
  intros Hfiles HB. unfold appendToOpenFile.
  destruct (outputFile fo) as [n|]; [|exact Hfiles]. cbn.
  apply map_Forall_insert_2; [|exact Hfiles].
  apply fileOf_append; [|exact HB].
  destruct (files fo !! n) as [c|] eqn:Hc; cbn.
  - exact (Hfiles _ _ Hc).
  - apply fileOf_nil.
Qed.

Lemma sinksHold_writeToFile env B bt :
  P B -> sinksHold P bt -> sinksHold P (writeToFile env B bt).1.
Proof.
  intros HB Hinv. unfold writeToFile.
  set (o := match outputFile (fileOut bt) with
            | Some _ => (bt, true)
            | None => openNextFile (first_open env) bt
            end).
  assert (Ho : sinksHold P o.1).
  { subst o. destruct (outputFile (fileOut bt)); [exact Hinv|].
    now apply sinksHold_openNextFile. }
  destruct o as [bt1 opened]. cbn [fst] in Ho.
  destruct opened; cbn [negb];
    [|eapply sinksHold_same; [..|exact Ho]; reflexivity].
  destruct (write_ok env); cbn [negb];
    [|eapply sinksHold_same; [..|exact Ho]; reflexivity].
  set (bt2 := addBytesWritten _ _).
  assert (H2 : sinksHold P bt2).
  { destruct Ho as (Hev & Hfiles). subst bt2. unfold sinksHold. cbn.
    split; [exact Hev|]. now apply sinksHold_appendToOpenFile. }
  destruct (maxFileSize (config bt2) <=? currentFileSize (fileOut bt2));
    [|exact H2].
  pose proof (sinksHold_openNextFile (rollover_open env) (bumpFileNumber bt2)
                ltac:(eapply sinksHold_same; [..|exact H2]; reflexivity)) as H3.
  destruct (openNextFile (rollover_open env) (bumpFileNumber bt2)) as [bt3 ok].
  destruct ok; exact H3.
Qed.

Lemma sinksHold_buildAndPublish env frame bt :
  (forall tsError B,
     buildEVIO6Frame (timestampSlop (config bt)) frame [] = (tsError, true, B) ->
     P B) ->
  sinksHold P bt -> sinksHold P (buildAndPublish env frame bt).
Proof.
  intros HP Hinv. unfold buildAndPublish.
  destruct (running_after_unlock env); cbn [negb]; [|exact Hinv].
  destruct (buildEVIO6Frame (timestampSlop (config bt)) frame [])
    as [[tsError ok] B] eqn:Hb.
  set (bt1 := if tsError then incTimestampErrors bt else bt).
  assert (H1 : sinksHold P bt1).
  { subst bt1. destruct tsError; [|exact Hinv].
    eapply sinksHold_same; [..|exact Hinv]; reflexivity. }
  destruct ok; [|exact H1].
  assert (HB : P B) by (eapply HP; reflexivity).
  destruct (running_after_build env); cbn [negb]; [|exact H1].
  set (r := if useET (config bt1) && running_before_et env then _ else _).
  assert (Hr : sinksHold P r.1.1).
  { subst r. destruct (useET (config bt1) && running_before_et env);
      [|exact H1].
    pose proof (sinksHold_sendToET (et_env env) _ bt1 HB H1) as Hs.
    destruct (sendToET (et_env env) _ bt1) as [bt2 sent]. exact Hs. }
  destruct r as [[bt2 success] stopped]. cbn [fst] in Hr.
  destruct stopped; [exact Hr|].
  set (w := if useFileOutput (config bt2) && running_before_file env
            then _ else _).
  assert (Hw : sinksHold P w.1).
  { subst w. destruct (useFileOutput (config bt2) && running_before_file env);
      [|exact Hr].
    pose proof (sinksHold_writeToFile (file_env env) _ bt2 HB Hr) as Hs.
    destruct (writeToFile (file_env env) _ bt2) as [bt3 written]. exact Hs. }
  destruct w as [bt3 success']. cbn [fst] in Hw.
  destruct success'; [|exact Hw].
  eapply sinksHold_same; [..|exact Hw]; reflexivity.
Qed.
End SinksHold.

Lemma builtWithoutError_intro slop frame tsError B :
  buildEVIO6Frame slop frame [] = (tsError, true, B) -> builtWithoutError B.
Proof.
  intros Hb.
  pose proof (buildEVIO6Frame_cases slop frame []) as (Htrue & _ & Hrec & _).
  cbv zeta in Htrue, Hrec. rewrite Hb in Htrue, Hrec. cbn [fst snd] in *.
  destruct (proj1 Htrue eq_refl) as (Hne & Hv & Hts).
  exists slop, frame. split; [exact Hne|]. split; [exact Hv|].
  split; [exact Hts|]. apply Hrec. now apply keptBanks_all_nonempty.
Qed.

Lemma builtWithoutError_error_bit B :
  builtWithoutError B -> Z.shiftr (SS B) 7 = 0.
Proof.
  intros (slop & frame & Hne & Hv & Hts & ->).
  rewrite SS_error_bit by now apply keptBanks_all_nonempty.
  now rewrite Hts.
Qed.

(** X13. No record with errors reaches a sink. In every run of a builder
    thread, with slices of any content and any answers from the sinks,
    every event put to the ET system and every record written to a file
    comes from a frame all of whose slices passed step 1 and whose
    timestamps were consistent, and bit 7 of its status byte is clear;
    every file holds such records only, after the file header. *)
Theorem sinks_hold_error_free_records evs bt :
  sinksHold builtWithoutError bt ->
  sinksHold (fun B => builtWithoutError B /\ Z.shiftr (SS B) 7 = 0)
            (threadRun evs bt).
Proof.
  intros Hinv.
  assert (H : sinksHold builtWithoutError (threadRun evs bt)).
  { unfold threadRun. revert bt Hinv.
    induction evs as [|e evs IH]; intros bt Hinv; [exact Hinv|].
    cbn [fold_left]. apply IH.
    destruct e as [now slice | env now ts]; cbn [threadStep].
    - eapply sinksHold_same; [..|exact Hinv]; reflexivity.
    - unfold buildEntry.
      destruct (frameBuffer bt !! ts) as [frame|]; [|exact Hinv].
      destruct (shouldBuild bt frame now); [|exact Hinv].
      apply sinksHold_buildAndPublish.
      + intros tsError B Hb. eapply builtWithoutError_intro. exact Hb.
      + eapply sinksHold_same; [..|exact Hinv]; reflexivity. }
  destruct H as (Hev & Hfiles). split.
  - eapply Forall_impl; [exact Hev|]. intros B HB.
    split; [exact HB|now apply builtWithoutError_error_bit].
  - intros n c Hc. destruct (Hfiles n c Hc) as (recs & Hrecs & Hshape).
    exists recs. split; [|exact Hshape].
    eapply Forall_impl; [exact Hrecs|]. intros B HB.
    split; [exact HB|now apply builtWithoutError_error_bit].
Qed.

Lemma sinks_hold_error_free_records_witness :
  sinksHold builtWithoutError btStarted /\
  sinksHold (fun B => builtWithoutError B /\ Z.shiftr (SS B) 7 = 0)
            (threadRun [Add 0 sliceGood; Add 5 sliceGood;
                        Handle buildEnvOk 10 0x1000] btStarted).
Proof.
  assert (H0 : sinksHold builtWithoutError btStarted).
  { split; [apply List.Forall_nil|apply map_Forall_empty]. }
  split; [exact H0|].
  exact (sinks_hold_error_free_records
           [Add 0 sliceGood; Add 5 sliceGood; Handle buildEnvOk 10 0x1000]
           btStarted H0).
Defined.

(** In that run one record of 108 bytes reaches the ET system and
    file 0, after the 56-byte file header. *)
Example sinks_example :
  let bt := threadRun [Add 0 sliceGood; Add 5 sliceGood;
                       Handle buildEnvOk 10 0x1000] btStarted in
  length (etEvents bt) = 1%nat
  /\ (length <$> files (fileOut bt) !! 0) = Some (56 + 108)%nat.
Proof. vm_compute. repeat split. Qed.

(** ** The file sink *)

Lemma fileHeaderBytes_length : length fileHeaderBytes = 56%nat.
Proof. reflexivity. Qed.

Lemma fileCounterInv_closed bt :
  outputFile (fileOut bt) = None -> fileCounterInv bt.
Proof. unfold fileCounterInv. now intros ->. Qed.

Lemma openNextFile_spec env bt :
  let r := openNextFile env bt in
  let n := currentFileNumber (fileOut bt) in
  config r.1 = config bt
  /\ currentFileNumber (fileOut r.1) = n
  /\ r.2 = open_ok env && header_ok env
  /\ (r.2 = true ->
      outputFile (fileOut r.1) = Some n
      /\ files (fileOut r.1) = <[n := fileHeaderBytes]> (<[n := []]> (files (fileOut bt)))
      /\ currentFileSize (fileOut r.1) = 56)
  /\ (r.2 = false -> outputFile (fileOut r.1) = None)
  /\ (forall m, m <> n -> files (fileOut r.1) !! m = files (fileOut bt) !! m)
  /\ stats r.1 = (if open_ok env then stats (incFilesCreated bt) else stats bt).
Proof.
  cbv zeta. unfold openNextFile, writeFileHeader.
  destruct (open_ok env); cbn [andb].
  - destruct (header_ok env); cbn [fst snd].
    + cbn. rewrite lookup_insert_eq. cbn.
      repeat split; try reflexivity; try discriminate.
      intros m Hm. rewrite !lookup_insert_ne by congruence. reflexivity.
    + cbn. repeat split; try reflexivity; try discriminate.
      intros m Hm. rewrite !lookup_insert_ne by congruence. reflexivity.
  - cbn. repeat split; try reflexivity; discriminate.
Qed.

Lemma fileCounterInv_openNextFile env bt :
  56 < maxFileSize (config bt) -> fileCounterInv (openNextFile env bt).1.
Proof.
  intros Hmax.
  pose proof (openNextFile_spec env bt) as (Hc & Hn & Hr & Hok & Hfail & _).
  cbv zeta in *.
  destruct (openNextFile env bt) as [bt' ok]. cbn [fst snd] in *.
  destruct ok.
  - destruct (Hok eq_refl) as (Ho & Hf & Hs). unfold fileCounterInv.
    rewrite Ho. split; [now rewrite Hn|]. exists fileHeaderBytes.
    rewrite Hf, lookup_insert_eq, Hs, Hc.
    split; [reflexivity|]. split; [reflexivity|exact Hmax].
  - apply fileCounterInv_closed. now apply Hfail.
Qed.

Lemma to_int_succ_ne n : to_int (n + 1) <> n.
Proof.
  unfold to_int. change (2 ^ 31) with 2147483648.
  change (2 ^ 32) with 4294967296. intros H.
  pose proof (Z.mod_pos_bound (n + 1 + 2147483648) 4294967296 eq_refl) as Hb.
  pose proof (Z.div_mod (n + 1 + 2147483648) 4294967296 ltac:(lia)). lia.
Qed.

(** [writeToFile] on a closed stream opens the file first. *)
Lemma writeToFile_closed env B bt :
  outputFile (fileOut bt) = None ->
  writeToFile env B bt
  = let r := openNextFile (first_open env) bt in
    if r.2 then writeToFile env B r.1 else (incBuildErrors r.1, false).
Proof.
  intros Hnone. cbv zeta.
  pose proof (openNextFile_spec (first_open env) bt) as (_ & _ & _ & Hok & _).
  cbv zeta in Hok. unfold writeToFile at 1. rewrite Hnone.
  destruct (openNextFile (first_open env) bt) as [bt1 ok] eqn:Hopen.
  cbn [fst snd] in *. destruct ok; cbn [negb]; [|reflexivity].
  destruct (Hok eq_refl) as (Ho & _). unfold writeToFile. now rewrite Ho.
Qed.

(** [writeToFile] on an open stream. *)
Lemma writeToFile_open env B bt n c :
  outputFile (fileOut bt) = Some n ->
  currentFileNumber (fileOut bt) = n ->
  files (fileOut bt) !! n = Some c ->
  let r := writeToFile env B bt in
  let size := u64 (currentFileSize (fileOut bt) + Z.of_nat (length B)) in
  config r.1 = config bt
  /\ if write_ok env then
       files (fileOut r.1) !! n = Some (c ++ B)
       /\ bytesWritten (stats r.1)
          = u64 (bytesWritten (stats bt) + Z.of_nat (length B))
       /\ buildErrors (stats r.1) = buildErrors (stats bt)
       /\ framesBuilt (stats r.1) = framesBuilt (stats bt)
       /\ if maxFileSize (config bt) <=? size then
            currentFileNumber (fileOut r.1) = to_int (n + 1)
            /\ r.2 = open_ok (rollover_open env) && header_ok (rollover_open env)
            /\ (r.2 = true ->
                outputFile (fileOut r.1) = Some (to_int (n + 1))
                /\ files (fileOut r.1) !! to_int (n + 1) = Some fileHeaderBytes
                /\ currentFileSize (fileOut r.1) = 56)
            /\ (r.2 = false -> outputFile (fileOut r.1) = None)
            /\ filesCreated (stats r.1)
               = (if open_ok (rollover_open env)
                  then u64 (filesCreated (stats bt) + 1)
                  else filesCreated (stats bt))
          else
            r.2 = true
            /\ outputFile (fileOut r.1) = Some n
            /\ currentFileNumber (fileOut r.1) = n
            /\ currentFileSize (fileOut r.1) = size
            /\ filesCreated (stats r.1) = filesCreated (stats bt)
     else r.1 = incBuildErrors bt /\ r.2 = false.
Proof.
  intros Ho Hn Hc. cbv zeta. unfold writeToFile. rewrite Ho. cbn [negb].
  destruct (write_ok env); cbn [negb]; [|now repeat split].
  unfold appendToOpenFile. rewrite Ho, Hc. cbv [default from_option id].
  cbn [outputFile currentFileSize currentFileNumber files fileOut config
       with_fileOut addBytesWritten with_stats].
  destruct (maxFileSize (config bt) <=? _) eqn:Hmax.
  - set (bt2 := bumpFileNumber _).
    pose proof (openNextFile_spec (rollover_open env) bt2)
      as (Hcfg & Hnum & Hr & Hok & Hfail & Hother & Hst).
    cbv zeta in *.
    destruct (openNextFile (rollover_open env) bt2) as [bt3 ok].
    cbn [fst snd] in *.
    assert (Hn2 : currentFileNumber (fileOut bt2) = to_int (n + 1)).
    { subst bt2. cbn. now rewrite Hn. }
    rewrite Hn2 in *.
    assert (Hres : (if ok then (bt3, true) else (bt3, false)) = (bt3, ok))
      by now destruct ok.
    rewrite Hres. cbn [fst snd].
    split; [rewrite Hcfg; reflexivity|].
    split.
    { rewrite Hother by (pose proof (to_int_succ_ne n); congruence).
      subst bt2. cbn. now rewrite lookup_insert_eq. }
    assert (Hstats : stats bt3
                     = if open_ok (rollover_open env)
                       then stats (incFilesCreated bt2) else stats bt2)
      by exact Hst.
    split; [|split; [|split; [|split; [|split; [|split; [|split]]]]]].
    + rewrite Hstats. now destruct (open_ok (rollover_open env)).
    + rewrite Hstats. now destruct (open_ok (rollover_open env)).
    + rewrite Hstats. now destruct (open_ok (rollover_open env)).
    + exact Hnum.
    + exact Hr.
    + intros Ht. destruct (Hok Ht) as (H1 & H2 & H3).
      split; [exact H1|]. split; [|exact H3].
      rewrite H2. now rewrite lookup_insert_eq.
    + exact Hfail.
    + rewrite Hstats. now destruct (open_ok (rollover_open env)).
  - cbn. rewrite lookup_insert_eq. now repeat split.
Qed.

Lemma u64_add_l a b : u64 (u64 a + b) = u64 (a + b).
Proof. unfold u64. now rewrite Z.add_mod_idemp_l by discriminate. Qed.

Lemma fileCounterInv_same bt bt' :
  fileOut bt' = fileOut bt -> config bt' = config bt ->
  fileCounterInv bt -> fileCounterInv bt'.
Proof. unfold fileCounterInv. now intros -> ->. Qed.

Lemma fileCounterInv_writeToFile_open env B bt n :
  56 < maxFileSize (config bt) ->
  outputFile (fileOut bt) = Some n ->
  fileCounterInv bt ->
  fileCounterInv (writeToFile env B bt).1
  /\ config (writeToFile env B bt).1 = config bt.
Proof.
  intros Hmax Ho Hinv. pose proof Hinv as Hinv0.
  unfold fileCounterInv in Hinv. rewrite Ho in Hinv.
  destruct Hinv as (Hn & c & Hc & Hsize & Hlim).
  pose proof (writeToFile_open env B bt n c Ho (eq_sym Hn) Hc) as (Hcfg & Hw).
  cbv zeta in Hcfg, Hw. split; [|exact Hcfg].
  destruct (writeToFile env B bt) as [bt' ok]. cbn [fst snd] in *.
  destruct (write_ok env).
  - destruct Hw as (Hf & _ & _ & _ & Hw).
    destruct (maxFileSize (config bt) <=? _) eqn:Hfull.
    + destruct Hw as (Hnum & _ & Hok & Hfail & _). destruct ok.
      * destruct (Hok eq_refl) as (H1 & H2 & H3).
        unfold fileCounterInv. rewrite H1. split; [now rewrite Hnum|].
        exists fileHeaderBytes. rewrite H2, H3, Hcfg. now repeat split.
      * apply fileCounterInv_closed. now apply Hfail.
    + destruct Hw as (_ & H1 & H2 & H3 & _).
      unfold fileCounterInv. rewrite H1. split; [now rewrite H2|].
      exists (c ++ B). rewrite Hf, H3, Hcfg. split; [reflexivity|].
      split; [|lia].
      rewrite Hsize, u64_add_l, length_app. f_equal. lia.
  - destruct Hw as (-> & _).
    eapply fileCounterInv_same; [..|exact Hinv0]; reflexivity.
Qed.

Lemma fileCounterInv_writeToFile env B bt :
  56 < maxFileSize (config bt) ->
  fileCounterInv bt ->
  fileCounterInv (writeToFile env B bt).1
  /\ config (writeToFile env B bt).1 = config bt.
Proof.
  intros Hmax Hinv.
  destruct (outputFile (fileOut bt)) as [n|] eqn:Ho.
  - now apply (fileCounterInv_writeToFile_open env B bt n).
  - rewrite writeToFile_closed by exact Ho. cbv zeta.
    pose proof (openNextFile_spec (first_open env) bt)
      as (Hcfg & _ & _ & Hok & Hfail & _).
    pose proof (fileCounterInv_openNextFile (first_open env) bt Hmax) as H1.
    cbv zeta in *.
    destruct (openNextFile (first_open env) bt) as [bt1 ok].
    cbn [fst snd] in *. destruct ok.
    + destruct (Hok eq_refl) as (Ho1 & _).
      destruct (fileCounterInv_writeToFile_open env B bt1 _
                  ltac:(now rewrite Hcfg) Ho1 H1) as (H2 & H3).
      split; [exact H2|congruence].
    + cbn [fst]. split; [|exact Hcfg].
      eapply fileCounterInv_same; [..|exact H1]; reflexivity.
Qed.

Lemma sendToET_keeps_file env B bt :
  fileOut (sendToET env B bt).1 = fileOut bt
  /\ config (sendToET env B bt).1 = config bt.
Proof.
  unfold sendToET.
  destruct (events_new_ok env); cbn [negb]; [|now split].
  destruct (eventLength env <? _); [now split|].
  destruct (events_put_ok env); now split.
Qed.

Lemma fileCounterInv_buildAndPublish env frame bt :
  56 < maxFileSize (config bt) ->
  fileCounterInv bt ->
  fileCounterInv (buildAndPublish env frame bt)
  /\ config (buildAndPublish env frame bt) = config bt.
Proof.
  intros Hmax Hinv. unfold buildAndPublish.
  destruct (running_after_unlock env); cbn [negb]; [|now split].
  destruct (buildEVIO6Frame (timestampSlop (config bt)) frame [])
    as [[tsError ok] B].
  set (bt1 := if tsError then incTimestampErrors bt else bt).
  assert (H1 : fileCounterInv bt1 /\ config bt1 = config bt).
  { subst bt1. destruct tsError; [|now split]. split; [|reflexivity].
    eapply fileCounterInv_same; [..|exact Hinv]; reflexivity. }
  destruct ok; [|exact H1].
  destruct (running_after_build env); cbn [negb]; [|exact H1].
  set (r := if useET (config bt1) && running_before_et env then _ else _).
  assert (Hr : fileCounterInv r.1.1 /\ config r.1.1 = config bt).
  { subst r. destruct (useET (config bt1) && running_before_et env);
      [|exact H1].
    destruct (sendToET_keeps_file (et_env env) B bt1) as (Hf & Hc).
    destruct (sendToET (et_env env) B bt1) as [bt2 sent]. cbn [fst] in *.
    destruct H1 as (H1 & H1c). split; [|congruence].
    eapply fileCounterInv_same; [exact Hf|exact Hc|exact H1]. }
  destruct r as [[bt2 success] stopped]. cbn [fst] in Hr.
  destruct stopped; [exact Hr|].
  set (w := if useFileOutput (config bt2) && running_before_file env
            then _ else _).
  assert (Hw : fileCounterInv w.1 /\ config w.1 = config bt).
  { subst w. destruct (useFileOutput (config bt2) && running_before_file env);
      [|exact Hr].
    destruct Hr as (Hr & Hrc).
    destruct (fileCounterInv_writeToFile (file_env env) B bt2
                ltac:(now rewrite Hrc) Hr) as (H3 & H3c).
    destruct (writeToFile (file_env env) B bt2) as [bt3 written].
    cbn [fst] in *. split; [exact H3|congruence]. }
  destruct w as [bt3 success']. cbn [fst] in Hw.
  destruct success'; [|exact Hw].
  destruct Hw as (Hw & Hwc). split; [|exact Hwc].
  eapply fileCounterInv_same; [..|exact Hw]; reflexivity.
Qed.

(** X14. The size counter and the size limit of the file sink. Between
    any two steps of a builder thread, whatever the slices and whatever
    the answers of the ET system and of the file system, the open stream
    is on the file with the current number, the size counter equals the
    number of bytes of that file, and it is below the size limit: a file
    that reaches the limit is closed in the call that wrote to it. *)
Theorem file_size_counter evs bt :
  56 < maxFileSize (config bt) ->
  fileCounterInv bt ->
  fileCounterInv (threadRun evs bt)
  /\ config (threadRun evs bt) = config bt.
Proof.
  unfold threadRun. revert bt.
  induction evs as [|e evs IH]; intros bt Hmax Hinv; [now split|].
  cbn [fold_left].
  assert (H : fileCounterInv (threadStep bt e)
              /\ config (threadStep bt e) = config bt).
  { destruct e as [now slice | env now ts]; cbn [threadStep].
    - split; [|reflexivity].
      eapply fileCounterInv_same; [..|exact Hinv]; reflexivity.
    - unfold buildEntry.
      destruct (frameBuffer bt !! ts) as [frame|]; [|now split].
      destruct (shouldBuild bt frame now); [|now split].
      apply (fileCounterInv_buildAndPublish env frame
               (with_frameBuffer bt (delete ts (frameBuffer bt))) Hmax).
      eapply fileCounterInv_same; [..|exact Hinv]; reflexivity. }
  destruct H as (H & Hc).
  destruct (IH (threadStep bt e) ltac:(now rewrite Hc) H) as (H' & Hc').
  split; [exact H'|congruence].
Qed.

Lemma file_size_counter_witness :
  56 < maxFileSize (config btStarted)
  /\ fileCounterInv btStarted
  /\ fileCounterInv (threadRun [Add 0 sliceGood; Add 5 sliceGood;
                                Handle buildEnvOk 10 0x1000] btStarted).
Proof.
  assert (Hmax : 56 < maxFileSize (config btStarted)) by reflexivity.
  assert (H0 : fileCounterInv btStarted) by exact I.
  split; [exact Hmax|]. split; [exact H0|].
  exact (proj1 (file_size_counter
                  [Add 0 sliceGood; Add 5 sliceGood;
                   Handle buildEnvOk 10 0x1000] btStarted Hmax H0)).
Defined.

(** X15. What [writeToFile] does with a record. If the stream is open,
    or can be opened and its header written, and the write succeeds,
    then the record is the end of a file, the byte counter grows by its
    length and the error counter is unchanged; the call can still
    return [false] then, namely when the file reached the size limit and
    the next file could not be opened, which leaves the stream closed.
    Otherwise the call returns [false], counts one build error and
    leaves the byte counter unchanged. *)
Theorem writeToFile_outcome env B bt :
  fileCounterInv bt ->
  let r := writeToFile env B bt in
  if recordWritten env bt then
    (exists n c, files (fileOut r.1) !! n = Some (c ++ B))
    /\ bytesWritten (stats r.1)
       = u64 (bytesWritten (stats bt) + Z.of_nat (length B))
    /\ buildErrors (stats r.1) = buildErrors (stats bt)
    /\ (r.2 = false -> outputFile (fileOut r.1) = None)
  else
    r.2 = false
    /\ bytesWritten (stats r.1) = bytesWritten (stats bt)
    /\ buildErrors (stats r.1) = u64 (buildErrors (stats bt) + 1).
Proof.
  intros Hinv. cbv zeta.
  assert (Hopen : forall bt1 n c,
            outputFile (fileOut bt1) = Some n ->
            currentFileNumber (fileOut bt1) = n ->
            files (fileOut bt1) !! n = Some c ->
            let r := writeToFile env B bt1 in
            if write_ok env then
              (exists n c, files (fileOut r.1) !! n = Some (c ++ B))
              /\ bytesWritten (stats r.1)
                 = u64 (bytesWritten (stats bt1) + Z.of_nat (length B))
              /\ buildErrors (stats r.1) = buildErrors (stats bt1)
              /\ (r.2 = false -> outputFile (fileOut r.1) = None)
            else
              r.2 = false
              /\ bytesWritten (stats r.1) = bytesWritten (stats bt1)
              /\ buildErrors (stats r.1) = u64 (buildErrors (stats bt1) + 1)).
  { intros bt1 n c Ho Hn Hc.
    pose proof (writeToFile_open env B bt1 n c Ho Hn Hc) as (_ & Hw).
    cbv zeta in *. destruct (write_ok env).
    - destruct Hw as (Hf & Hb & He & _ & Hw).
      split; [now exists n, c|]. split; [exact Hb|]. split; [exact He|].
      destruct (maxFileSize (config bt1) <=? _).
      + now destruct Hw as (_ & _ & _ & Hfail & _).
      + destruct Hw as (-> & _). discriminate.
    - destruct Hw as (-> & ->). now repeat split. }
  unfold recordWritten.
  destruct (outputFile (fileOut bt)) as [n|] eqn:Ho.
  - unfold fileCounterInv in Hinv. rewrite Ho in Hinv.
    destruct Hinv as (Hn & c & Hc & _). cbn [andb].
    exact (Hopen bt n c Ho (eq_sym Hn) Hc).
  - rewrite writeToFile_closed by exact Ho. cbv zeta.
    pose proof (openNextFile_spec (first_open env) bt)
      as (_ & Hnum & Hr & Hok & _ & _ & Hst).
    cbv zeta in *.
    destruct (openNextFile (first_open env) bt) as [bt1 ok].
    cbn [fst snd] in *. rewrite <- Hr.
    assert (Hs : bytesWritten (stats bt1) = bytesWritten (stats bt)
                 /\ buildErrors (stats bt1) = buildErrors (stats bt)).
    { rewrite Hst. now destruct (open_ok (first_open env)). }
    destruct Hs as (Hs1 & Hs2).
    destruct ok; cbn [andb].
    + destruct (Hok eq_refl) as (Ho1 & Hf1 & _).
      pose proof (Hopen bt1 _ fileHeaderBytes Ho1 Hnum
                    ltac:(rewrite Hf1; apply lookup_insert_eq)) as H.
      cbv zeta in H. rewrite Hs1, Hs2 in H. exact H.
    + cbn. rewrite Hs1, Hs2. now repeat split.
Qed.

Lemma writeToFile_outcome_witness :
  fileCounterInv btStarted
  /\ (exists n c,
        files (fileOut (writeToFile (file_env buildEnvOk) fileHeaderBytes
                          btStarted).1) !! n
        = Some (c ++ fileHeaderBytes)).
Proof.
  assert (H0 : fileCounterInv btStarted) by exact I.
  split; [exact H0|].
  exact (proj1 (writeToFile_outcome (file_env buildEnvOk) fileHeaderBytes
                  btStarted H0)).
Defined.

(** X16. Rollover. When a successful write brings the size counter of
    the open file [n] to the size limit or beyond, the record stays
    whole in file [n] (the limit is checked after the write), the file
    number becomes [n + 1] as an [int], and the next file, if it opens,
    holds the 56-byte file header and nothing else, whatever a file of
    that number held before; one more file is counted. *)
Theorem file_rollover env B bt n c :
  outputFile (fileOut bt) = Some n ->
  currentFileNumber (fileOut bt) = n ->
  files (fileOut bt) !! n = Some c ->
  write_ok env = true ->
  maxFileSize (config bt)
    <= u64 (currentFileSize (fileOut bt) + Z.of_nat (length B)) ->
  open_ok (rollover_open env) = true ->
  header_ok (rollover_open env) = true ->
  let r := writeToFile env B bt in
  r.2 = true
  /\ files (fileOut r.1) !! n = Some (c ++ B)
  /\ outputFile (fileOut r.1) = Some (to_int (n + 1))
  /\ currentFileNumber (fileOut r.1) = to_int (n + 1)
  /\ files (fileOut r.1) !! to_int (n + 1) = Some fileHeaderBytes
  /\ currentFileSize (fileOut r.1) = 56
  /\ filesCreated (stats r.1) = u64 (filesCreated (stats bt) + 1).
Proof.
  intros Ho Hn Hc Hw Hfull Hop Hhd.
  pose proof (writeToFile_open env B bt n c Ho Hn Hc) as (_ & H).
  cbv zeta in *. rewrite Hw in H.
  destruct H as (Hf & _ & _ & _ & H).
  rewrite (proj2 (Z.leb_le _ _) Hfull) in H.
  destruct H as (Hnum & Hr & Hok & _ & Hfc).
  rewrite Hop, Hhd in Hr. cbn in Hr. rewrite Hop in Hfc.
  destruct (Hok Hr) as (H1 & H2 & H3). now repeat split.
Qed.

Lemma file_rollover_witness :
  let bt := with_fileOut btStarted
              (mkFileOut (Some 7) (2 ^ 31 - 8) 7 {[7 := []; 8 := [Byte.x01]]}) in
  let r := writeToFile (file_env buildEnvOk) fileHeaderBytes bt in
  maxFileSize (config bt)
    <= u64 (currentFileSize (fileOut bt)
            + Z.of_nat (length fileHeaderBytes))
  /\ r.2 = true
  /\ files (fileOut r.1) !! 7 = Some ([] ++ fileHeaderBytes)
  /\ files (fileOut r.1) !! 8 = Some fileHeaderBytes.
Proof.
  cbv zeta.
  assert (Hfull : maxFileSize
                    (config (with_fileOut btStarted
                       (mkFileOut (Some 7) (2 ^ 31 - 8) 7
                          {[7 := []; 8 := [Byte.x01]]})))
                  <= u64 (currentFileSize
                            (fileOut (with_fileOut btStarted
                               (mkFileOut (Some 7) (2 ^ 31 - 8) 7
                                  {[7 := []; 8 := [Byte.x01]]})))
                          + Z.of_nat (length fileHeaderBytes)))
    by (vm_compute; discriminate).
  split; [exact Hfull|].
  pose proof (file_rollover (file_env buildEnvOk) fileHeaderBytes
                (with_fileOut btStarted
                   (mkFileOut (Some 7) (2 ^ 31 - 8) 7
                      {[7 := []; 8 := [Byte.x01]]}))
                7 [] eq_refl eq_refl eq_refl eq_refl Hfull eq_refl eq_refl)
    as (H1 & H2 & _ & _ & H3 & _).
  split; [exact H1|]. split; [exact H2|exact H3].
Defined.

(** ** The ET sink *)

Lemma sendToET_spec env B bt :
  let r := sendToET env B bt in
  r.2 = recordSent env B
  /\ if recordSent env B then
       etEvents r.1 = etEvents bt ++ [B]
       /\ framesBuilt (stats r.1) = u64 (framesBuilt (stats bt) + 1)
       /\ bytesWritten (stats r.1)
          = u64 (bytesWritten (stats bt) + Z.of_nat (length B))
       /\ buildErrors (stats r.1) = buildErrors (stats bt)
     else
       etEvents r.1 = etEvents bt
       /\ framesBuilt (stats r.1) = framesBuilt (stats bt)
       /\ bytesWritten (stats r.1) = bytesWritten (stats bt)
       /\ buildErrors (stats r.1) = u64 (buildErrors (stats bt) + 1).
Proof.
  cbv zeta. unfold sendToET, recordSent.
  destruct (events_new_ok env); cbn [negb andb]; [|now repeat split].
  rewrite Z.ltb_antisym.
  destruct (Z.of_nat (length B) <=? eventLength env); cbn [negb andb];
    [|now repeat split].
  destruct (events_put_ok env); cbn [negb]; now repeat split.
Qed.

(** X17. A frame published to the ET system only. For a thread with ET
    output and no file output that is not told to stop, a frame that
    builds is handed to the ET system when an event can be obtained, the
    record fits the event and the put succeeds; it is then the newest ET
    event, and the frame counter has grown by two, once in [sendToET]
    and once in [threadFunc]. Otherwise nothing is published, the frame
    is gone from the buffer all the same, and one build error is
    counted. *)
Theorem et_publish_outcome env frame bt :
  running_after_unlock env = true ->
  running_after_build env = true ->
  running_before_et env = true ->
  running_after_et env = true ->
  useET (config bt) = true ->
  useFileOutput (config bt) = false ->
  let b := buildEVIO6Frame (timestampSlop (config bt)) frame [] in
  b.1.2 = true ->
  let bt' := buildAndPublish env frame bt in
  if recordSent (et_env env) b.2 then
    etEvents bt' = etEvents bt ++ [b.2]
    /\ framesBuilt (stats bt') = u64 (u64 (framesBuilt (stats bt) + 1) + 1)
    /\ bytesWritten (stats bt')
       = u64 (bytesWritten (stats bt) + Z.of_nat (length b.2))
    /\ buildErrors (stats bt') = buildErrors (stats bt)
  else
    etEvents bt' = etEvents bt
    /\ framesBuilt (stats bt') = framesBuilt (stats bt)
    /\ bytesWritten (stats bt') = bytesWritten (stats bt)
    /\ buildErrors (stats bt') = u64 (buildErrors (stats bt) + 1).
Proof.
  intros R1 R2 R3 R4 Het Hfile. cbv zeta. intros Hok.
  unfold buildAndPublish. rewrite R1, R2. cbn [negb].
  destruct (buildEVIO6Frame (timestampSlop (config bt)) frame [])
    as [[tsError ok] B].
  cbn [fst snd] in *. subst ok.
  set (bt1 := if tsError then incTimestampErrors bt else bt).
  assert (H1 : config bt1 = config bt /\ etEvents bt1 = etEvents bt
               /\ framesBuilt (stats bt1) = framesBuilt (stats bt)
               /\ bytesWritten (stats bt1) = bytesWritten (stats bt)
               /\ buildErrors (stats bt1) = buildErrors (stats bt)).
  { subst bt1. now destruct tsError. }
  destruct H1 as (Hc & He & Hf & Hb & Hx).
  rewrite Hc, Het, R3, R4. cbn [andb negb].
  pose proof (sendToET_spec (et_env env) B bt1) as (Hr & Hs).
  pose proof (sendToET_keeps_file (et_env env) B bt1) as (_ & Hc2).
  cbv zeta in *.
  destruct (sendToET (et_env env) B bt1) as [bt2 sent]. cbn [fst snd] in *.
  rewrite Hc2, Hc, Hfile. cbn [andb]. subst sent.
  rewrite He, Hf, Hb, Hx in Hs.
  destruct (recordSent (et_env env) B); cbn [andb].
  - destruct Hs as (H1 & H2 & H3 & H4). cbn. rewrite H2. now repeat split.
  - exact Hs.
Qed.

Lemma et_publish_outcome_witness :
  let bt := start (make 0 1 100 1000 (2 * 1024 * 1024) true false
                     "/data"%string "frames"%string 1) in
  let B := (buildEVIO6Frame 100 frameSingle []).2 in
  let bt' := buildAndPublish buildEnvOk frameSingle bt in
  etEvents bt' = [B] /\ framesBuilt (stats bt') = 2.
Proof.
  cbv zeta.
  pose proof (et_publish_outcome buildEnvOk frameSingle
                (start (make 0 1 100 1000 (2 * 1024 * 1024) true false
                          "/data"%string "frames"%string 1))
                eq_refl eq_refl eq_refl eq_refl eq_refl eq_refl eq_refl)
    as H.
  cbv zeta in H.
  change (recordSent (et_env buildEnvOk)
            (buildEVIO6Frame
               (timestampSlop
                  (config (start (make 0 1 100 1000 (2 * 1024 * 1024) true
                                    false "/data"%string "frames"%string 1))))
               frameSingle []).2) with true in H.
  destruct H as (H1 & H2 & _). split; [exact H1|exact H2].
Defined.

(** ** Runs of the frame builder *)

Lemma frameBuffer_buildEntry env now ts bt k f :
  frameBuffer (buildEntry env now ts bt) !! k = Some f ->
  frameBuffer bt !! k = Some f.
Proof.
  unfold buildEntry.
  destruct (frameBuffer bt !! ts) as [frame|]; [|auto].
  destruct (shouldBuild bt frame now); [|auto].
  destruct (frameBuffer_buildAndPublish env frame
              (with_frameBuffer bt (delete ts (frameBuffer bt)))) as (-> & _).
  cbn. intros H. apply lookup_delete_Some in H. tauto.
Qed.

Lemma addTimeSlice_defined now ts fn did data fb :
  started fb -> 0 <= ts ->
  let i := Z.to_nat (ts mod FrameBuilder.builderThreadCount fb) in
  exists bt,
    FrameBuilder.builderThreads fb !! i = Some bt
    /\ FrameBuilder.addTimeSlice now ts fn did data fb
       = Some (FrameBuilder.with_stats
                 (FrameBuilder.with_threads fb
                    (<[i := addTimeSlice now (TimeSlice.make ts fn did data) bt]>
                       (FrameBuilder.builderThreads fb)))
                 (FrameBuilder.mkStats
                    (FrameBuilder.framesBuilt (FrameBuilder.stats fb))
                    (u64 (FrameBuilder.slicesAggregated (FrameBuilder.stats fb) + 1))
                    (FrameBuilder.buildErrors (FrameBuilder.stats fb))
                    (FrameBuilder.timestampErrors (FrameBuilder.stats fb))
                    (FrameBuilder.filesCreated (FrameBuilder.stats fb))
                    (FrameBuilder.bytesWritten (FrameBuilder.stats fb)))).
Proof.
  intros ((Hpos & Hlt) & Hlen) Hts. cbv zeta.
  set (N := FrameBuilder.builderThreadCount fb) in *.
  assert (H31 : 2 ^ 31 = 2147483648) by reflexivity.
  assert (HuN : u64 N = N).
  { unfold u64. apply Z.mod_small.
    change (2 ^ 64) with 18446744073709551616. lia. }
  pose proof (Z.mod_pos_bound ts N Hpos) as Hm.
  destruct (lookup_lt_is_Some_2 (FrameBuilder.builderThreads fb)
              (Z.to_nat (ts mod N))) as [bt Hbt]; [lia|].
  exists bt. split; [exact Hbt|].
  unfold FrameBuilder.addTimeSlice. fold N. rewrite HuN.
  destruct (Z.eqb_spec N 0) as [|_]; [lia|].
  rewrite to_int_small by lia.
  destruct (Z.ltb_spec (ts mod N) 0) as [|_]; [lia|].
  rewrite Hbt. reflexivity.
Qed.

Lemma shardInv_empty fb :
  Forall (fun bt => frameBuffer bt = ∅) (FrameBuilder.builderThreads fb) ->
  shardInv fb.
Proof.
  intros Hall i bt k f Hbt Hf.
  rewrite Forall_lookup in Hall. rewrite (Hall i bt Hbt) in Hf.
  now rewrite lookup_empty in Hf.
Qed.

Lemma step_keeps_shards fb e :
  started fb -> shardInv fb -> threadExists fb e ->
  exists fb',
    FrameBuilder.step fb e = Some fb'
    /\ started fb' /\ shardInv fb'
    /\ FrameBuilder.builderThreadCount fb' = FrameBuilder.builderThreadCount fb.
Proof.
  intros Hst Hsh He.
  destruct e as [now ts fn did data | i env now ts]; cbn [FrameBuilder.step].
  - assert (Hts : 0 <= u64 ts).
    { unfold u64. apply Z.mod_pos_bound. reflexivity. }
    destruct (addTimeSlice_defined now (u64 ts) (u32 fn) (u16 did) data fb
                Hst Hts) as (bt & Hbt & ->).
    eexists. split; [reflexivity|].
    destruct Hst as (HN & Hlen).
    split; [|split; [|reflexivity]].
    + split; [exact HN|]. cbn. now rewrite length_insert.
    + intros j bt' k f Hj Hk. cbn in Hj, Hk |- *.
      set (i := Z.to_nat (u64 ts mod FrameBuilder.builderThreadCount fb)) in *.
      destruct (decide (j = i)) as [->|Hne].
      * rewrite list_lookup_insert_eq in Hj
          by (apply lookup_lt_is_Some_1; now exists bt).
        injection Hj as <-.
        destruct (decide (k = u64 ts)) as [->|Hk'].
        -- subst i. rewrite Z2Nat.id; [reflexivity|].
           apply Z.mod_pos_bound. lia.
        -- rewrite addTimeSlice_other in Hk by exact Hk'.
           exact (Hsh _ _ _ _ Hbt Hk).
      * rewrite list_lookup_insert_ne in Hj by congruence.
        exact (Hsh _ _ _ _ Hj Hk).
  - cbn in He. destruct Hst as (HN & Hlen).
    destruct (lookup_lt_is_Some_2 (FrameBuilder.builderThreads fb) i)
      as [bt Hbt]; [lia|].
    rewrite Hbt. eexists. split; [reflexivity|].
    split; [|split; [|reflexivity]].
    + split; [exact HN|]. cbn. now rewrite length_insert.
    + intros j bt' k f Hj Hk. cbn in Hj |- *.
      destruct (decide (j = i)) as [->|Hne].
      * rewrite list_lookup_insert_eq in Hj
          by (apply lookup_lt_is_Some_1; now exists bt).
        injection Hj as <-. apply frameBuffer_buildEntry in Hk.
        exact (Hsh _ _ _ _ Hbt Hk).
      * rewrite list_lookup_insert_ne in Hj by congruence.
        exact (Hsh _ _ _ _ Hj Hk).
Qed.

(** X18. Sharding by timestamp. On a started frame builder whose thread
    count is between 1 and 2^31 - 1, a run of [addTimeSlice] calls with
    any arguments and of thread steps never leaves defined behaviour,
    and at every moment thread [i] holds only frames whose timestamp is
    [i] modulo the thread count: all slices of one timestamp meet in
    one thread. *)
Theorem run_keeps_shards evs fb :
  started fb -> shardInv fb -> Forall (threadExists fb) evs ->
  exists fb',
    FrameBuilder.run evs fb = Some fb'
    /\ started fb' /\ shardInv fb'
    /\ FrameBuilder.builderThreadCount fb' = FrameBuilder.builderThreadCount fb.
Proof.
  revert fb. induction evs as [|e evs IH]; intros fb Hst Hsh Hev.
  - exists fb. split; [reflexivity|]. split; [exact Hst|].
    split; [exact Hsh|reflexivity].
  - cbn [FrameBuilder.run].
    destruct (step_keeps_shards fb e Hst Hsh (Forall_inv Hev))
      as (fb1 & -> & Hst1 & Hsh1 & Hc1).
    destruct (IH fb1 Hst1 Hsh1) as (fb' & Hrun & Hst' & Hsh' & Hc').
    { eapply Forall_impl; [exact (Forall_inv_tail Hev)|].
      intros e'. unfold threadExists. now rewrite Hc1. }
    exists fb'. split; [exact Hrun|]. split; [exact Hst'|].
    split; [exact Hsh'|congruence].
Qed.

Lemma run_keeps_shards_witness :
  started fbStarted /\ shardInv fbStarted
  /\ Forall (threadExists fbStarted) runSingle
  /\ exists fb', FrameBuilder.run runSingle fbStarted = Some fb'
                 /\ shardInv fb'.
Proof.
  assert (Hst : started fbStarted).
  { split; [split; reflexivity|reflexivity]. }
  assert (Hsh : shardInv fbStarted).
  { apply shardInv_empty.
    repeat (apply List.Forall_cons; [reflexivity|]). apply List.Forall_nil. }
  assert (Hev : Forall (threadExists fbStarted) runSingle).
  { repeat (apply List.Forall_cons; [first [exact I | vm_compute; lia]|]).
    apply List.Forall_nil. }
  split; [exact Hst|]. split; [exact Hsh|]. split; [exact Hev|].
  destruct (run_keeps_shards runSingle fbStarted Hst Hsh Hev)
    as (fb' & Hrun & _ & Hsh' & _).
  exists fb'. split; [exact Hrun|exact Hsh'].
Defined.

(** ** Statistics *)

Lemma slicesProcessed_openNextFile env bt :
  slicesProcessed (stats (openNextFile env bt).1) = slicesProcessed (stats bt).
Proof.
  unfold openNextFile, writeFileHeader.
  destruct (open_ok env); [|reflexivity].
  destruct (header_ok env); reflexivity.
Qed.

Lemma slicesProcessed_writeToFile env B bt :
  slicesProcessed (stats (writeToFile env B bt).1) = slicesProcessed (stats bt).
Proof.
  unfold writeToFile.
  set (o := match outputFile (fileOut bt) with
            | Some _ => (bt, true)
            | None => openNextFile (first_open env) bt
            end).
  assert (Ho : slicesProcessed (stats o.1) = slicesProcessed (stats bt)).
  { subst o. destruct (outputFile (fileOut bt)); [reflexivity|].
    apply slicesProcessed_openNextFile. }
  destruct o as [bt1 opened]. cbn [fst] in Ho.
  destruct opened; cbn [negb]; [|exact Ho].
  destruct (write_ok env); cbn [negb]; [|exact Ho].
  set (bt2 := addBytesWritten _ _).
  assert (H2 : slicesProcessed (stats bt2) = slicesProcessed (stats bt))
    by (subst bt2; exact Ho).
  destruct (maxFileSize (config bt2) <=? currentFileSize (fileOut bt2));
    [|exact H2].
  pose proof (slicesProcessed_openNextFile (rollover_open env)
                (bumpFileNumber bt2)) as R.
  destruct (openNextFile (rollover_open env) (bumpFileNumber bt2)) as [bt3 ok].
  cbn [fst] in R.
  change (stats (bumpFileNumber bt2)) with (stats bt2) in R.
  destruct ok; cbn [fst]; congruence.
Qed.

Lemma slicesProcessed_sendToET env B bt :
  slicesProcessed (stats (sendToET env B bt).1) = slicesProcessed (stats bt).
Proof.
  unfold sendToET.
  destruct (events_new_ok env); cbn [negb]; [|reflexivity].
  destruct (eventLength env <? _); [reflexivity|].
  destruct (events_put_ok env); reflexivity.
Qed.

Lemma slicesProcessed_buildAndPublish env frame bt :
  slicesProcessed (stats (buildAndPublish env frame bt))
  = slicesProcessed (stats bt).
Proof.
  unfold buildAndPublish.
  destruct (running_after_unlock env); cbn [negb]; [|reflexivity].
  destruct (buildEVIO6Frame (timestampSlop (config bt)) frame [])
    as [[tsError ok] B].
  set (bt1 := if tsError then incTimestampErrors bt else bt).
  assert (H1 : slicesProcessed (stats bt1) = slicesProcessed (stats bt))
    by (subst bt1; now destruct tsError).
  destruct ok; [|exact H1].
  destruct (running_after_build env); cbn [negb]; [|exact H1].
  set (r := if useET (config bt1) && running_before_et env then _ else _).
  assert (Hr : slicesProcessed (stats r.1.1) = slicesProcessed (stats bt)).
  { subst r. destruct (useET (config bt1) && running_before_et env);
      [|exact H1].
    pose proof (slicesProcessed_sendToET (et_env env) B bt1) as S1.
    destruct (sendToET (et_env env) B bt1) as [bt2 sent]. cbn [fst] in *.
    congruence. }
  destruct r as [[bt2 success] stopped]. cbn [fst] in Hr.
  destruct stopped; [exact Hr|].
  set (w := if useFileOutput (config bt2) && running_before_file env
            then _ else _).
  assert (Hw : slicesProcessed (stats w.1) = slicesProcessed (stats bt)).
  { subst w. destruct (useFileOutput (config bt2) && running_before_file env);
      [|exact Hr].
    pose proof (slicesProcessed_writeToFile (file_env env) B bt2) as S1.
    destruct (writeToFile (file_env env) B bt2) as [bt3 written].
    cbn [fst] in *. congruence. }
  destruct w as [bt3 success']. cbn [fst] in Hw.
  destruct success'; exact Hw.
Qed.

Lemma slicesProcessed_buildEntry env now ts bt :
  slicesProcessed (stats (buildEntry env now ts bt))
  = slicesProcessed (stats bt).
Proof.
  unfold buildEntry.
  destruct (frameBuffer bt !! ts) as [frame|]; [|reflexivity].
  destruct (shouldBuild bt frame now); [|reflexivity].
  exact (slicesProcessed_buildAndPublish env frame
           (with_frameBuffer bt (delete ts (frameBuffer bt)))).
Qed.

Lemma u64_u64 a : u64 (u64 a) = u64 a.
Proof. unfold u64. apply Z.mod_mod. discriminate. Qed.

Lemma u64_add_r a b : u64 (a + u64 b) = u64 (a + b).
Proof. unfold u64. now rewrite Z.add_mod_idemp_r by discriminate. Qed.

(** Replacing one thread changes a total by the change of its counter. *)
Lemma totalOf_insert f bts i bt bt' d :
  bts !! i = Some bt ->
  u64 (f (stats bt')) = u64 (f (stats bt) + d) ->
  u64 (totalOf f (<[i := bt']> bts)) = u64 (totalOf f bts + d).
Proof.
  revert i. induction bts as [|b bts IH]; intros i Hi Hd; [discriminate|].
  destruct i as [|i]; cbn in Hi.
  - injection Hi as ->.
    change (u64 (f (stats bt') + totalOf f bts)
            = u64 (f (stats bt) + totalOf f bts + d)).
    rewrite <- u64_add_l, Hd, u64_add_l. f_equal. lia.
  - change (u64 (f (stats b) + totalOf f (<[i := bt']> bts))
            = u64 (f (stats b) + totalOf f bts + d)).
    rewrite <- u64_add_r, (IH i Hi Hd), u64_add_r. f_equal. lia.
Qed.

Lemma getStatistics_eq fb :
  getStatistics fb
  = (u64 (totalOf framesBuilt (FrameBuilder.builderThreads fb)),
     u64 (totalOf slicesProcessed (FrameBuilder.builderThreads fb)
          + FrameBuilder.slicesAggregated (FrameBuilder.stats fb)),
     u64 (totalOf buildErrors (FrameBuilder.builderThreads fb)),
     u64 (totalOf bytesWritten (FrameBuilder.builderThreads fb))).
Proof.
  unfold getStatistics.
  assert (H : forall bts a b c d,
            fold_left
              (fun '(built, slices, errors, bytes) builder =>
                 let s := stats builder in
                 (u64 (built + framesBuilt s),
                  u64 (slices + slicesProcessed s),
                  u64 (errors + buildErrors s),
                  u64 (bytes + bytesWritten s)))
              bts (u64 a, u64 b, u64 c, u64 d)
            = (u64 (a + totalOf framesBuilt bts),
               u64 (b + totalOf slicesProcessed bts),
               u64 (c + totalOf buildErrors bts),
               u64 (d + totalOf bytesWritten bts))).
  { induction bts as [|bt bts IH]; intros a b c d.
    - cbn. now rewrite !Z.add_0_r.
    - cbn [fold_left]. cbv zeta. rewrite IH.
      change (totalOf framesBuilt (bt :: bts))
        with (framesBuilt (stats bt) + totalOf framesBuilt bts).
      change (totalOf slicesProcessed (bt :: bts))
        with (slicesProcessed (stats bt) + totalOf slicesProcessed bts).
      change (totalOf buildErrors (bt :: bts))
        with (buildErrors (stats bt) + totalOf buildErrors bts).
      change (totalOf bytesWritten (bt :: bts))
        with (bytesWritten (stats bt) + totalOf bytesWritten bts).
      rewrite <- !Z.add_assoc, !u64_add_l. reflexivity. }
  specialize (H (FrameBuilder.builderThreads fb) 0 0 0 0).
  change (u64 0) with 0 in H.
  set (X := fold_left _ _ _) in *.
  assert (HX : X = (u64 (0 + totalOf framesBuilt (FrameBuilder.builderThreads fb)),
                    u64 (0 + totalOf slicesProcessed (FrameBuilder.builderThreads fb)),
                    u64 (0 + totalOf buildErrors (FrameBuilder.builderThreads fb)),
                    u64 (0 + totalOf bytesWritten (FrameBuilder.builderThreads fb))))
    by exact H.
  rewrite HX, !Z.add_0_l. now rewrite u64_add_l.
Qed.

Lemma u64_add a b : u64 (a + b) = u64 (u64 a + u64 b).
Proof. unfold u64. apply Z.add_mod. discriminate. Qed.

Lemma submits_cons e evs :
  submits (e :: evs)
  = (match e with
     | FrameBuilder.Submit _ _ _ _ _ => 1
     | FrameBuilder.Build _ _ _ _ => 0
     end) + submits evs.
Proof.
  unfold submits. cbn [List.filter]. destruct e; cbn [length]; lia.
Qed.

Lemma step_counts_slices fb e fb' :
  FrameBuilder.step fb e = Some fb' ->
  let d := match e with
           | FrameBuilder.Submit _ _ _ _ _ => 1
           | FrameBuilder.Build _ _ _ _ => 0
           end in
  u64 (totalOf slicesProcessed (FrameBuilder.builderThreads fb'))
  = u64 (totalOf slicesProcessed (FrameBuilder.builderThreads fb) + d)
  /\ u64 (FrameBuilder.slicesAggregated (FrameBuilder.stats fb'))
     = u64 (FrameBuilder.slicesAggregated (FrameBuilder.stats fb) + d).
Proof.
  destruct e as [now ts fn did data | i env now ts]; cbn [FrameBuilder.step].
  - unfold FrameBuilder.addTimeSlice.
    destruct (u64 (FrameBuilder.builderThreadCount fb) =? 0); [discriminate|].
    destruct (to_int _ <? 0); [discriminate|].
    destruct (FrameBuilder.builderThreads fb !! _) as [bt|] eqn:Hbt;
      [|discriminate].
    intros [= <-]. cbn. split.
    + apply (totalOf_insert slicesProcessed _ _ bt _ 1 Hbt).
      cbn. apply u64_u64.
    + apply u64_u64.
  - destruct (FrameBuilder.builderThreads fb !! i) as [bt|] eqn:Hbt;
      [|discriminate].
    intros [= <-]. cbn. split; [|now rewrite Z.add_0_r].
    apply (totalOf_insert slicesProcessed _ _ bt _ 0 Hbt).
    now rewrite slicesProcessed_buildEntry, Z.add_0_r.
Qed.

Lemma run_counts_slices evs fb fb' :
  FrameBuilder.run evs fb = Some fb' ->
  u64 (totalOf slicesProcessed (FrameBuilder.builderThreads fb'))
  = u64 (totalOf slicesProcessed (FrameBuilder.builderThreads fb) + submits evs)
  /\ u64 (FrameBuilder.slicesAggregated (FrameBuilder.stats fb'))
     = u64 (FrameBuilder.slicesAggregated (FrameBuilder.stats fb) + submits evs).
Proof.
  revert fb. induction evs as [|e evs IH]; intros fb; cbn [FrameBuilder.run].
  - intros [= <-]. change (submits []) with 0. now rewrite !Z.add_0_r.
  - destruct (FrameBuilder.step fb e) as [fb1|] eqn:Hstep; [|discriminate].
    intros Hrun. destruct (step_counts_slices fb e fb1 Hstep) as (H1 & H2).
    destruct (IH fb1 Hrun) as (I1 & I2). cbv zeta in *.
    rewrite submits_cons. split.
    + rewrite I1, <- u64_add_l, H1, u64_add_l. f_equal. lia.
    + rewrite I2, <- u64_add_l, H2, u64_add_l. f_equal. lia.
Qed.

(** X19. [getStatistics] counts every slice twice. Each [addTimeSlice]
    call increments both the counter of the thread it is routed to and
    the counter of the frame builder, and [getStatistics] adds the two:
    over a run, the slice count it reports grows by twice the number of
    calls (modulo 2^64), while the counter of the frame builder, which
    [stop] leaves as the final figure, grows by that number. *)
Theorem getStatistics_counts_slices_twice evs fb fb' :
  FrameBuilder.run evs fb = Some fb' ->
  (getStatistics fb').1.1.2
  = u64 ((getStatistics fb).1.1.2 + 2 * submits evs)
  /\ u64 (FrameBuilder.slicesAggregated (FrameBuilder.stats fb'))
     = u64 (FrameBuilder.slicesAggregated (FrameBuilder.stats fb) + submits evs).
Proof.
  intros Hrun. destruct (run_counts_slices evs fb fb' Hrun) as (H1 & H2).
  split; [|exact H2]. rewrite !getStatistics_eq. cbn [fst snd].
  rewrite u64_add_l, u64_add, H1, H2, <- u64_add. f_equal. lia.
Qed.

Lemma getStatistics_counts_slices_twice_witness :
  FrameBuilder.run runSingle fbStarted = Some fbAfterRunSingle
  /\ (getStatistics fbAfterRunSingle).1.1.2 = 2
  /\ FrameBuilder.slicesAggregated (FrameBuilder.stats fbAfterRunSingle) = 1.
Proof.
  assert (Hrun : FrameBuilder.run runSingle fbStarted = Some fbAfterRunSingle)
    by (vm_compute; reflexivity).
  split; [exact Hrun|].
  destruct (getStatistics_counts_slices_twice runSingle fbStarted
              fbAfterRunSingle Hrun) as (H1 & _).
  split; [rewrite H1; reflexivity|reflexivity].
Defined.

Lemma totalOf_ext f bts bts' :
  map stats bts = map stats bts' -> totalOf f bts = totalOf f bts'.
Proof.
  revert bts'. induction bts as [|bt bts IH]; intros [|bt' bts'] H;
    try discriminate; [reflexivity|].
  cbn in H. injection H as H1 H2.
  change (f (stats bt) + totalOf f bts = f (stats bt') + totalOf f bts').
  now rewrite H1, (IH bts' H2).
Qed.

Lemma signalAll_stats oversleep bts tm :
  map stats (FrameBuilder.signalAll oversleep bts tm).1 = map stats bts.
Proof.
  revert tm. induction bts as [|bt bts IH]; intros tm; [reflexivity|].
  cbn [FrameBuilder.signalAll]. unfold signalStop.
  specialize (IH (Nat.iter 5 (sleep_for oversleep 50) tm)).
  destruct (FrameBuilder.signalAll oversleep bts _) as [bts1 tm1].
  cbn [fst] in *. cbn [map]. now rewrite IH.
Qed.

Lemma waitAll_stats oversleep fuel bts tm bts' tm' :
  FrameBuilder.waitAll oversleep fuel bts tm = Some (bts', tm') ->
  map stats bts' = map stats bts.
Proof.
  revert tm bts' tm'. induction bts as [|bt bts IH]; intros tm bts' tm';
    cbn [FrameBuilder.waitAll].
  - now intros [= <- _].
  - destruct (waitForStop oversleep fuel bt tm) as [[bt1 tm1]|] eqn:Hw;
      [|discriminate].
    destruct (FrameBuilder.waitAll oversleep fuel bts tm1) as [[bts1 tm2]|]
      eqn:Hrest; [|discriminate].
    intros [= <- _]. cbn [map]. rewrite (IH _ _ _ Hrest). f_equal.
    unfold waitForStop in Hw.
    destruct (negb (joinable (thread bt))); [now injection Hw as <- _|].
    destruct (waitLoop oversleep fuel (clock tm) tm); [|discriminate].
    now injection Hw as <- _.
Qed.

Lemma collectStats_eq fb :
  let bts := FrameBuilder.builderThreads fb in
  FrameBuilder.stats (FrameBuilder.collectStats fb)
  = FrameBuilder.mkStats
      (u64 (totalOf framesBuilt bts))
      (FrameBuilder.slicesAggregated (FrameBuilder.stats fb))
      (u64 (totalOf buildErrors bts))
      (u64 (totalOf timestampErrors bts))
      (u64 (totalOf filesCreated bts))
      (u64 (totalOf bytesWritten bts)).
Proof.
  cbv zeta. unfold FrameBuilder.collectStats. cbn [FrameBuilder.stats FrameBuilder.with_stats].
  set (add := fun (s : FrameBuilder.Stats) (bt : t) => _).
  assert (H : forall bts a sa c d e g,
            fold_left add bts
              (FrameBuilder.mkStats (u64 a) sa (u64 c) (u64 d) (u64 e) (u64 g))
            = FrameBuilder.mkStats
                (u64 (a + totalOf framesBuilt bts)) sa
                (u64 (c + totalOf buildErrors bts))
                (u64 (d + totalOf timestampErrors bts))
                (u64 (e + totalOf filesCreated bts))
                (u64 (g + totalOf bytesWritten bts))).
  { induction bts as [|bt bts IH]; intros a sa c d e g.
    - cbn. now rewrite !Z.add_0_r.
    - cbn [fold_left]. subst add. cbn beta. cbv zeta.
      cbn [FrameBuilder.framesBuilt FrameBuilder.slicesAggregated
           FrameBuilder.buildErrors FrameBuilder.timestampErrors
           FrameBuilder.filesCreated FrameBuilder.bytesWritten].
      rewrite IH.
      change (totalOf framesBuilt (bt :: bts))
        with (framesBuilt (stats bt) + totalOf framesBuilt bts).
      change (totalOf buildErrors (bt :: bts))
        with (buildErrors (stats bt) + totalOf buildErrors bts).
      change (totalOf timestampErrors (bt :: bts))
        with (timestampErrors (stats bt) + totalOf timestampErrors bts).
      change (totalOf filesCreated (bt :: bts))
        with (filesCreated (stats bt) + totalOf filesCreated bts).
      change (totalOf bytesWritten (bt :: bts))
        with (bytesWritten (stats bt) + totalOf bytesWritten bts).
      rewrite <- !Z.add_assoc, !u64_add_l. reflexivity. }
  specialize (H (FrameBuilder.builderThreads fb) 0
                (FrameBuilder.slicesAggregated (FrameBuilder.stats fb)) 0 0 0 0).
  change (u64 0) with 0 in H. rewrite !Z.add_0_l in H. exact H.
Qed.

(** X20. The figures [stop] leaves. When [stop] returns, the five
    counters of the frame builder are the sums, modulo 2^64, of the
    counters of its threads, computed afresh (what the counters held
    before does not enter, so a second [stop] reports the same figures);
    the slice counter is left as it was; the counters of the threads are
    unchanged; and with ET output the handle of the ET system is
    cleared. *)
Theorem stop_collects_statistics (oversleep : nat -> Z) fuel fb tm fb' tm' :
  FrameBuilder.stop oversleep fuel fb tm = Some (fb', tm') ->
  let bts := FrameBuilder.builderThreads fb in
  FrameBuilder.stats fb'
  = FrameBuilder.mkStats
      (u64 (totalOf framesBuilt bts))
      (FrameBuilder.slicesAggregated (FrameBuilder.stats fb))
      (u64 (totalOf buildErrors bts))
      (u64 (totalOf timestampErrors bts))
      (u64 (totalOf filesCreated bts))
      (u64 (totalOf bytesWritten bts))
  /\ map stats (FrameBuilder.builderThreads fb') = map stats bts
  /\ (FrameBuilder.enableET fb = true -> FrameBuilder.etSystem fb' = false).
Proof.
  unfold FrameBuilder.stop.
  cbn [FrameBuilder.with_running FrameBuilder.builderThreads].
  pose proof (signalAll_stats oversleep (FrameBuilder.builderThreads fb) tm)
    as Hs.
  destruct (FrameBuilder.signalAll oversleep (FrameBuilder.builderThreads fb) tm)
    as [bts1 tm1]. cbn [fst] in Hs.
  destruct (FrameBuilder.waitAll oversleep fuel bts1 tm1) as [[bts2 tm2]|]
    eqn:Hw; [|discriminate].
  pose proof (waitAll_stats _ _ _ _ _ _ Hw) as Hw'.
  assert (Hm : map stats bts2 = map stats (FrameBuilder.builderThreads fb))
    by congruence.
  intros [= <- _]. cbv zeta.
  set (fb2 := FrameBuilder.collectStats _).
  assert (H2 : FrameBuilder.stats fb2
               = FrameBuilder.mkStats
                   (u64 (totalOf framesBuilt (FrameBuilder.builderThreads fb)))
                   (FrameBuilder.slicesAggregated (FrameBuilder.stats fb))
                   (u64 (totalOf buildErrors (FrameBuilder.builderThreads fb)))
                   (u64 (totalOf timestampErrors (FrameBuilder.builderThreads fb)))
                   (u64 (totalOf filesCreated (FrameBuilder.builderThreads fb)))
                   (u64 (totalOf bytesWritten (FrameBuilder.builderThreads fb)))).
  { subst fb2. rewrite collectStats_eq. cbv zeta.
    cbn [FrameBuilder.builderThreads FrameBuilder.with_threads
         FrameBuilder.stats FrameBuilder.with_running].
    now rewrite !(totalOf_ext _ _ _ Hm). }
  assert (H3 : FrameBuilder.builderThreads fb2 = bts2) by reflexivity.
  assert (H4 : FrameBuilder.etSystem fb2 = FrameBuilder.etSystem fb)
    by reflexivity.
  destruct (FrameBuilder.enableET fb); cbn [andb].
  - destruct (FrameBuilder.etSystem fb) eqn:Hsys.
    + split; [exact H2|]. split; [exact Hm|reflexivity].
    + split; [exact H2|]. split; [now rewrite H3|]. intros _. exact H4.
  - split; [exact H2|]. split; [now rewrite H3|discriminate].
Qed.

Lemma stop_collects_statistics_witness :
  exists fb' tm',
    FrameBuilder.stop exactSleep 11 fbAfterRunSingle (mkClockState 0 0)
    = Some (fb', tm')
    /\ FrameBuilder.framesBuilt (FrameBuilder.stats fb') = 1
    /\ FrameBuilder.slicesAggregated (FrameBuilder.stats fb') = 1.
Proof.
  destruct (FrameBuilder.stop exactSleep 11 fbAfterRunSingle (mkClockState 0 0))
    as [[fb' tm']|] eqn:E; [|vm_compute in E; discriminate].
  exists fb', tm'. split; [reflexivity|].
  destruct (stop_collects_statistics exactSleep 11 fbAfterRunSingle
              (mkClockState 0 0) fb' tm' E) as (H & _).
  rewrite H. split; reflexivity.
Defined.

(** ** Starting *)

Lemma attachAll_ok env i n atts :
  (FrameBuilder.attachAll env i n atts).2 = true
  <-> forall j, (i <= j < i + n)%nat ->
                is_Some (FrameBuilder.et_station_attach env j).
Proof.
  revert i atts. induction n as [|n IH]; intros i atts;
    cbn [FrameBuilder.attachAll].
  - split; [intros _ j Hj; lia|reflexivity].
  - destruct (FrameBuilder.et_station_attach env i) as [att|] eqn:Hi.
    + rewrite IH. split.
      * intros H j Hj. destruct (decide (j = i)) as [->|Hne].
        -- rewrite Hi. now eexists.
        -- apply H. lia.
      * intros H j Hj. apply H. lia.
    + split.
      * discriminate.
      * intros H. specialize (H i ltac:(lia)). rewrite Hi in H.
        destruct H as [x Hx]. discriminate.
Qed.

Lemma freshThread_spawn fb i : freshThread (FrameBuilder.spawn fb i).
Proof. unfold freshThread. now repeat split. Qed.

Lemma spawned_threads fb n :
  let bts := map (FrameBuilder.spawn fb) (seq 0 n) in
  length bts = n
  /\ Forall freshThread bts
  /\ (forall i bt, bts !! i = Some bt ->
                   threadIndex (config bt) = Z.of_nat i).
Proof.
  cbv zeta. split; [now rewrite length_map, length_seq|]. split.
  - apply Forall_fmap, Forall_forall. intros i _. apply freshThread_spawn.
  - intros i bt Hbt. rewrite list_lookup_fmap in Hbt.
    destruct (seq 0 n !! i) as [j|] eqn:Hj; [|discriminate].
    apply lookup_seq in Hj. destruct Hj as (-> & _).
    cbn in Hbt. injection Hbt as <-. reflexivity.
Qed.

(** X21. What [start] does. On a frame builder without threads, [start]
    succeeds exactly when the calls it makes outside the program
    succeed: with ET output, the configuration, the opening of the ET
    system and one attachment per thread; with file output, the output
    directory. When it fails it creates no thread and does not set
    [running]. When it succeeds the frame builder runs with as many
    threads as configured, thread [i] carries index [i], and every
    thread is running with an empty buffer, zero counters and no file
    open. *)
Theorem start_outcome env fb :
  FrameBuilder.builderThreads fb = [] ->
  let r := FrameBuilder.start env fb in
  (r.2 = true <-> startSucceeds env fb)
  /\ (r.2 = false ->
      FrameBuilder.builderThreads r.1 = []
      /\ FrameBuilder.running r.1 = FrameBuilder.running fb)
  /\ (r.2 = true ->
      FrameBuilder.running r.1 = true
      /\ FrameBuilder.builderThreadCount r.1 = FrameBuilder.builderThreadCount fb
      /\ length (FrameBuilder.builderThreads r.1)
         = Z.to_nat (FrameBuilder.builderThreadCount fb)
      /\ Forall freshThread (FrameBuilder.builderThreads r.1)
      /\ shardInv r.1
      /\ (forall i bt, FrameBuilder.builderThreads r.1 !! i = Some bt ->
                       threadIndex (config bt) = Z.of_nat i)).
Proof.
  intros Hnil. cbv zeta.
  set (n := Z.to_nat (FrameBuilder.builderThreadCount fb)).
  assert (Hgo : forall fb1,
            FrameBuilder.builderThreads fb1 = [] ->
            FrameBuilder.builderThreadCount fb1
            = FrameBuilder.builderThreadCount fb ->
            let fb2 :=
              FrameBuilder.with_running
                (FrameBuilder.with_threads fb1
                   (FrameBuilder.builderThreads fb1
                    ++ map (FrameBuilder.spawn fb1)
                         (seq 0 (Z.to_nat (FrameBuilder.builderThreadCount fb1)))))
                true in
            FrameBuilder.running fb2 = true
            /\ FrameBuilder.builderThreadCount fb2
               = FrameBuilder.builderThreadCount fb
            /\ length (FrameBuilder.builderThreads fb2) = n
            /\ Forall freshThread (FrameBuilder.builderThreads fb2)
            /\ shardInv fb2
            /\ (forall i bt, FrameBuilder.builderThreads fb2 !! i = Some bt ->
                             threadIndex (config bt) = Z.of_nat i)).
  { intros fb1 H1 Hc. cbv zeta. rewrite H1, Hc. fold n.
    cbn [FrameBuilder.running FrameBuilder.with_running
         FrameBuilder.with_threads FrameBuilder.builderThreads
         FrameBuilder.builderThreadCount app].
    destruct (spawned_threads fb1 n) as (Hlen & Hfresh & Hidx).
    split; [reflexivity|]. split; [exact Hc|]. split; [exact Hlen|].
    split; [exact Hfresh|]. split; [|exact Hidx].
    apply shardInv_empty. cbn [FrameBuilder.builderThreads].
    eapply Forall_impl; [exact Hfresh|]. now intros bt (_ & _ & H & _). }
  unfold FrameBuilder.start, startSucceeds.
  destruct (FrameBuilder.enableET fb) eqn:Het.
  - unfold FrameBuilder.initializeET. rewrite Het. cbn [negb].
    destruct (FrameBuilder.et_config_init_ok env); cbn [negb fst snd].
    2:{ split; [split; [discriminate|intros (H & _);
                         now destruct (H eq_refl)]|].
        split; [now split|discriminate]. }
    destruct (FrameBuilder.et_open_ok env); cbn [negb fst snd].
    2:{ split; [split; [discriminate|intros (H & _);
                         now destruct (H eq_refl) as (_ & ? & _)]|].
        split; [now split|discriminate]. }
    pose proof (attachAll_ok env 0 n (FrameBuilder.etAttachments fb))
      as Hatt. fold n.
    destruct (FrameBuilder.attachAll env 0 n (FrameBuilder.etAttachments fb))
      as [atts [|]]; cbn [negb fst snd] in *.
    + assert (Hall : forall i, (i < n)%nat ->
                is_Some (FrameBuilder.et_station_attach env i)).
      { intros i Hi. apply (proj1 Hatt); [reflexivity|lia]. }
      cbn [FrameBuilder.enableFileOutput FrameBuilder.with_et].
      destruct (FrameBuilder.enableFileOutput fb); cbn [andb].
      * destruct (FrameBuilder.output_dir_ready env); cbn [negb fst snd].
        -- split; [split; [intros _; now repeat split|reflexivity]|].
           split; [discriminate|]. intros _.
           exact (Hgo (FrameBuilder.with_et fb true atts) Hnil eq_refl).
        -- split; [split; [discriminate|intros (_ & H); now apply H]|].
           split; [now split|discriminate].
      * cbn [fst snd].
        split; [split; [intros _; split; [now repeat split|discriminate]
                       |reflexivity]|].
        split; [discriminate|]. intros _.
        exact (Hgo (FrameBuilder.with_et fb true atts) Hnil eq_refl).
    + split.
      * split; [discriminate|]. intros (H & _).
        destruct (H eq_refl) as (_ & _ & Hall).
        assert (Hs : false = true).
        { apply (proj2 Hatt). intros j Hj. apply Hall. lia. }
        discriminate.
      * split; [now split|discriminate].
  - cbn [negb fst snd].
    destruct (FrameBuilder.enableFileOutput fb); cbn [andb].
    + destruct (FrameBuilder.output_dir_ready env); cbn [negb fst snd].
      * split; [split; [intros _; split; [discriminate|reflexivity]
                       |reflexivity]|].
        split; [discriminate|]. intros _. exact (Hgo fb Hnil eq_refl).
      * split; [split; [discriminate|intros (_ & H); now apply H]|].
        split; [now split|discriminate].
    + cbn [fst snd].
      split; [split; [intros _; split; discriminate|reflexivity]|].
      split; [discriminate|]. intros _. exact (Hgo fb Hnil eq_refl).
Qed.

Lemma start_outcome_witness :
  FrameBuilder.builderThreads fbMade = []
  /\ startSucceeds startEnvOk fbMade
  /\ Forall freshThread
            (FrameBuilder.builderThreads (FrameBuilder.start startEnvOk fbMade).1).
Proof.
  assert (Hnil : FrameBuilder.builderThreads fbMade = []) by reflexivity.
  destruct (start_outcome startEnvOk fbMade Hnil) as (Hiff & _ & Hok).
  split; [exact Hnil|]. split; [now apply Hiff|].
  now destruct (Hok eq_refl) as (_ & _ & _ & H & _).
Defined.

(** ** The byte swap *)

Lemma swap_term0 v :
  (Z.shiftl (Z.land v (Z.ones 8)) 24) mod 2 ^ 32 = Z.shiftl (v mod 2 ^ 8) 24.
Proof. Z.bitblast; rewrite ?Z.testbit_neg_r by lia; reflexivity. Qed.

Lemma swap_term1 v :
  (Z.shiftl (Z.land v (Z.shiftl (Z.ones 8) 8)) 8) mod 2 ^ 32
  = Z.shiftl (Z.shiftr v 8 mod 2 ^ 8) 16.
Proof. Z.bitblast; rewrite ?Z.testbit_neg_r by lia; reflexivity. Qed.

Lemma swap_term2 v :
  Z.shiftr (Z.land v (Z.shiftl (Z.ones 8) 16)) 8
  = Z.shiftl (Z.shiftr v 16 mod 2 ^ 8) 8.
Proof. Z.bitblast; rewrite ?Z.testbit_neg_r by lia; reflexivity. Qed.

Lemma swap_term3 v :
  Z.shiftr (Z.land v (Z.shiftl (Z.ones 8) 24)) 24 = Z.shiftr v 24 mod 2 ^ 8.
Proof. Z.bitblast; rewrite ?Z.testbit_neg_r by lia; reflexivity. Qed.

Lemma bswap32_bytes v :
  bswap32 v
  = Z.lor (Z.lor (Z.lor (Z.shiftl (v mod 2 ^ 8) 24)
                        (Z.shiftl (Z.shiftr v 8 mod 2 ^ 8) 16))
                 (Z.shiftl (Z.shiftr v 16 mod 2 ^ 8) 8))
          (Z.shiftr v 24 mod 2 ^ 8).
Proof.
  rewrite bswap32_ones, swap_term0, swap_term1, swap_term2, swap_term3.
  reflexivity.
Qed.

Lemma bswap32_byte2' v :
  Z.shiftr (bswap32 v) 16 mod 2 ^ 8 = Z.shiftr v 8 mod 2 ^ 8.
Proof. rewrite <- bswap32_byte2, Z.shiftr_shiftr by lia. reflexivity. Qed.

Lemma bswap32_byte3' v : Z.shiftr (bswap32 v) 24 mod 2 ^ 8 = v mod 2 ^ 8.
Proof. rewrite <- (bswap32_byte3 v), !Z.shiftr_shiftr by lia. reflexivity. Qed.

Lemma bswap32_is_u32 v : is_u32 (bswap32 v).
Proof.
  rewrite bswap32_bytes. unfold is_u32.
  pose proof (Z.mod_pos_bound v (2 ^ 8) eq_refl).
  pose proof (Z.mod_pos_bound (Z.shiftr v 8) (2 ^ 8) eq_refl).
  pose proof (Z.mod_pos_bound (Z.shiftr v 16) (2 ^ 8) eq_refl).
  pose proof (Z.mod_pos_bound (Z.shiftr v 24) (2 ^ 8) eq_refl).
  change (2 ^ 8) with 256 in *.
  repeat apply lor_bound; try lia; rewrite ?Z.shiftl_mul_pow2 by lia;
    change (2 ^ 32) with 4294967296; change (2 ^ 24) with 16777216;
    change (2 ^ 16) with 65536; change (2 ^ 8) with 256; lia.
Qed.

Lemma bswap32_involutive v : bswap32 (bswap32 v) = u32 v.
Proof.
  rewrite <- (u32_small (bswap32 (bswap32 v))) by apply bswap32_is_u32.
  unfold u32 at 1. rewrite <- be_bytes_recombine.
  rewrite bswap32_byte3', bswap32_byte0.
  rewrite bswap32_byte2', bswap32_byte1.
  rewrite (bswap32_byte1 (bswap32 v)), bswap32_byte2'.
  rewrite (bswap32_byte0 (bswap32 v)), bswap32_byte3'.
  apply be_bytes_recombine.
Qed.

Lemma byte_of_Z_eq a b : a mod 2 ^ 8 = b mod 2 ^ 8 -> byte.of_Z a = byte.of_Z b.
Proof.
  intros H. apply byte.unsigned_inj. rewrite !byte.unsigned_of_Z.
  unfold byte.wrap. exact H.
Qed.

Lemma le_split_bswap32 v : le_split 4 (bswap32 v) = rev (le_split 4 v).
Proof.
  rewrite !le_split_4. cbn [rev app].
  rewrite (byte_of_Z_eq (bswap32 v) (Z.shiftr (Z.shiftr (Z.shiftr v 8) 8) 8))
    by (rewrite bswap32_byte0, !Z.shiftr_shiftr by lia; reflexivity).
  rewrite (byte_of_Z_eq (Z.shiftr (bswap32 v) 8) (Z.shiftr (Z.shiftr v 8) 8))
    by (rewrite bswap32_byte1, !Z.shiftr_shiftr by lia; reflexivity).
  rewrite (byte_of_Z_eq (Z.shiftr (Z.shiftr (bswap32 v) 8) 8) (Z.shiftr v 8))
    by apply bswap32_byte2.
  rewrite (byte_of_Z_eq (Z.shiftr (Z.shiftr (Z.shiftr (bswap32 v) 8) 8) 8) v)
    by apply bswap32_byte3.
  reflexivity.
Qed.

Lemma swap32_bswap32 v : Receiver.swap32 v = bswap32 v.
Proof. reflexivity. Qed.

(** X22. [swap32] reverses the four bytes of a word. Its result is a
    32-bit value whose bytes in memory are those of the argument in the
    opposite order, and swapping twice gives the argument back, reduced
    modulo 2^32. The swap of the encoder is the same function. *)
Theorem swap32_reverses_bytes v :
  is_u32 (Receiver.swap32 v)
  /\ le_split 4 (Receiver.swap32 v) = rev (le_split 4 v)
  /\ Receiver.swap32 (Receiver.swap32 v) = u32 v
  /\ Receiver.swap32 v = bswap32 v.
Proof.
  rewrite !swap32_bswap32. split; [apply bswap32_is_u32|].
  split; [apply le_split_bswap32|]. split; [apply bswap32_involutive|].
  reflexivity.
Qed.

(** ** The payload validation of the receiver *)

Lemma host_word_is_u32 p i : is_u32 (host_word p i).
Proof.
  unfold host_word, is_u32.
  pose proof (le_combine_bound (take 4 (drop (4 * i) p))) as Hb.
  assert (Hlen : (length (take 4 (drop (4 * i) p)) <= 4)%nat)
    by (rewrite length_take; lia).
  split; [lia|]. eapply Z.lt_le_trans; [apply Hb|].
  apply Z.pow_le_mono_r; lia.
Qed.

Lemma le_combine_rev4 b0 b1 b2 b3 :
  le_combine [b3; b2; b1; b0] = bswap32 (le_combine [b0; b1; b2; b3]).
Proof.
  set (w := le_combine [b0; b1; b2; b3]).
  assert (Hs : le_split 4 w = [b0; b1; b2; b3])
    by (apply split_le_combine'; reflexivity).
  change [b3; b2; b1; b0] with (rev [b0; b1; b2; b3]).
  rewrite <- Hs, <- le_split_bswap32, le_combine_split.
  apply Z.mod_small. exact (bswap32_is_u32 w).
Qed.

Lemma swapWords_length p : length (swapWords p) = length p.
Proof.
  assert (H : forall n p, (length p <= n)%nat ->
                          length (swapWords p) = length p).
  { clear p. induction n as [|n IH]; intros p Hp.
    - destruct p; [reflexivity|cbn in Hp; lia].
    - destruct p as [|b0 [|b1 [|b2 [|b3 rest]]]]; try reflexivity.
      cbn [swapWords length]. rewrite IH; [reflexivity|].
      cbn [length] in Hp. lia. }
  apply (H (length p)). lia.
Qed.

Lemma host_word_swapWords p i :
  (4 * i + 4 <= length p)%nat ->
  host_word (swapWords p) i = bswap32 (host_word p i).
Proof.
  revert p. induction i as [|i IH]; intros p Hp;
    destruct p as [|b0 [|b1 [|b2 [|b3 rest]]]]; cbn [length] in Hp; try lia.
  - cbn [swapWords]. unfold host_word. cbn [Nat.mul skipn firstn].
    apply le_combine_rev4.
  - cbn [swapWords].
    assert (Hd : forall (a b c d : byte) l,
              host_word (a :: b :: c :: d :: l) (S i) = host_word l i).
    { intros a b c d l. unfold host_word.
      replace (4 * S i)%nat with (4 + 4 * i)%nat by lia. reflexivity. }
    rewrite !Hd. apply IH. lia.
Qed.

(** The outcome of [parseEVIOPayload] in terms of the words read. *)
Lemma parseEVIOPayload_cases p :
  let m := Receiver.parseEVIOPayload p in
  let magic := host_word p 7 in
  let swapped := magic =? 0x0001dac0 in
  let rw i := if swapped then bswap32 (host_word p i) else host_word p i in
  Receiver.valid m
  = (64 <=? Z.of_nat (length p))
    && ((magic =? 0xc0da0100) || swapped)
    && (Z.land (Z.shiftr (rw 9%nat) 8) 0xFF =? 0x10)
  /\ (Receiver.valid m = true ->
      Receiver.timestamp m
      = Z.lor (u64 (Z.shiftl (rw 15%nat) 32)) (rw 14%nat)
      /\ Receiver.frameNumber m = rw 13%nat
      /\ Receiver.dataId m = Z.land (rw 9%nat) 0xFF
      /\ Receiver.wrongEndian m = swapped).
Proof.
  cbv zeta. unfold Receiver.parseEVIOPayload.
  rewrite (Z.ltb_antisym 64 (Z.of_nat (length p))).
  destruct (64 <=? Z.of_nat (length p)); cbn [negb andb];
    [|split; [reflexivity|discriminate]].
  destruct (Z.eqb_spec (host_word p 7) 0xc0da0100) as [HA|HA].
  - rewrite HA. cbn [Z.eqb Pos.eqb orb andb].
    destruct (Z.land (Z.shiftr (host_word p 9) 8) 255 =? 16);
      cbn [negb]; [|split; [reflexivity|discriminate]].
    split; [reflexivity|]. intros _. now repeat split.
  - destruct (host_word p 7 =? 0x0001dac0); cbn [orb andb];
      [|split; [reflexivity|discriminate]].
    rewrite swap32_bswap32.
    destruct (Z.land (Z.shiftr (bswap32 (host_word p 9)) 8) 255 =? 16);
      cbn [negb]; [|split; [reflexivity|discriminate]].
    split; [reflexivity|]. intros _. now repeat split.
Qed.

Lemma read_word_is_u32 (swapped : bool) p i :
  is_u32 (if swapped then bswap32 (host_word p i) else host_word p i).
Proof. destruct swapped; [apply bswap32_is_u32|apply host_word_is_u32]. Qed.

Lemma land_255 w : 0 <= Z.land w 0xFF < 2 ^ 8.
Proof.
  change 0xFF with (Z.ones 8). rewrite Z.land_ones by lia.
  apply Z.mod_pos_bound. reflexivity.
Qed.

(** What [parseEVIOPayload] guarantees of a payload it accepts. *)
Lemma valid_payload_spec p :
  Receiver.valid (Receiver.parseEVIOPayload p) = true ->
  let m := Receiver.parseEVIOPayload p in
  (64 <= length p)%nat
  /\ is_u64 (Receiver.timestamp m)
  /\ is_u32 (Receiver.frameNumber m)
  /\ 0 <= Receiver.dataId m < 2 ^ 8
  /\ Receiver.wrongEndian m = (host_word p 7 =? 0x0001dac0)
  /\ (forall ts fn id, sliceValid (TimeSlice.make ts fn id p) = true).
Proof.
  intros Hv. cbv zeta.
  destruct (parseEVIOPayload_cases p) as (Hvalid & Hfields).
  cbv zeta in *. rewrite Hv in Hvalid. symmetry in Hvalid.
  apply andb_prop in Hvalid as [Hvalid _].
  apply andb_prop in Hvalid as [Hlen Hmagic].
  apply Z.leb_le in Hlen.
  destruct (Hfields Hv) as (Hts & Hfn & Hid & Hwe).
  split; [lia|]. split.
  { rewrite Hts. unfold is_u64. apply lor_bound; [lia|apply u64_is_u64|].
    pose proof (read_word_is_u32 (host_word p 7 =? 0x0001dac0) p 14) as H.
    unfold is_u32 in H. split; [lia|].
    eapply Z.lt_trans; [apply H|reflexivity]. }
  split; [rewrite Hfn; apply read_word_is_u32|].
  split; [rewrite Hid; apply land_255|].
  split; [exact Hwe|].
  intros ts fn id. unfold sliceValid, checkSlice. cbn [TimeSlice.payload TimeSlice.make].
  destruct (Z.ltb_spec (Z.of_nat (length p)) 32) as [|_]; [lia|].
  apply orb_prop in Hmagic. destruct Hmagic as [-> | ->]; cbn [negb andb];
    [reflexivity|]. now rewrite andb_false_r.
Qed.

(** X23. What a valid payload guarantees. When [parseEVIOPayload]
    reports a payload valid, the payload has at least 64 bytes, the
    metadata are within the ranges of their types with the data id
    below 256, the payload is flagged wrong-endian exactly when word 8
    holds the swapped magic number, and a slice carrying this payload
    passes the checks of step 1 of the encoder: the receiver never
    hands the frame builder a slice that the encoder drops. *)
Theorem valid_payload_passes_encoder p :
  Receiver.valid (Receiver.parseEVIOPayload p) = true ->
  let m := Receiver.parseEVIOPayload p in
  (64 <= length p)%nat
  /\ is_u64 (Receiver.timestamp m)
  /\ is_u32 (Receiver.frameNumber m)
  /\ 0 <= Receiver.dataId m < 2 ^ 8
  /\ Receiver.wrongEndian m = (host_word p 7 =? 0x0001dac0)
  /\ (forall ts fn id, sliceValid (TimeSlice.make ts fn id p) = true).
Proof. exact (valid_payload_spec p). Qed.

Lemma valid_payload_passes_encoder_witness :
  Receiver.valid
    (Receiver.parseEVIOPayload
       (codaPrefix ++ host_store_words (map bswap32 [0; 0x00021042; 0; 0; 0; 7; 0x10; 0]))) = true
  /\ Receiver.dataId
       (Receiver.parseEVIOPayload
          (codaPrefix ++ host_store_words (map bswap32 [0; 0x00021042; 0; 0; 0; 7; 0x10; 0])))
     = 0x42
  /\ sliceValid
       (TimeSlice.make 0x10 7 0x42
          (codaPrefix ++ host_store_words (map bswap32 [0; 0x00021042; 0; 0; 0; 7; 0x10; 0])))
     = true.
Proof.
  assert (Hv : Receiver.valid
                 (Receiver.parseEVIOPayload
                    (codaPrefix
                     ++ host_store_words (map bswap32 [0; 0x00021042; 0; 0; 0; 7; 0x10; 0])))
               = true) by (vm_compute; reflexivity).
  split; [exact Hv|]. split; [vm_compute; reflexivity|].
  destruct (valid_payload_passes_encoder _ Hv) as (_ & _ & _ & _ & _ & H).
  apply H.
Defined.

(** X24. The payload validation does not depend on the byte order of
    the sender. A payload and the payload with the bytes of every
    32-bit word reversed are both valid or both invalid, and when valid
    they give the same timestamp, frame number and data id; only the
    wrong-endian flag differs. *)
Theorem parse_is_byte_order_independent p :
  let m := Receiver.parseEVIOPayload p in
  let m' := Receiver.parseEVIOPayload (swapWords p) in
  Receiver.valid m' = Receiver.valid m
  /\ (Receiver.valid m = true ->
      Receiver.timestamp m' = Receiver.timestamp m
      /\ Receiver.frameNumber m' = Receiver.frameNumber m
      /\ Receiver.dataId m' = Receiver.dataId m
      /\ Receiver.wrongEndian m' = negb (Receiver.wrongEndian m)).
Proof.
  cbv zeta.
  destruct (parseEVIOPayload_cases p) as (Hv & Hf).
  destruct (parseEVIOPayload_cases (swapWords p)) as (Hv' & Hf').
  cbv zeta in *. rewrite swapWords_length in Hv'.
  destruct (Z.leb_spec 64 (Z.of_nat (length p))) as [Hlen|Hlen];
    cbn [andb] in Hv, Hv';
    [|split; [now rewrite Hv, Hv'|intros H; rewrite Hv in H; discriminate]].
  assert (Hw : forall i, (i < 16)%nat ->
             host_word (swapWords p) i = bswap32 (host_word p i))
    by (intros i Hi; apply host_word_swapWords; lia).
  rewrite (Hw 7%nat), (Hw 9%nat) in Hv' by lia.
  rewrite (Hw 7%nat), (Hw 9%nat), (Hw 13%nat), (Hw 14%nat), (Hw 15%nat)
    in Hf' by lia.
  assert (Hinv : forall i, bswap32 (bswap32 (host_word p i)) = host_word p i).
  { intros i. rewrite bswap32_involutive. apply u32_small, host_word_is_u32. }
  destruct (Z.eqb_spec (host_word p 7) 0xc0da0100) as [HA|HA].
  - rewrite HA in *.
    change (bswap32 0xc0da0100 =? 0x0001dac0) with true in *.
    change (bswap32 0xc0da0100 =? 0xc0da0100) with false in *.
    change (0xc0da0100 =? 0x0001dac0) with false in *.
    cbn [orb andb] in *. rewrite !Hinv in Hv'. rewrite !Hinv in Hf'.
    split; [congruence|]. intros H.
    destruct (Hf H) as (-> & -> & -> & ->).
    destruct (Hf' ltac:(congruence)) as (-> & -> & -> & ->). now repeat split.
  - destruct (Z.eqb_spec (host_word p 7) 0x0001dac0) as [HB|HB].
    + rewrite HB in *.
      change (bswap32 0x0001dac0 =? 0x0001dac0) with false in *.
      change (bswap32 0x0001dac0 =? 0xc0da0100) with true in *.
      cbn [orb andb] in *.
      split; [congruence|]. intros H.
      destruct (Hf H) as (-> & -> & -> & ->).
      destruct (Hf' ltac:(congruence)) as (-> & -> & -> & ->).
      now repeat split.
    + cbn [orb andb] in Hv.
      assert (H1 : (bswap32 (host_word p 7) =? 0xc0da0100) = false).
      { apply Z.eqb_neq. intros E. apply HB.
        rewrite <- (Hinv 7%nat), E. reflexivity. }
      assert (H2 : (bswap32 (host_word p 7) =? 0x0001dac0) = false).
      { apply Z.eqb_neq. intros E. apply HA.
        rewrite <- (Hinv 7%nat), E. reflexivity. }
      rewrite H1, H2 in Hv'. cbn [orb andb] in Hv'.
      split; [now rewrite Hv, Hv'|]. intros H. rewrite Hv in H. discriminate.
Qed.

(** ** Runs of the receiver *)

Lemma framesAccounted_step r e r' :
  framesAccounted r -> Receiver.step r e = Some r' -> framesAccounted r'.
Proof.
  unfold framesAccounted. intros Hacc.
  destruct e as [now res | i env now ts]; cbn [Receiver.step].
  - destruct res as [| | eventBuf eventNum dataId']; cbn [Receiver.receiveRound].
    + intros [= <-]. exact Hacc.
    + intros [= <-]. exact Hacc.
    + cbv zeta.
      destruct (Receiver.valid (Receiver.parseEVIOPayload eventBuf));
        cbn [negb].
      * destruct (FrameBuilder.addTimeSlice _ _ _ _ _ _) as [fb|] eqn:Hadd;
          [|discriminate].
        intros [= <-]. cbn.
        unfold FrameBuilder.addTimeSlice in Hadd.
        destruct (u64 (FrameBuilder.builderThreadCount _) =? 0);
          [discriminate|].
        destruct (to_int _ <? 0); [discriminate|].
        destruct (FrameBuilder.builderThreads _ !! _); [|discriminate].
        injection Hadd as <-. cbn.
        rewrite u64_u64, u64_add_r, <- u64_add_l, Hacc, u64_add_l.
        f_equal. lia.
      * intros [= <-]. cbn.
        rewrite u64_u64, u64_add_l, <- u64_add_l, Hacc, u64_add_l.
        f_equal. lia.
  - cbn [FrameBuilder.step].
    destruct (FrameBuilder.builderThreads (Receiver.frameBuilder r) !! i);
      [|discriminate].
    intros [= <-]. exact Hacc.
Qed.

(** X25. Every received frame is accounted for. Over a run of the
    receive loop and the builder threads, the number of frames received
    equals, modulo 2^64, the number rejected by the payload validation
    plus the number handed to the frame builder: no frame is dropped
    silently between reassembly and aggregation, and none is aggregated
    without having been validated. *)
Theorem receiver_accounts_for_every_frame evs r r' :
  framesAccounted r -> Receiver.run evs r = Some r' -> framesAccounted r'.
Proof.
  revert r. induction evs as [|e evs IH]; intros r Hacc; cbn [Receiver.run].
  - now intros [= <-].
  - destruct (Receiver.step r e) as [r1|] eqn:Hstep; [|discriminate].
    apply IH. exact (framesAccounted_step r e r1 Hacc Hstep).
Qed.

Lemma receiver_accounts_for_every_frame_witness :
  framesAccounted (Receiver.around fbStarted)
  /\ exists r',
       Receiver.run
         [Receiver.Receive 0
            (Receiver.RecvEvent
               (codaPrefix
                ++ host_store_words
                     (map bswap32 [0; 0x00021042; 0; 0; 0; 7; 0x10; 0])) 1 0);
          Receiver.Receive 1 (Receiver.RecvEvent codaPrefix 2 0)]
         (Receiver.around fbStarted) = Some r'
       /\ framesAccounted r'.
Proof.
  assert (H0 : framesAccounted (Receiver.around fbStarted)) by reflexivity.
  split; [exact H0|].
  destruct (Receiver.run
              [Receiver.Receive 0
                 (Receiver.RecvEvent
                    (codaPrefix
                     ++ host_store_words
                          (map bswap32 [0; 0x00021042; 0; 0; 0; 7; 0x10; 0])) 1 0);
               Receiver.Receive 1 (Receiver.RecvEvent codaPrefix 2 0)]
              (Receiver.around fbStarted)) as [r'|] eqn:E;
    [|vm_compute in E; discriminate].
  exists r'. split; [reflexivity|].
  exact (receiver_accounts_for_every_frame _ _ _ H0 E).
Defined.

(** ** From the receiver to the encoder *)

Lemma readyToBuild_addTimeSlice now slice bt :
  sliceValid slice = true ->
  readyToBuild (frameBuffer bt) ->
  readyToBuild (frameBuffer (addTimeSlice now slice bt)).
Proof.
  intros Hs (Hinv & Hval). split; [now apply bufferInv_addTimeSlice|].
  rewrite frameBuffer_addTimeSlice.
  apply map_Forall_insert_2; [|exact Hval].
  cbn [AggregatedFrame.addSlice AggregatedFrame.slices].
  rewrite forallb_app. cbn [forallb]. rewrite Hs, andb_true_r.
  destruct (frameBuffer bt !! TimeSlice.timestamp slice) as [f|] eqn:Hf;
    cbv [default from_option id].
  - destruct (AggregatedFrame.timestamp f =? 0);
      cbn [AggregatedFrame.slices]; exact (Hval _ _ Hf).
  - reflexivity.
Qed.

Lemma readyToBuild_buildEntry env now ts bt :
  readyToBuild (frameBuffer bt) ->
  readyToBuild (frameBuffer (buildEntry env now ts bt)).
Proof.
  intros (Hinv & Hval). split; [now apply bufferInv_buildEntry|].
  intros k f Hk. apply frameBuffer_buildEntry in Hk. exact (Hval _ _ Hk).
Qed.

Lemma readyToBuild_builds buf k f slop output :
  readyToBuild buf -> buf !! k = Some f ->
  (buildEVIO6Frame slop f output).1 = (false, true).
Proof.
  intros (Hinv & Hval) Hk.
  destruct (Hinv _ _ Hk) as (Hne & _ & Hall). pose proof (Hval _ _ Hk) as Hv.
  cbn beta in Hv.
  rewrite buildEVIO6Frame_built by now apply keptBanks_all_nonempty.
  rewrite (checkTimestampConsistency_same slop f k Hall). cbn [fst orb].
  assert (He : existsb (fun s => negb (sliceValid s)) (AggregatedFrame.slices f)
               = false).
  { clear -Hv. induction (AggregatedFrame.slices f) as [|s ss IH];
      [reflexivity|].
    cbn [forallb existsb] in *. apply andb_prop in Hv as [-> Hss].
    cbn. now apply IH. }
  now rewrite He.
Qed.

Lemma receiver_step_ready r e :
  started (Receiver.frameBuilder r) -> receiverInv r ->
  builderExists (Receiver.frameBuilder r) e ->
  exists r',
    Receiver.step r e = Some r'
    /\ started (Receiver.frameBuilder r') /\ receiverInv r'
    /\ FrameBuilder.builderThreadCount (Receiver.frameBuilder r')
       = FrameBuilder.builderThreadCount (Receiver.frameBuilder r).
Proof.
  intros Hst Hinv He.
  destruct e as [now res | i env now ts]; cbn [Receiver.step].
  - destruct res as [| | eventBuf eventNum dataId']; cbn [Receiver.receiveRound].
    + eexists. split; [reflexivity|]. split; [exact Hst|]; split; [exact Hinv|reflexivity].
    + exists r. split; [reflexivity|]. split; [exact Hst|]; split; [exact Hinv|reflexivity].
    + cbv zeta.
      destruct (Receiver.valid (Receiver.parseEVIOPayload eventBuf)) eqn:Hv;
        cbn [negb];
        [|eexists; split; [reflexivity|]; split; [exact Hst|]; split; [exact Hinv|reflexivity]].
      destruct (valid_payload_spec eventBuf Hv) as (_ & Hts & _ & _ & _ & Hok).
      destruct (addTimeSlice_defined now
                  (Receiver.timestamp (Receiver.parseEVIOPayload eventBuf))
                  (Receiver.frameNumber (Receiver.parseEVIOPayload eventBuf))
                  (Receiver.dataId (Receiver.parseEVIOPayload eventBuf))
                  eventBuf (Receiver.frameBuilder r) Hst (proj1 Hts))
        as (bt & Hbt & ->).
      eexists. split; [reflexivity|].
      cbn [Receiver.frameBuilder].
      destruct Hst as (HN & Hlen).
      split; [|split; [|reflexivity]].
      * split; [exact HN|]. cbn. now rewrite length_insert.
      * unfold receiverInv. cbn. apply Forall_insert; [exact Hinv|].
        apply readyToBuild_addTimeSlice; [apply Hok|].
        unfold receiverInv in Hinv. rewrite Forall_lookup in Hinv.
        exact (Hinv _ _ Hbt).
  - cbn in He. cbn [FrameBuilder.step]. destruct Hst as (HN & Hlen).
    destruct (lookup_lt_is_Some_2
                (FrameBuilder.builderThreads (Receiver.frameBuilder r)) i)
      as [bt Hbt]; [lia|].
    rewrite Hbt. eexists. split; [reflexivity|].
    cbn [Receiver.frameBuilder].
    split; [|split; [|reflexivity]].
    + split; [exact HN|]. cbn. now rewrite length_insert.
    + unfold receiverInv. cbn. apply Forall_insert; [exact Hinv|].
      apply readyToBuild_buildEntry.
      unfold receiverInv in Hinv. rewrite Forall_lookup in Hinv.
      exact (Hinv _ _ Hbt).
Qed.

(** X26. From the receiver to the encoder. On a started frame builder
    fed by the receive loop, with payloads of any content, a run never
    leaves defined behaviour, and every frame that waits in a buffer is
    one the encoder builds without error: all its slices passed the
    payload validation and carry the timestamp it is stored under, so
    [buildEVIO6Frame] returns [true] and raises no timestamp error,
    whatever the slop. Build errors can come from the sinks only. *)
Theorem received_frames_always_build evs r :
  started (Receiver.frameBuilder r) -> receiverInv r ->
  Forall (builderExists (Receiver.frameBuilder r)) evs ->
  exists r',
    Receiver.run evs r = Some r'
    /\ receiverInv r'
    /\ forall i bt k f slop output,
         FrameBuilder.builderThreads (Receiver.frameBuilder r') !! i = Some bt ->
         frameBuffer bt !! k = Some f ->
         (buildEVIO6Frame slop f output).1 = (false, true).
Proof.
  intros Hst Hinv Hev.
  assert (H : exists r',
             Receiver.run evs r = Some r'
             /\ started (Receiver.frameBuilder r') /\ receiverInv r').
  { revert r Hst Hinv Hev. induction evs as [|e evs IH]; intros r Hst Hinv Hev.
    - exists r. split; [reflexivity|]. split; [exact Hst|exact Hinv].
    - cbn [Receiver.run].
      destruct (receiver_step_ready r e Hst Hinv (Forall_inv Hev))
        as (r1 & -> & Hst1 & Hinv1 & Hc1).
      apply IH; [exact Hst1|exact Hinv1|].
      eapply Forall_impl; [exact (Forall_inv_tail Hev)|].
      intros e'. unfold builderExists. now rewrite Hc1. }
  destruct H as (r' & Hrun & _ & Hinv').
  exists r'. split; [exact Hrun|]. split; [exact Hinv'|].
  intros i bt k f slop output Hbt Hk.
  unfold receiverInv in Hinv'. rewrite Forall_lookup in Hinv'.
  exact (readyToBuild_builds _ k f slop output (Hinv' _ _ Hbt) Hk).
Qed.

Lemma received_frames_always_build_witness :
  started (Receiver.frameBuilder (Receiver.around fbStarted))
  /\ receiverInv (Receiver.around fbStarted)
  /\ exists r',
       Receiver.run
         [Receiver.Receive 0
            (Receiver.RecvEvent
               (codaPrefix
                ++ host_store_words
                     (map bswap32 [0; 0x00021042; 0; 0; 0; 7; 0x10; 0])) 1 0);
          Receiver.Build 0 buildEnvOk 5 0x10]
         (Receiver.around fbStarted) = Some r'
       /\ receiverInv r'.
Proof.
  assert (Hst : started (Receiver.frameBuilder (Receiver.around fbStarted))).
  { split; [split; reflexivity|reflexivity]. }
  assert (Hinv : receiverInv (Receiver.around fbStarted)).
  { repeat (apply List.Forall_cons;
            [split; apply map_Forall_empty|]). apply List.Forall_nil. }
  split; [exact Hst|]. split; [exact Hinv|].
  destruct (received_frames_always_build
              [Receiver.Receive 0
                 (Receiver.RecvEvent
                    (codaPrefix
                     ++ host_store_words
                          (map bswap32 [0; 0x00021042; 0; 0; 0; 7; 0x10; 0])) 1 0);
               Receiver.Build 0 buildEnvOk 5 0x10]
              (Receiver.around fbStarted) Hst Hinv) as (r' & Hrun & Hinv' & _).
  { repeat (apply List.Forall_cons; [first [exact I | vm_compute; lia]|]).
    apply List.Forall_nil. }
  exists r'. split; [exact Hrun|exact Hinv'].
Defined.
